(** * SCEPy: construction and parsing of SCEP pkiMessages

    A shallow embedding of [scepy/envelope.py], [scepy/builders.py] and
    [scepy/message.py].

    - Python objects that are shared and mutated in place (the list of CMS
      attributes of a [PKIMessageBuilder]) live in a heap indexed by
      locations; everything else is passed by value.
    - A Python call is a computation in the monad [M]: it reads and writes
      the world (heap and random source) and either returns or raises.
      The world survives a raise, as it does in Python.
    - The primitives of the [cryptography] package and the DER codec of
      [asn1crypto] are interfaces ([Crypto], [Codec]); the development is
      generic in them and [Toy] gives small executable instances. *)

From Stdlib Require Import ZArith List Lia Bool.
From Stdlib Require Import Strings.Byte.
From stdpp Require Import base option list gmap strings.

(** ** Bytes *)

Definition bytes := list byte.

Definition byte_of_nat (n : nat) : byte := default "000"%byte (Byte.of_nat n).

Fixpoint bytes_eqb (a b : bytes) : bool :=
  match a, b with
  | [], [] => true
  | x :: a', y :: b' => Byte.eqb x y && bytes_eqb a' b'
  | _, _ => false
  end.

(** ** Python exceptions *)

Inductive PyError :=
  | ValueError (msg : string)
  | AssertionError
  | AttributeError
  | KeyError
  | IndexError
  | TypeError
  | UnboundLocalError
  | InvalidSignature.

Inductive outcome (A : Type) :=
  | Ok (a : A)
  | Raise (e : PyError).
Arguments Ok {A} a.
Arguments Raise {A} e.

Definition is_ok {A} (o : outcome A) : bool :=
  match o with Ok _ => true | Raise _ => false end.

(** The names the specification gives to the errors that have a counterpart
    in the code. *)
Definition MissingFailInfo : PyError :=
  ValueError "You cannot specify failure without failure info".
Definition BadSignature : PyError := InvalidSignature.
Definition BadPadding : PyError := ValueError "Invalid padding bytes.".

(** ** The random source

    [os.urandom] reads a tape of bytes from a cursor that only moves
    forward. *)

Record RNG := mkRNG { tape : nat -> byte; pos : nat }.

Definition urandom (n : nat) (r : RNG) : bytes * RNG :=
  (map (tape r) (seq (pos r) n), mkRNG (tape r) (pos r + n)).

(** The bytes the next [os.urandom(n)] returns, and the source after it. *)
Definition drawn (n : nat) (r : RNG) : bytes := fst (urandom n r).
Definition skip (n : nat) (r : RNG) : RNG := snd (urandom n r).

(** ** ASN.1 values (asn1crypto), named by their [native] names *)

Record RSAPublicKey := mkPub { pub_n : Z; pub_e : Z }.
Record RSAPrivateKey := mkPriv { priv_n : Z; priv_d : Z }.

Record Certificate := mkCert {
  issuer : string;
  serial_number : Z;
  public_key : RSAPublicKey;
}.

Inductive CertificateChoices :=
  | certificate (c : Certificate)
  | other_certificate_format (der : bytes).

Record IssuerAndSerialNumber := mkIAS {
  ias_issuer : string;
  ias_serial_number : Z;
}.

(** [SignerIdentifier] and [RecipientIdentifier] are the same choice. *)
Inductive Identifier :=
  | issuer_and_serial_number (ias : IssuerAndSerialNumber)
  | subject_key_identifier (ski : bytes).

Inductive AttrValue :=
  | ContentTypeValue (name : string)
  | OctetString (b : bytes)
  | PrintableString (s : string).

Record CMSAttribute := mkAttr {
  attr_type : string;
  attr_values : list AttrValue;
}.

Record KeyTransRecipientInfo := mkKTRI {
  ktri_version : Z;
  ktri_rid : Identifier;
  ktri_key_encryption_algorithm : string;
  ktri_encrypted_key : bytes;
}.

Inductive RecipientInfo :=
  | ktri (k : KeyTransRecipientInfo)
  | other_recipient_info.

Record EncryptionAlgorithm := mkEncAlg {
  ea_algorithm : string;
  ea_parameters : bytes;
}.

Record EncryptedContentInfo := mkECI {
  eci_content_type : string;
  eci_content_encryption_algorithm : EncryptionAlgorithm;
  eci_encrypted_content : bytes;
}.

Record EnvelopedData := mkEnvelopedData {
  ed_version : Z;
  ed_recipient_infos : list RecipientInfo;
  ed_encrypted_content_info : EncryptedContentInfo;
}.

Record SignerInfo := mkSignerInfo {
  si_version : Z;
  si_sid : Identifier;
  si_digest_algorithm : string;
  si_signed_attrs : option (list CMSAttribute);
  si_signature_algorithm : string;
  si_signature : bytes;
}.

(** The [encap_content_info] of a [SignedData]: a content type and, when
    present, the encapsulated octets. *)
Record EncapContentInfo := mkEncap {
  encap_content_type : string;
  encap_content : option bytes;
}.

Record SignedData := mkSignedData {
  sd_version : Z;
  sd_digest_algorithms : list string;
  sd_encap_content_info : EncapContentInfo;
  sd_certificates : list CertificateChoices;
  sd_signer_infos : list SignerInfo;
}.

Inductive Content :=
  | NoContent
  | SignedDataContent (sd : SignedData)
  | EnvelopedDataContent (ed : EnvelopedData)
  | OctetContent (b : bytes).

Record ContentInfo := mkContentInfo {
  ci_content_type : string;
  ci_content : Content;
}.

(** ** The world and the monad of Python calls *)

Definition loc := positive.

Record World := mkWorld {
  heap : gmap loc (list CMSAttribute);
  rng : RNG;
}.

Definition M (A : Type) : Type := World -> outcome A * World.

Definition ret {A} (a : A) : M A := fun w => (Ok a, w).
Definition raise {A} (e : PyError) : M A := fun w => (Raise e, w).
Definition bind {A B} (m : M A) (k : A -> M B) : M B :=
  fun w => match m w with
           | (Ok a, w') => k a w'
           | (Raise e, w') => (Raise e, w')
           end.
Definition lift {A} (o : outcome A) : M A := fun w => (o, w).
Definition assert (b : bool) : M unit :=
  if b then ret tt else raise AssertionError.

Notation "'let*' x ':=' m 'in' k" := (bind m (fun x => k))
  (at level 10, x pattern, m at level 100, k at level 200).

(** [os.urandom(n)] *)
Definition os_urandom (n : nat) : M bytes :=
  fun w => let '(b, r) := urandom n (rng w) in (Ok b, mkWorld (heap w) r).

(** A Python list object: reading it, [list.append] and [list.insert(0, _)].
    All three go through the heap, so every holder of the location sees the
    change. *)
Definition list_at (l : loc) (h : gmap loc (list CMSAttribute)) : list CMSAttribute :=
  default [] (h !! l).
Definition list_read (l : loc) : M (list CMSAttribute) :=
  fun w => (Ok (list_at l (heap w)), w).
Definition list_append (l : loc) (a : CMSAttribute) : M unit :=
  fun w => (Ok tt, mkWorld (<[l := list_at l (heap w) ++ [a]]> (heap w)) (rng w)).
Definition list_insert0 (l : loc) (a : CMSAttribute) : M unit :=
  fun w => (Ok tt, mkWorld (<[l := a :: list_at l (heap w)]> (heap w)) (rng w)).
(** [[]]: a new list object *)
Definition list_new : M loc :=
  fun w => let l := fresh (dom (heap w)) in
           (Ok l, mkWorld (<[l := []]> (heap w)) (rng w)).

(** ** The cryptography package *)

Inductive HashAlgorithm := SHA1 | SHA256 | SHA512.

Definition digest_size (h : HashAlgorithm) : nat :=
  match h with SHA1 => 20 | SHA256 => 32 | SHA512 => 64 end.

Inductive CipherName := Cipher3DES | CipherAES.

(** A cipher algorithm object, with the key it holds ([.key]). *)
Record CipherAlgorithm := mkCipher {
  cipher_name : CipherName;
  key : bytes;
}.

Definition verify_key_size (key_sizes : list nat) (k : bytes) : outcome bytes :=
  if existsb (Nat.eqb (length k * 8)) key_sizes then Ok k
  else Raise (ValueError "Invalid key size").

(** [TripleDES(key)]: the constructor completes a one-key or two-key input
    to 24 bytes by repeating key material, then checks the size. *)
Definition TripleDES (k : bytes) : outcome CipherAlgorithm :=
  let k' := if (length k =? 8)%nat then k ++ k ++ k
            else if (length k =? 16)%nat then k ++ take 8 k
            else k in
  match verify_key_size [64; 128; 192]%nat k' with
  | Ok k'' => Ok (mkCipher Cipher3DES k'')
  | Raise e => Raise e
  end.
Definition TripleDES_block_size : nat := 64.

(** [AES(key)] *)
Definition AES (k : bytes) : outcome CipherAlgorithm :=
  match verify_key_size [128; 192; 256; 512]%nat k with
  | Ok k' => Ok (mkCipher CipherAES k')
  | Raise e => Raise e
  end.
Definition AES_block_size : nat := 128.

(** The [block_size] of a cipher algorithm object, in bits. *)
Definition block_size (c : CipherAlgorithm) : nat :=
  match cipher_name c with
  | Cipher3DES => TripleDES_block_size
  | CipherAES => AES_block_size
  end.

(** [PKCS7(block_size).padder()]: [update] then [finalize]. The block size
    is in bits. *)
Definition PKCS7_pad (block_size : nat) (data : bytes) : bytes :=
  let bs := block_size / 8 in
  let n := bs - length data mod bs in
  data ++ repeat (byte_of_nat n) n.

(** [PKCS7(block_size).unpadder()]: [update] then [finalize]. It raises
    [ValueError("Invalid padding bytes.")] unless the data is a whole
    number of blocks that ends in [n] bytes of value [n], [n] between 1 and
    the block length. The library has it; [scepy/message.py] does not call
    it. *)
Definition PKCS7_unpad (block_size : nat) (data : bytes) : outcome bytes :=
  let bs := block_size / 8 in
  match last data with
  | Some b =>
      let n := Byte.to_nat b in
      if (length data mod bs =? 0)%nat && (1 <=? n)%nat && (n <=? bs)%nat
         && forallb (Byte.eqb b) (drop (length data - n) data)
      then Ok (take (length data - n) data)
      else Raise (ValueError "Invalid padding bytes.")
  | None => Raise (ValueError "Invalid padding bytes.")
  end.

(** The primitives themselves. Signing is PKCS#1 v1.5 and deterministic;
    RSA encryption pads with random bytes and can refuse a message that is
    too long for the modulus; CBC decryption refuses a ciphertext or an IV
    of a wrong length. *)
Class Crypto := {
  digest : HashAlgorithm -> bytes -> bytes;
  rsa_sign : RSAPrivateKey -> HashAlgorithm -> bytes -> bytes;
  rsa_verify : RSAPublicKey -> HashAlgorithm -> bytes -> bytes -> bool;
  rsa_encrypt : RSAPublicKey -> bytes -> RNG -> outcome bytes * RNG;
  rsa_decrypt : RSAPrivateKey -> bytes -> outcome bytes;
  cbc_encrypt : CipherAlgorithm -> bytes -> bytes -> bytes;
  cbc_decrypt : CipherAlgorithm -> bytes -> bytes -> outcome bytes;
}.

(** ** The DER codec of asn1crypto *)
Class Codec := {
  dump_content_info : ContentInfo -> bytes;
  load_content_info : bytes -> outcome ContentInfo;
  dump_cms_attributes : list CMSAttribute -> bytes;
}.

(** [SignedDigestAlgorithm.signature_algo] and
    [EncryptionAlgorithm.encryption_cipher]: the tables of asn1crypto, for
    the algorithm names this library meets. *)
Definition signature_algo (algorithm : string) : outcome string :=
  if existsb (String.eqb algorithm)
       ["rsassa_pkcs1v15"; "md5_rsa"; "sha1_rsa"; "sha224_rsa"; "sha256_rsa";
        "sha384_rsa"; "sha512_rsa"]
  then Ok "rsassa_pkcs1v15"
  else if String.eqb algorithm "rsassa_pss" then Ok "rsassa_pss"
  else if existsb (String.eqb algorithm) ["dsa"; "sha1_dsa"; "sha256_dsa"]
  then Ok "dsa"
  else if existsb (String.eqb algorithm) ["ecdsa"; "sha1_ecdsa"; "sha256_ecdsa"]
  then Ok "ecdsa"
  else Raise (ValueError "Unrecognized signature algorithm").

Definition encryption_cipher (algorithm : string) : outcome string :=
  if existsb (String.eqb algorithm) ["tripledes_3key"; "tripledes_2key"]
  then Ok "tripledes"
  else if existsb (String.eqb algorithm)
            ["aes128_cbc"; "aes192_cbc"; "aes256_cbc"]
  then Ok "aes"
  else if String.eqb algorithm "des" then Ok "des"
  else if String.eqb algorithm "rc2" then Ok "rc2"
  else Raise (ValueError "Unrecognized encryption algorithm").

(** [str(uuid4())]: sixteen random bytes, the version and variant bits set,
    printed as 8-4-4-4-12 hexadecimal digits. *)
Definition hex_digit (n : N) : Ascii.ascii :=
  Ascii.ascii_of_N (if (n <? 10)%N then 48 + n else 87 + n)%N.

Definition hex_byte (b : byte) : string :=
  let n := Byte.to_N b in
  String (hex_digit (n / 16)) (String (hex_digit (n mod 16)) EmptyString).

Definition set_bits (mask value : N) (b : byte) : byte :=
  default b (Byte.of_N (N.lor (N.land (Byte.to_N b) mask) value)).

Definition hex_bytes (b : bytes) : string :=
  fold_right (fun x acc => String.append (hex_byte x) acc) EmptyString b.

Definition uuid_str (b : bytes) : string :=
  let b := alter (set_bits 15 64) 6%nat (alter (set_bits 63 128) 8%nat b) in
  String.concat "-"
    [hex_bytes (take 4 b); hex_bytes (take 2 (drop 4 b));
     hex_bytes (take 2 (drop 6 b)); hex_bytes (take 2 (drop 8 b));
     hex_bytes (drop 10 b)].

Definition uuid4 : M string :=
  let* b := os_urandom 16 in ret (uuid_str b).

(** ** scepy/enums.py *)

(** Modelled from the spec: [scepy/enums.py] is not among the sources. The
    members and their string values are those the specification lists for
    messageType, pkiStatus and failInfo. *)
Inductive MessageType := CertRep | RenewalReq | UpdateReq | PKCSReq | CertPoll.

Definition MessageType_value (m : MessageType) : string :=
  match m with
  | PKCSReq => "3" | RenewalReq => "17" | UpdateReq => "19"
  | CertPoll => "20" | CertRep => "22"
  end.

(** [MessageType(value)] *)
Definition MessageType_of_value (v : string) : outcome MessageType :=
  match find (fun m => String.eqb (MessageType_value m) v)
             [CertRep; RenewalReq; UpdateReq; PKCSReq; CertPoll] with
  | Some m => Ok m
  | None => Raise (ValueError "not a valid MessageType")
  end.

(** Modelled from the spec: [PKIStatus] of [scepy/enums.py]. *)
Inductive PKIStatus := SUCCESS | FAILURE | PENDING.

Definition PKIStatus_value (s : PKIStatus) : string :=
  match s with SUCCESS => "0" | FAILURE => "2" | PENDING => "3" end.

Definition PKIStatus_eqb (a b : PKIStatus) : bool :=
  match a, b with
  | SUCCESS, SUCCESS | FAILURE, FAILURE | PENDING, PENDING => true
  | _, _ => false
  end.

(** Modelled from the spec: [FailInfo] of [scepy/enums.py]. *)
Inductive FailInfo := BadAlg | BadMessageCheck | BadRequest | BadTime | BadCertId.

Definition FailInfo_value (f : FailInfo) : string :=
  match f with
  | BadAlg => "0" | BadMessageCheck => "1" | BadRequest => "2"
  | BadTime => "3" | BadCertId => "4"
  end.

(** Running a list of calls in order. *)
Fixpoint mapM {A B} (f : A -> M B) (l : list A) : M (list B) :=
  match l with
  | [] => ret []
  | x :: l' => let* y := f x in let* ys := mapM f l' in ret (y :: ys)
  end.

(** ** scepy/envelope.py *)

Module PKCSPKIEnvelopeBuilder.

Record t := mk {
  _data : option bytes;
  _encryption_algorithm_id : option string;
  _recipients : list Certificate;
}.

Definition __init__ : t := mk None None [].

(** [encrypt(data, algorithm)]. The data is stored before the algorithm
    is looked at, so the builder is returned next to the outcome. *)
Definition encrypt (self : t) (data : bytes) (algorithm : option string)
    : outcome unit * t :=
  let self := mk (Some data) (_encryption_algorithm_id self) (_recipients self) in
  let set id := (Ok tt, mk (_data self) (Some id) (_recipients self)) in
  match algorithm with
  | Some a =>
      if String.eqb a "3des" then set "tripledes_3key"
      else if String.eqb a "aes128" then set "aes128_cbc"
      else if String.eqb a "aes256" then set "aes256_cbc"
      else (Raise (ValueError "Unrecognised encryption algorithm "), self)
  | None => (Raise (ValueError "Unrecognised encryption algorithm "), self)
  end.

Definition add_recipient (self : t) (certificate : Certificate) : t :=
  mk (_data self) (_encryption_algorithm_id self) (_recipients self ++ [certificate]).

Section WithCrypto.
Context `{Crypto}.

(** The first chain of tests in [_encrypt_data]: the key and the IV drawn
    for the algorithm. [None] is Python's [None], which [symkey] and [iv]
    keep when no branch is taken. *)
Definition generate_key (native : string)
    : M (option CipherAlgorithm * option bytes) :=
  if String.eqb native "tripledes_3key" then
    let* k := os_urandom 8 in
    let* symkey := lift (TripleDES k) in
    let* iv := os_urandom 8 in
    ret (Some symkey, Some iv)
  else if String.eqb native "aes128_cbc" then
    let* k := os_urandom 16 in
    let* symkey := lift (AES k) in
    let* iv := os_urandom 16 in
    ret (Some symkey, Some iv)
  else if String.eqb native "aes256_cbc" then
    let* k := os_urandom 32 in
    let* symkey := lift (AES k) in
    let* iv := os_urandom 16 in
    ret (Some symkey, Some iv)
  else ret (None, None).

(** The second chain of tests in [_encrypt_data]: the padder, which stays
    unbound when no branch is taken. *)
Definition padder_for (native : string) : option (bytes -> bytes) :=
  if String.eqb native "tripledes_3key" then Some (PKCS7_pad TripleDES_block_size)
  else if existsb (String.eqb native) ["aes128_cbc"; "aes256_cbc"]
  then Some (PKCS7_pad AES_block_size)
  else None.

Definition _encrypt_data (self : t) (data : option bytes)
    : M (CipherAlgorithm * bytes * bytes) :=
  let* native := match _encryption_algorithm_id self with
                 | Some id => ret id
                 | None => raise AttributeError
                 end in
  let* (symkey, iv) := generate_key native in
  (* Cipher(symkey, modes.CBC(iv)) *)
  let* (symkey, iv) := match symkey, iv with
                       | Some k, Some iv => ret (k, iv)
                       | _, _ => raise TypeError
                       end in
  let* padder := match padder_for native with
                 | Some p => ret p
                 | None => raise UnboundLocalError
                 end in
  let* data := match data with Some d => ret d | None => raise TypeError end in
  let padded := padder data in
  let ciphertext := cbc_encrypt symkey iv padded in
  ret (symkey, iv, ciphertext).

Definition _build_recipient_info (symmetric_key : bytes) (recipient : Certificate)
    : M RecipientInfo :=
  let* encrypted_symkey :=
    (fun w => let '(o, r) := rsa_encrypt (public_key recipient) symmetric_key (rng w) in
              (o, mkWorld (heap w) r)) in
  let ias := mkIAS (issuer recipient) (serial_number recipient) in
  ret (ktri (mkKTRI 0 (issuer_and_serial_number ias) "rsa" encrypted_symkey)).

Definition finalize (self : t) : M (EnvelopedData * CipherAlgorithm * bytes) :=
  let* (sym_key, iv, ciphertext) := _encrypt_data self (_data self) in
  let eci :=
    mkECI "data" (mkEncAlg (default "" (_encryption_algorithm_id self)) iv)
          ciphertext in
  let* recipients := mapM (_build_recipient_info (key sym_key)) (_recipients self) in
  let ed := mkEnvelopedData 1 recipients eci in
  ret (ed, sym_key, iv).

End WithCrypto.

End PKCSPKIEnvelopeBuilder.

(** ** scepy/builders.py *)

(** The digest identifiers a [Signer] can hold: the values of the
    dictionary its constructor looks the name up in. *)
Inductive DigestAlgorithmId := sha1 | sha256 | sha512.

Definition native (d : DigestAlgorithmId) : string :=
  match d with sha1 => "sha1" | sha256 => "sha256" | sha512 => "sha512" end.

Definition certificates_from_asn1 (cert_set : list CertificateChoices)
    : M (list Certificate) :=
  mapM (fun cert => match cert with
                    | certificate c => ret c
                    | other_certificate_format _ => raise AssertionError
                    end) cert_set.

Module Signer.

Record t := mk {
  certificate : Certificate;
  private_key : RSAPrivateKey;
  digest_algorithm_id : DigestAlgorithmId;
  signed_attributes : loc;
}.

Definition __init__ (certificate : Certificate) (private_key : RSAPrivateKey)
    (digest_algorithm : string) (signed_attributes : option loc) : M t :=
  let* id := if String.eqb digest_algorithm "sha1" then ret sha1
             else if String.eqb digest_algorithm "sha256" then ret sha256
             else if String.eqb digest_algorithm "sha512" then ret sha512
             else raise KeyError in
  let* attrs := match signed_attributes with
                | None => list_new
                | Some l => ret l
                end in
  ret (mk certificate private_key id attrs).

Definition digest_algorithm (self : t) : string := native (digest_algorithm_id self).
Definition signed_digest_algorithm (self : t) : string := "rsassa_pkcs1v15".

Definition sid (self : t) : Identifier :=
  issuer_and_serial_number
    (mkIAS (issuer (certificate self)) (serial_number (certificate self))).

(** The dictionary of [sign], keyed by the native name. *)
Definition digest_function (d : DigestAlgorithmId) : HashAlgorithm :=
  match d with sha1 => SHA1 | sha256 => SHA256 | sha512 => SHA512 end.

Definition message_digest_attr (content_digest : bytes) : CMSAttribute :=
  mkAttr "message_digest" [OctetString content_digest].
Definition content_type_attr (content_type : string) : CMSAttribute :=
  mkAttr "content_type" [ContentTypeValue content_type].

Section WithProviders.
Context `{Crypto} `{Codec}.

(** [sign]: the signer keeps the very list it is given
    ([self.signed_attributes = cms_attributes]) and inserts into it;
    [CMSAttributes(...)] then copies what the list holds. The signer as
    it is after the call is returned with the [SignerInfo]. *)
Definition sign (self : t) (data : bytes) (content_type : string)
    (content_digest : bytes) (cms_attributes : loc) : M (SignerInfo * t) :=
  let self := mk (certificate self) (private_key self)
                 (digest_algorithm_id self) cms_attributes in
  let* _ := list_insert0 (signed_attributes self)
              (message_digest_attr content_digest) in
  let* _ := list_insert0 (signed_attributes self)
              (content_type_attr content_type) in
  let* cms_attributes := list_read (signed_attributes self) in
  let signature :=
    rsa_sign (private_key self) (digest_function (digest_algorithm_id self))
             (dump_cms_attributes cms_attributes) in
  ret (mkSignerInfo 1 (sid self) (digest_algorithm self) (Some cms_attributes)
                    (signed_digest_algorithm self) signature,
       self).

End WithProviders.

End Signer.

Module PKIMessageBuilder.

Record t := mk {
  _signers : list Signer.t;
  _cms_attributes : loc;
  _certificates : list CertificateChoices;
  _pki_envelope : option EnvelopedData;
}.

Definition __init__ : M t :=
  let* attrs := list_new in ret (mk [] attrs [] None).

Definition certificates (self : t) (certs : list Certificate) : t :=
  mk (_signers self) (_cms_attributes self)
     (_certificates self ++ map certificate certs) (_pki_envelope self).

Definition add_signer (self : t) (signer : Signer.t) : t :=
  mk (_signers self ++ [signer]) (_cms_attributes self)
     (_certificates self ++ [certificate (Signer.certificate signer)])
     (_pki_envelope self).

Definition message_type (self : t) (message_type : MessageType) : M t :=
  let attr := mkAttr "message_type" [PrintableString (MessageType_value message_type)] in
  let* _ := list_append (_cms_attributes self) attr in
  ret self.

Definition pki_envelope (self : t) (envelope : EnvelopedData) : t :=
  mk (_signers self) (_cms_attributes self) (_certificates self) (Some envelope).

Definition pki_status (self : t) (status : PKIStatus) (failure_info : option FailInfo)
    : M t :=
  let attr := mkAttr "pki_status" [PrintableString (PKIStatus_value status)] in
  let* _ := list_append (_cms_attributes self) attr in
  if PKIStatus_eqb status FAILURE then
    match failure_info with
    | None => raise (ValueError "You cannot specify failure without failure info")
    | Some failure_info =>
        let fail_attr :=
          mkAttr "fail_info" [PrintableString (FailInfo_value failure_info)] in
        let* _ := list_append (_cms_attributes self) fail_attr in
        ret self
    end
  else ret self.

Definition sender_nonce (self : t) (nonce : option bytes) : M t :=
  let* nonce := match nonce with
                | Some b => ret (OctetString b)
                | None => let* b := os_urandom 16 in ret (OctetString b)
                end in
  let* _ := list_append (_cms_attributes self) (mkAttr "sender_nonce" [nonce]) in
  ret self.

Definition recipient_nonce (self : t) (nonce : bytes) : M t :=
  let* _ := list_append (_cms_attributes self)
              (mkAttr "recipient_nonce" [OctetString nonce]) in
  ret self.

Definition transaction_id (self : t) (trans_id : option string) : M t :=
  let* trans_id := match trans_id with
                   | Some s => ret (PrintableString s)
                   | None => let* s := uuid4 in ret (PrintableString s)
                   end in
  let* _ := list_append (_cms_attributes self) (mkAttr "transaction_id" [trans_id]) in
  ret self.

Definition _build_cmsattributes (self : t) : M (list CMSAttribute) :=
  list_read (_cms_attributes self).

Section WithProviders.
Context `{Crypto} `{Codec}.

(** The generator of [_build_signerinfos]: each signer signs in turn,
    all with the same list object. *)
Fixpoint sign_each (signers : list Signer.t) (content : bytes)
    (content_digest : bytes) (cms_attributes : loc)
    : M (list SignerInfo * list Signer.t) :=
  match signers with
  | [] => ret ([], [])
  | signer :: rest =>
      let* (info, signer) :=
        Signer.sign signer content "data" content_digest cms_attributes in
      let* (infos, rest) := sign_each rest content content_digest cms_attributes in
      ret (info :: infos, signer :: rest)
  end.

Definition _build_signerinfos (self : t) (content : bytes)
    (content_digest : bytes) (cms_attributes : loc)
    : M (list SignerInfo * t) :=
  let* (infos, signers) :=
    sign_each (_signers self) content content_digest cms_attributes in
  ret (infos, mk signers (_cms_attributes self) (_certificates self)
                 (_pki_envelope self)).

Definition pkienvelope_content_info (self : t) : ContentInfo :=
  mkContentInfo "enveloped_data"
    match _pki_envelope self with
    | Some envelope => EnvelopedDataContent envelope
    | None => NoContent
    end.

(** [finalize]: the [ContentInfo] and the builder as the call leaves it. *)
Definition finalize (self : t) : M (ContentInfo * t) :=
  let inner := pkienvelope_content_info self in
  let encap_info := mkEncap "data" (Some (dump_content_info inner)) in
  let d := digest SHA1 (dump_content_info inner) in
  let* (signer_infos, self) :=
    _build_signerinfos self (dump_content_info inner) d (_cms_attributes self) in
  let certificates := _certificates self in
  let das := ["sha1"] in
  let sd := mkSignedData 1 das encap_info certificates signer_infos in
  ret (mkContentInfo "signed_data" (SignedDataContent sd), self).

End WithProviders.

End PKIMessageBuilder.

(** ** scepy/message.py *)

(** The verification context that [public_key.verifier(signature, padding,
    algorithm)] returns: [update] feeds it, [verify] checks the signature
    and raises [InvalidSignature] on a mismatch. *)
Record Verifier := mkVerifier {
  v_public_key : RSAPublicKey;
  v_signature : bytes;
  v_algorithm : HashAlgorithm;
  v_data : bytes;
}.

Definition verifier (pk : RSAPublicKey) (signature : bytes) (h : HashAlgorithm)
    : Verifier := mkVerifier pk signature h [].

Definition verifier_update (v : Verifier) (d : bytes) : Verifier :=
  mkVerifier (v_public_key v) (v_signature v) (v_algorithm v) (v_data v ++ d).

Definition verifier_verify `{Crypto} (v : Verifier) : M unit :=
  if rsa_verify (v_public_key v) (v_algorithm v) (v_data v) (v_signature v)
  then ret tt else raise InvalidSignature.

Module SCEPMessage.

(** [_fail_info] is not set by the constructor; [_signed_data] is [None]
    until [parse] stores the encapsulated content, whose [native] is
    itself [None] when the content is absent. *)
Record t := mk {
  _content_info : option ContentInfo;
  _transaction_id : option AttrValue;
  _message_type : MessageType;
  _sender_nonce : option AttrValue;
  _recipient_nonce : option AttrValue;
  _pki_status : option AttrValue;
  _fail_info : option AttrValue;
  _signer_info : option SignerInfo;
  _signed_data : option (option bytes);
  _certificates : list Certificate;
}.

Definition __init__ : t :=
  mk None None CertRep None None None None None None [].

Definition set_certificates (msg : t) (certs : list Certificate) : t :=
  mk (_content_info msg) (_transaction_id msg) (_message_type msg)
     (_sender_nonce msg) (_recipient_nonce msg) (_pki_status msg)
     (_fail_info msg) (_signer_info msg) (_signed_data msg) certs.

Definition set_signer_info (msg : t) (si : SignerInfo) : t :=
  mk (_content_info msg) (_transaction_id msg) (_message_type msg)
     (_sender_nonce msg) (_recipient_nonce msg) (_pki_status msg)
     (_fail_info msg) (Some si) (_signed_data msg) (_certificates msg).

Definition set_signed_data (msg : t) (content : option bytes) : t :=
  mk (_content_info msg) (_transaction_id msg) (_message_type msg)
     (_sender_nonce msg) (_recipient_nonce msg) (_pki_status msg)
     (_fail_info msg) (_signer_info msg) (Some content) (_certificates msg).

(** The body of the loop over the signed attributes. *)
Definition set_attribute (msg : t) (signed_attr : CMSAttribute) : M t :=
  let name := attr_type signed_attr in
  let first : M AttrValue :=
    match attr_values signed_attr with
    | v :: _ => ret v
    | [] => raise IndexError
    end in
  let known := existsb (String.eqb name)
    ["transaction_id"; "message_type"; "sender_nonce"; "recipient_nonce";
     "pki_status"; "fail_info"] in
  if negb known then ret msg else
  let* v := first in
  if String.eqb name "transaction_id" then
    ret (mk (_content_info msg) (Some v) (_message_type msg)
            (_sender_nonce msg) (_recipient_nonce msg) (_pki_status msg)
            (_fail_info msg) (_signer_info msg) (_signed_data msg)
            (_certificates msg))
  else if String.eqb name "message_type" then
    let* m := match v with
              | PrintableString s => lift (MessageType_of_value s)
              | _ => raise (ValueError "not a valid MessageType")
              end in
    ret (mk (_content_info msg) (_transaction_id msg) m
            (_sender_nonce msg) (_recipient_nonce msg) (_pki_status msg)
            (_fail_info msg) (_signer_info msg) (_signed_data msg)
            (_certificates msg))
  else if String.eqb name "sender_nonce" then
    ret (mk (_content_info msg) (_transaction_id msg) (_message_type msg)
            (Some v) (_recipient_nonce msg) (_pki_status msg)
            (_fail_info msg) (_signer_info msg) (_signed_data msg)
            (_certificates msg))
  else if String.eqb name "recipient_nonce" then
    ret (mk (_content_info msg) (_transaction_id msg) (_message_type msg)
            (_sender_nonce msg) (Some v) (_pki_status msg)
            (_fail_info msg) (_signer_info msg) (_signed_data msg)
            (_certificates msg))
  else if String.eqb name "pki_status" then
    ret (mk (_content_info msg) (_transaction_id msg) (_message_type msg)
            (_sender_nonce msg) (_recipient_nonce msg) (Some v)
            (_fail_info msg) (_signer_info msg) (_signed_data msg)
            (_certificates msg))
  else
    ret (mk (_content_info msg) (_transaction_id msg) (_message_type msg)
            (_sender_nonce msg) (_recipient_nonce msg) (_pki_status msg)
            (Some v) (_signer_info msg) (_signed_data msg)
            (_certificates msg)).

Fixpoint set_attributes (msg : t) (attrs : list CMSAttribute) : M t :=
  match attrs with
  | [] => ret msg
  | a :: rest => let* msg := set_attribute msg a in set_attributes msg rest
  end.

Section WithProviders.
Context `{Crypto} `{Codec}.

(** The block guarded by [if certs is not None and len(certs) > 0]: a
    verifier is made and fed the DER of the signed attributes, two
    SHA-512 digests are computed, and nothing is done with any of
    them: the call of [verify] is commented out in the source. *)
Definition verify_content (signed_data : SignedData) (signer_info : SignerInfo)
    (signer_cert : option Certificate) (hasher : HashAlgorithm) : M unit :=
  let* c := match signer_cert with
            | Some c => ret c
            | None => raise AttributeError
            end in
  let verifier := verifier (public_key c) (si_signature signer_info) hasher in
  let* _ := assert (String.eqb
              (encap_content_type (sd_encap_content_info signed_data)) "data") in
  let signed_attrs_der :=
    match si_signed_attrs signer_info with
    | Some attrs => dump_cms_attributes attrs
    | None => []
    end in
  let verifier :=
    if is_Some_dec (si_signed_attrs signer_info)
    then verifier_update verifier signed_attrs_der else verifier in
  let* content := match encap_content (sd_encap_content_info signed_data) with
                  | Some b => ret b
                  | None => raise TypeError
                  end in
  let content_digest_r := digest SHA512 content in
  let cdsa_r := digest SHA512 signed_attrs_der in
  ret tt.

(** The body of the loop over the signer infos. *)
Definition parse_signer (signed_data : SignedData)
    (certs : option (list Certificate)) (msg : t) (signer_info : SignerInfo)
    : M t :=
  let* identifier := match si_sid signer_info with
                     | issuer_and_serial_number ias => ret ias
                     | subject_key_identifier _ => raise AssertionError
                     end in
  let signer_cert :=
    match certs with
    | Some certs =>
        find (fun c => (serial_number c =? ias_serial_number identifier)%Z) certs
    | None => None
    end in
  let* sig_algo := lift (signature_algo (si_signature_algorithm signer_info)) in
  let hash_algo := si_digest_algorithm signer_info in
  let* hasher := if String.eqb hash_algo "sha1" then ret SHA1
                 else if String.eqb hash_algo "sha256" then ret SHA256
                 else if String.eqb hash_algo "sha512" then ret SHA512
                 else raise (ValueError "Unsupported hash algorithm") in
  let* _ := assert (String.eqb sig_algo "rsassa_pkcs1v15") in
  let* _ := match certs with
            | Some (_ :: _) =>
                verify_content signed_data signer_info signer_cert hasher
            | _ => ret tt
            end in
  let msg := set_signer_info msg signer_info in
  match si_signed_attrs signer_info with
  | Some attrs => set_attributes msg attrs
  | None => ret msg
  end.

Fixpoint parse_signers (signed_data : SignedData)
    (certs : option (list Certificate)) (msg : t) (infos : list SignerInfo)
    : M t :=
  match infos with
  | [] => ret msg
  | si :: rest =>
      let* msg := parse_signer signed_data certs msg si in
      parse_signers signed_data certs msg rest
  end.

(** [parse], after [ContentInfo.load(raw)]. *)
Definition parse_content_info (msg : t) (cinfo : ContentInfo) : M t :=
  let* _ := assert (String.eqb (ci_content_type cinfo) "signed_data") in
  let* signed_data := match ci_content cinfo with
                      | SignedDataContent sd => ret sd
                      | _ => raise (ValueError "Error parsing SignedData")
                      end in
  let* (certs, msg) :=
    match sd_certificates signed_data with
    | _ :: _ =>
        let* certs := certificates_from_asn1 (sd_certificates signed_data) in
        ret (Some certs, set_certificates msg certs)
    | [] => ret (None, msg)
    end in
  let* msg := parse_signers signed_data certs msg (sd_signer_infos signed_data) in
  ret (set_signed_data msg (encap_content (sd_encap_content_info signed_data))).

Definition parse (raw : bytes) : M t :=
  let msg := __init__ in
  let* cinfo := lift (load_content_info raw) in
  parse_content_info msg cinfo.

(** The property [encap_content_info]. *)
Definition encap_content_info (self : t) : M ContentInfo :=
  match _signed_data self with
  | None => raise AttributeError
  | Some None => raise TypeError
  | Some (Some b) => lift (load_content_info b)
  end.

(** [get_decrypted_envelope_data(certificate, key)]. The certificate is
    a parameter the body never reads. *)
Definition get_decrypted_envelope_data (self : t) (certificate : Certificate)
    (key : RSAPrivateKey) : M bytes :=
  let* encap := encap_content_info self in
  let ct := ci_content_type encap in
  let* content := match ci_content encap with
                  | EnvelopedDataContent ed => ret ed
                  | _ => raise TypeError
                  end in
  let* recipient_info := match ed_recipient_infos content with
                         | ri :: _ => ret ri
                         | [] => raise IndexError
                         end in
  let* chosen := match recipient_info with
                 | ktri k => ret k
                 | other_recipient_info => raise KeyError
                 end in
  let encryption_algo := ktri_key_encryption_algorithm chosen in
  let encrypted_key := ktri_encrypted_key chosen in
  let* _ := assert (String.eqb encryption_algo "rsa") in
  let* plain_key := lift (rsa_decrypt key encrypted_key) in
  let encrypted_contentinfo := ed_encrypted_content_info content in
  let algorithm := eci_content_encryption_algorithm encrypted_contentinfo in
  let encrypted_content_bytes := eci_encrypted_content encrypted_contentinfo in
  let* cipher_ := lift (encryption_cipher (ea_algorithm algorithm)) in
  let* symkey :=
    if String.eqb cipher_ "aes" then
      let* k := lift (AES plain_key) in ret (Some k)
    else if String.eqb cipher_ "tripledes" then
      let* k := lift (TripleDES plain_key) in ret (Some k)
    else ret None in
  (* Cipher(symkey, modes.CBC(algorithm.encryption_iv)) *)
  let* symkey := match symkey with
                 | Some k => ret k
                 | None => raise TypeError
                 end in
  lift (cbc_decrypt symkey (ea_parameters algorithm) encrypted_content_bytes).

End WithProviders.

End SCEPMessage.

(** ** Small executable providers

    Instances of [Crypto] and [Codec] that compute, so that the operations
    above can be run on concrete messages. Nothing here is secure: a key is
    one byte ([n mod 256], shared by the two halves of a pair), "RSA" and
    "CBC" mask with it, a digest is a checksum repeated to the digest
    size. *)

Module Toy.

Definition xor_byte (a b : byte) : byte :=
  default a (Byte.of_N (N.lxor (Byte.to_N a) (Byte.to_N b))).

Definition checksum (m : bytes) : byte :=
  byte_of_nat ((fold_right (fun b acc => Byte.to_nat b + acc) (length m) m) mod 256).

Definition key_byte (n : Z) : byte := byte_of_nat (Z.to_nat (n mod 256)).

Definition digest (h : HashAlgorithm) (m : bytes) : bytes :=
  repeat (checksum m) (digest_size h).

Definition rsa_sign (sk : RSAPrivateKey) (h : HashAlgorithm) (m : bytes) : bytes :=
  key_byte (priv_n sk) :: map (xor_byte (key_byte (priv_n sk))) (digest h m).

Definition rsa_verify (pk : RSAPublicKey) (h : HashAlgorithm) (m signature : bytes)
    : bool :=
  bytes_eqb signature
    (key_byte (pub_n pk) :: map (xor_byte (key_byte (pub_n pk))) (digest h m)).

Definition rsa_encrypt (pk : RSAPublicKey) (m : bytes) (r : RNG)
    : outcome bytes * RNG :=
  let '(pad, r') := urandom 1 r in
  (Ok (key_byte (pub_n pk) :: pad ++ map (xor_byte (key_byte (pub_n pk))) m), r').

Definition rsa_decrypt (sk : RSAPrivateKey) (c : bytes) : outcome bytes :=
  match c with
  | tag :: _ :: body =>
      if Byte.eqb tag (key_byte (priv_n sk))
      then Ok (map (xor_byte (key_byte (priv_n sk))) body)
      else Raise (ValueError "Decryption failed.")
  | _ => Raise (ValueError "Decryption failed.")
  end.

Definition block_bytes (c : CipherAlgorithm) : nat :=
  match cipher_name c with
  | Cipher3DES => TripleDES_block_size / 8
  | CipherAES => AES_block_size / 8
  end.

Definition cbc_encrypt (c : CipherAlgorithm) (iv data : bytes) : bytes :=
  map (xor_byte (checksum (key c ++ iv))) data.

Definition cbc_decrypt (c : CipherAlgorithm) (iv data : bytes) : outcome bytes :=
  if (length iv =? block_bytes c)%nat && (length data mod block_bytes c =? 0)%nat
  then Ok (map (xor_byte (checksum (key c ++ iv))) data)
  else Raise (ValueError "The length of the provided data is not a multiple of the block length.").

Definition crypto : Crypto :=
  Build_Crypto digest rsa_sign rsa_verify rsa_encrypt rsa_decrypt
               cbc_encrypt cbc_decrypt.

Definition dump_value (v : AttrValue) : bytes :=
  match v with
  | ContentTypeValue name => String.list_byte_of_string name
  | OctetString b => b
  | PrintableString s => String.list_byte_of_string s
  end.

Definition dump_cms_attributes (attrs : list CMSAttribute) : bytes :=
  concat (map (fun a => String.list_byte_of_string (attr_type a)
                        ++ concat (map dump_value (attr_values a))) attrs).

Definition dump_recipient_info (ri : RecipientInfo) : bytes :=
  match ri with
  | ktri k => ktri_encrypted_key k
  | other_recipient_info => []
  end.

Definition dump_signer_info (si : SignerInfo) : bytes :=
  String.list_byte_of_string (si_digest_algorithm si)
  ++ dump_cms_attributes (default [] (si_signed_attrs si))
  ++ si_signature si.

Definition dump_content_info (ci : ContentInfo) : bytes :=
  String.list_byte_of_string (ci_content_type ci) ++
  match ci_content ci with
  | NoContent => []
  | OctetContent b => b
  | EnvelopedDataContent ed =>
      concat (map dump_recipient_info (ed_recipient_infos ed))
      ++ ea_parameters (eci_content_encryption_algorithm (ed_encrypted_content_info ed))
      ++ eci_encrypted_content (ed_encrypted_content_info ed)
  | SignedDataContent sd =>
      default [] (encap_content (sd_encap_content_info sd))
      ++ concat (map dump_signer_info (sd_signer_infos sd))
  end.

(** A codec that decodes exactly the given structures, each from its own
    encoding. *)
Definition load_from (known : list ContentInfo) (raw : bytes) : outcome ContentInfo :=
  match find (fun ci => bytes_eqb (dump_content_info ci) raw) known with
  | Some ci => Ok ci
  | None => Raise (ValueError "Error parsing ContentInfo")
  end.

Definition codec (known : list ContentInfo) : Codec :=
  Build_Codec dump_content_info (load_from known) dump_cms_attributes.

(** *** Concrete objects *)

Definition tape0 (i : nat) : byte := byte_of_nat ((7 * i + 3) mod 256).
Definition w0 : World := mkWorld ∅ (mkRNG tape0 0).

Definition ra_cert : Certificate := mkCert "CN=RA" 1 (mkPub 33 3).
Definition ra_key : RSAPrivateKey := mkPriv 33 7.
Definition ca_cert : Certificate := mkCert "CN=CA" 2 (mkPub 85 3).
Definition ca_key : RSAPrivateKey := mkPriv 85 43.
Definition other_cert : Certificate := mkCert "CN=Other" 9 (mkPub 119 5).
Definition other_key : RSAPrivateKey := mkPriv 119 77.

Definition plaintext : bytes := ["a"; "b"; "c"]%byte.


(** An envelope builder with content and algorithm and no recipient, and
    the same with two recipients. *)
Definition envelope_builder : PKCSPKIEnvelopeBuilder.t :=
  snd (PKCSPKIEnvelopeBuilder.encrypt PKCSPKIEnvelopeBuilder.__init__
         plaintext (Some "3des"%string)).

Definition envelope_builder2 : PKCSPKIEnvelopeBuilder.t :=
  PKCSPKIEnvelopeBuilder.add_recipient
    (PKCSPKIEnvelopeBuilder.add_recipient envelope_builder ra_cert) ca_cert.

(** A message builder as a client sets it up: attributes, an envelope and
    signers, the first declaring SHA-256 and the second SHA-512. *)
Definition envelope : EnvelopedData :=
  match fst (@PKCSPKIEnvelopeBuilder.finalize crypto envelope_builder2 w0) with
  | Ok (ed, _, _) => ed
  | Raise _ => mkEnvelopedData 1 [] (mkECI "data" (mkEncAlg "" []) [])
  end.

Definition sym_key : CipherAlgorithm :=
  match fst (@PKCSPKIEnvelopeBuilder.finalize crypto envelope_builder2 w0) with
  | Ok (_, k, _) => k
  | Raise _ => mkCipher Cipher3DES []
  end.

Definition iv : bytes :=
  match fst (@PKCSPKIEnvelopeBuilder.finalize crypto envelope_builder2 w0) with
  | Ok (_, _, iv) => iv
  | Raise _ => []
  end.

(** The [i]-th [KeyTransRecipientInfo] of the envelope. *)
Definition recipient_info (i : nat) : KeyTransRecipientInfo :=
  match ed_recipient_infos envelope !! i with
  | Some (ktri k) => k
  | _ => mkKTRI 0 (subject_key_identifier []) "" []
  end.

Definition setup (two_signers : bool) : M PKIMessageBuilder.t :=
  let* b := PKIMessageBuilder.__init__ in
  let* b := PKIMessageBuilder.message_type b PKCSReq in
  let* b := PKIMessageBuilder.transaction_id b (Some "abcd-1234"%string) in
  let* b := PKIMessageBuilder.sender_nonce b None in
  let b := PKIMessageBuilder.pki_envelope b envelope in
  let* s1 := Signer.__init__ ra_cert ra_key "sha256" None in
  let b := PKIMessageBuilder.add_signer b s1 in
  if two_signers then
    let* s2 := Signer.__init__ ca_cert ca_key "sha512" None in
    ret (PKIMessageBuilder.add_signer b s2)
  else ret b.

Definition empty_builder : PKIMessageBuilder.t := PKIMessageBuilder.mk [] 1%positive [] None.

Definition builder1 : PKIMessageBuilder.t :=
  match fst (setup false w0) with Ok b => b | Raise _ => empty_builder end.
Definition world1 : World := snd (setup false w0).

Definition builder2 : PKIMessageBuilder.t :=
  match fst (setup true w0) with Ok b => b | Raise _ => empty_builder end.
Definition world2 : World := snd (setup true w0).

(** The signers of [builder2], and [builder1] set up again in a world
    that already holds another list, so that its lists live elsewhere. *)
Definition signer (i : nat) : Signer.t :=
  match PKIMessageBuilder._signers builder2 !! i with
  | Some s => s
  | None => Signer.mk other_cert other_key sha1 1%positive
  end.

Definition w0' : World := mkWorld {[ 1%positive := [] ]} (rng w0).

Definition builder1' : PKIMessageBuilder.t :=
  match fst (setup false w0') with Ok b => b | Raise _ => empty_builder end.
Definition world1' : World := snd (setup false w0').

(** The attributes the three setters of [setup] appended, in call order. *)
Definition scep_attrs : list CMSAttribute :=
  [mkAttr "message_type" [PrintableString "3"];
   mkAttr "transaction_id" [PrintableString "abcd-1234"];
   mkAttr "sender_nonce" [OctetString (drawn 16 (rng w0))]].

(** The pkiMessage of [builder1], the same with one bit of the signature
    flipped, and a codec that knows both and the inner [ContentInfo]. *)
Definition inner : ContentInfo :=
  @PKIMessageBuilder.pkienvelope_content_info builder1.

Definition pki_message : ContentInfo :=
  match fst (@PKIMessageBuilder.finalize crypto (codec []) builder1 world1) with
  | Ok (ci, _) => ci
  | Raise _ => mkContentInfo "" NoContent
  end.

Definition flip_bit (b : bytes) : bytes :=
  match b with
  | x :: b' => xor_byte x "001"%byte :: b'
  | [] => []
  end.

Definition tamper_signature (si : SignerInfo) : SignerInfo :=
  mkSignerInfo (si_version si) (si_sid si) (si_digest_algorithm si)
    (si_signed_attrs si) (si_signature_algorithm si) (flip_bit (si_signature si)).

Definition tampered_message : ContentInfo :=
  mkContentInfo (ci_content_type pki_message)
    match ci_content pki_message with
    | SignedDataContent sd =>
        SignedDataContent
          (mkSignedData (sd_version sd) (sd_digest_algorithms sd)
             (sd_encap_content_info sd) (sd_certificates sd)
             (map tamper_signature (sd_signer_infos sd)))
    | c => c
    end.

Definition certificates_of (ci : ContentInfo) : list CertificateChoices :=
  match ci_content ci with
  | SignedDataContent sd => sd_certificates sd
  | _ => []
  end.

Definition signer_infos_in (ci : ContentInfo) : list SignerInfo :=
  match ci_content ci with
  | SignedDataContent sd => sd_signer_infos sd
  | _ => []
  end.

(** The first [SignerInfo] of a message. *)
Definition signer_info (ci : ContentInfo) : SignerInfo :=
  match signer_infos_in ci with
  | si :: _ => si
  | [] => mkSignerInfo 0 (subject_key_identifier []) "" None "" []
  end.

(** An envelope like [envelope] whose content decrypts to a block that is
    not padded (eight bytes of value 0), and a message that holds it. *)
Definition unpadded_block : bytes := repeat "000"%byte 8.

Definition unpadded_inner : ContentInfo :=
  mkContentInfo "enveloped_data"
    (EnvelopedDataContent
       (mkEnvelopedData 1 (ed_recipient_infos envelope)
          (mkECI "data" (mkEncAlg "tripledes_3key" iv)
                 (cbc_encrypt sym_key iv unpadded_block)))).

Definition unpadded_message : SCEPMessage.t :=
  SCEPMessage.set_signed_data SCEPMessage.__init__
    (Some (dump_content_info unpadded_inner)).

Definition full_codec : Codec :=
  codec [pki_message; tampered_message; inner; unpadded_inner].

Definition raw : bytes := dump_content_info pki_message.
Definition tampered_raw : bytes := dump_content_info tampered_message.

Definition parsed : SCEPMessage.t :=
  match fst (@SCEPMessage.parse crypto full_codec raw w0) with
  | Ok msg => msg
  | Raise _ => SCEPMessage.__init__
  end.

End Toy.

(** *** An envelope with one recipient *)

Module Single.

(** An envelope for the RA alone, a pkiMessage around it signed by the RA
    as a client sets it up, and the message [parse] makes of its
    encoding. *)
Definition envelope_builder : PKCSPKIEnvelopeBuilder.t :=
  PKCSPKIEnvelopeBuilder.add_recipient Toy.envelope_builder Toy.ra_cert.

Definition envelope : EnvelopedData :=
  match fst (@PKCSPKIEnvelopeBuilder.finalize Toy.crypto envelope_builder Toy.w0) with
  | Ok (ed, _, _) => ed
  | Raise _ => mkEnvelopedData 1 [] (mkECI "data" (mkEncAlg "" []) [])
  end.

Definition sym_key : CipherAlgorithm :=
  match fst (@PKCSPKIEnvelopeBuilder.finalize Toy.crypto envelope_builder Toy.w0) with
  | Ok (_, k, _) => k
  | Raise _ => mkCipher Cipher3DES []
  end.

Definition iv : bytes :=
  match fst (@PKCSPKIEnvelopeBuilder.finalize Toy.crypto envelope_builder Toy.w0) with
  | Ok (_, _, iv) => iv
  | Raise _ => []
  end.

(** The only [KeyTransRecipientInfo] of the envelope. *)
Definition recipient_info : KeyTransRecipientInfo :=
  match ed_recipient_infos envelope with
  | [ktri k] => k
  | _ => mkKTRI 0 (subject_key_identifier []) "" []
  end.

Definition setup : M PKIMessageBuilder.t :=
  let* b := PKIMessageBuilder.__init__ in
  let* b := PKIMessageBuilder.message_type b PKCSReq in
  let* b := PKIMessageBuilder.transaction_id b (Some "abcd-1234"%string) in
  let* b := PKIMessageBuilder.sender_nonce b None in
  let b := PKIMessageBuilder.pki_envelope b envelope in
  let* s := Signer.__init__ Toy.ra_cert Toy.ra_key "sha256" None in
  ret (PKIMessageBuilder.add_signer b s).

Definition builder : PKIMessageBuilder.t :=
  match fst (setup Toy.w0) with Ok b => b | Raise _ => Toy.empty_builder end.
Definition world : World := snd (setup Toy.w0).

Definition inner : ContentInfo := PKIMessageBuilder.pkienvelope_content_info builder.

Definition pki_message : ContentInfo :=
  match fst (@PKIMessageBuilder.finalize Toy.crypto (Toy.codec []) builder world) with
  | Ok (ci, _) => ci
  | Raise _ => mkContentInfo "" NoContent
  end.

Definition codec : Codec := Toy.codec [pki_message; inner].

Definition raw : bytes := Toy.dump_content_info pki_message.

Definition parsed : SCEPMessage.t :=
  match fst (@SCEPMessage.parse Toy.crypto codec raw Toy.w0) with
  | Ok msg => msg
  | Raise _ => SCEPMessage.__init__
  end.

End Single.

(** ** Notions used to state the properties *)

(** The attribute list after [n] calls of [Signer.sign] with digest [d]. *)
Fixpoint attrs_after (n : nat) (d : bytes) (attrs : list CMSAttribute)
    : list CMSAttribute :=
  match n with
  | 0 => attrs
  | S n' =>
      attrs_after n' d
        (Signer.content_type_attr "data" :: Signer.message_digest_attr d :: attrs)
  end.

(** The [SignerInfo] a signer makes of a list of signed attributes, and
    those of a row of signers that share one list which holds [attrs]
    before the first of them signs. *)
Definition signer_info_of `{Crypto} `{Codec} (s : Signer.t)
    (attrs : list CMSAttribute) : SignerInfo :=
  mkSignerInfo 1 (Signer.sid s) (Signer.digest_algorithm s) (Some attrs)
    "rsassa_pkcs1v15"
    (rsa_sign (Signer.private_key s)
              (Signer.digest_function (Signer.digest_algorithm_id s))
              (dump_cms_attributes attrs)).

Fixpoint signer_infos_of `{Crypto} `{Codec} (signers : list Signer.t) (d : bytes)
    (attrs : list CMSAttribute) : list SignerInfo :=
  match signers with
  | [] => []
  | s :: rest =>
      let attrs' :=
        Signer.content_type_attr "data" :: Signer.message_digest_attr d :: attrs in
      signer_info_of s attrs' :: signer_infos_of rest d attrs'
  end.

(** A signer apart from the list it holds. *)
Definition signer_identity (s : Signer.t)
    : Certificate * RSAPrivateKey * DigestAlgorithmId :=
  (Signer.certificate s, Signer.private_key s, Signer.digest_algorithm_id s).

Definition with_attributes (l : loc) (s : Signer.t) : Signer.t :=
  Signer.mk (Signer.certificate s) (Signer.private_key s)
            (Signer.digest_algorithm_id s) l.

(** The heap after [n] signers signed with the list at [l]. *)
Definition heap_after (n : nat) (d : bytes) (l : loc)
    (h : gmap loc (list CMSAttribute)) : gmap loc (list CMSAttribute) :=
  match n with
  | 0 => h
  | S _ => <[l := attrs_after n d (list_at l h)]> h
  end.

(** A message with the signature octets of every signer blanked: two
    messages with the same image differ in signature octets only. *)
Definition erase_signature (si : SignerInfo) : SignerInfo :=
  mkSignerInfo (si_version si) (si_sid si) (si_digest_algorithm si)
    (si_signed_attrs si) (si_signature_algorithm si) [].

Definition erase_signatures (cinfo : ContentInfo) : ContentInfo :=
  mkContentInfo (ci_content_type cinfo)
    match ci_content cinfo with
    | SignedDataContent sd =>
        SignedDataContent
          (mkSignedData (sd_version sd) (sd_digest_algorithms sd)
             (sd_encap_content_info sd) (sd_certificates sd)
             (map erase_signature (sd_signer_infos sd)))
    | c => c
    end.

(** A parsed message apart from the signature octets it keeps. *)
Definition forget_signature (msg : SCEPMessage.t) : SCEPMessage.t :=
  SCEPMessage.mk (SCEPMessage._content_info msg) (SCEPMessage._transaction_id msg)
    (SCEPMessage._message_type msg) (SCEPMessage._sender_nonce msg)
    (SCEPMessage._recipient_nonce msg) (SCEPMessage._pki_status msg)
    (SCEPMessage._fail_info msg)
    (option_map erase_signature (SCEPMessage._signer_info msg))
    (SCEPMessage._signed_data msg) (SCEPMessage._certificates msg).

Definition outcome_map {A B} (f : A -> B) (o : outcome A * World) : outcome B * World :=
  match o with
  | (Ok a, w) => (Ok (f a), w)
  | (Raise e, w) => (Raise e, w)
  end.

(** A call is [rng_only] when its outcome and the random source it leaves
    depend on the random source it finds and on nothing else of the world. *)
Definition rng_only {A} (m : M A) : Prop :=
  forall w1 w2, rng w1 = rng w2 ->
    fst (m w1) = fst (m w2) /\ rng (snd (m w1)) = rng (snd (m w2)).

(** A call is [quiet] when [InvalidSignature] is not among the errors it
    can raise. *)
Definition quiet {A} (m : M A) : Prop :=
  forall w e w', m w = (Raise e, w') -> e <> InvalidSignature.

(** DER writes the members of a SET OF in the order of their encodings,
    whatever order the value holds them in. [same_sets a b]: the two
    values agree up to the order of the members of every SET OF they hold
    (digest algorithms, certificates, signer infos, signed attributes,
    attribute values, recipient infos). *)
Definition set_of {A} (R : A -> A -> Prop) (x y : list A) : Prop :=
  exists l, y ≡ₚ l /\ Forall2 R x l.

Definition same_attribute (a b : CMSAttribute) : Prop :=
  attr_type a = attr_type b /\ attr_values a ≡ₚ attr_values b.

Definition same_signer_info (a b : SignerInfo) : Prop :=
  si_version a = si_version b
  /\ si_sid a = si_sid b
  /\ si_digest_algorithm a = si_digest_algorithm b
  /\ si_signature_algorithm a = si_signature_algorithm b
  /\ si_signature a = si_signature b
  /\ match si_signed_attrs a, si_signed_attrs b with
     | Some x, Some y => set_of same_attribute x y
     | None, None => True
     | _, _ => False
     end.

Definition same_signed_data (a b : SignedData) : Prop :=
  sd_version a = sd_version b
  /\ sd_digest_algorithms a ≡ₚ sd_digest_algorithms b
  /\ sd_encap_content_info a = sd_encap_content_info b
  /\ sd_certificates a ≡ₚ sd_certificates b
  /\ set_of same_signer_info (sd_signer_infos a) (sd_signer_infos b).

Definition same_enveloped_data (a b : EnvelopedData) : Prop :=
  ed_version a = ed_version b
  /\ ed_recipient_infos a ≡ₚ ed_recipient_infos b
  /\ ed_encrypted_content_info a = ed_encrypted_content_info b.

Definition same_sets (a b : ContentInfo) : Prop :=
  ci_content_type a = ci_content_type b
  /\ match ci_content a, ci_content b with
     | SignedDataContent x, SignedDataContent y => same_signed_data x y
     | EnvelopedDataContent x, EnvelopedDataContent y => same_enveloped_data x y
     | NoContent, NoContent => True
     | OctetContent x, OctetContent y => x = y
     | _, _ => False
     end.

(** The number of signed attributes a message carries, all signers
    together. *)
Definition signed_attribute_count (si : SignerInfo) : nat :=
  length (default [] (si_signed_attrs si)).

Definition signed_attributes_in (ci : ContentInfo) : nat :=
  match ci_content ci with
  | SignedDataContent sd => sum_list (signed_attribute_count <$> sd_signer_infos sd)
  | _ => 0
  end.

(** ** Notions for the further properties *)

(** The algorithm names [encrypt] accepts, and the builder it is given with
    a row of recipients added. *)
Definition encrypt_algorithms : list (option string) :=
  [Some "3des"; Some "aes128"; Some "aes256"]%string.

Definition add_recipients (self : PKCSPKIEnvelopeBuilder.t) (rs : list Certificate)
    : PKCSPKIEnvelopeBuilder.t :=
  fold_left PKCSPKIEnvelopeBuilder.add_recipient rs self.


Definition envelope_algorithms : list string :=
  ["tripledes_3key"; "aes128_cbc"; "aes256_cbc"]%string.

(** The digest names [Signer] accepts. *)
Definition signer_digests : list string := ["sha1"; "sha256"; "sha512"]%string.

(** Every signer's certificate is among the builder's certificates. *)
Definition signers_attached (b : PKIMessageBuilder.t) : Prop :=
  Forall (fun s => certificate (Signer.certificate s)
                   ∈ PKIMessageBuilder._certificates b)
         (PKIMessageBuilder._signers b).

(** A call [appends_only] to the list at [l] when it leaves what the list
    held in place, in front of anything it adds, and changes no other
    list. *)
Definition appends_only {A} (l : loc) (m : M A) : Prop :=
  forall w,
    list_at l (heap w) `prefix_of` list_at l (heap (snd (m w)))
    /\ forall l', l' <> l -> heap (snd (m w)) !! l' = heap w !! l'.

(** The attribute types [parse] reads. *)
Definition scep_attribute_names : list string :=
  ["transaction_id"; "message_type"; "sender_nonce"; "recipient_nonce";
   "pki_status"; "fail_info"]%string.

(** An attribute [parse] can read: one of another type, or one with at
    least one value which, for a [message_type], is the printable string
    of a member of [MessageType]. *)
Definition readable (a : CMSAttribute) : bool :=
  if negb (existsb (String.eqb (attr_type a)) scep_attribute_names) then true
  else match attr_values a with
       | [] => false
       | v :: _ =>
           if String.eqb (attr_type a) "message_type" then
             match v with
             | PrintableString s => is_ok (MessageType_of_value s)
             | _ => false
             end
           else true
       end.

(** The first value of the last attribute of type [name] that has one. *)
Fixpoint attr_value_of (name : string) (attrs : list CMSAttribute)
    : option AttrValue :=
  match attrs with
  | [] => None
  | a :: rest =>
      match attr_value_of name rest with
      | Some v => Some v
      | None => if String.eqb (attr_type a) name then head (attr_values a) else None
      end
  end.

(** A field after the attributes are read: the value found, or what the
    field held. *)
Definition read_field (name : string) (attrs : list CMSAttribute)
    (old : option AttrValue) : option AttrValue :=
  match attr_value_of name attrs with
  | Some v => Some v
  | None => old
  end.

Definition read_message_type (attrs : list CMSAttribute) (old : MessageType)
    : MessageType :=
  match attr_value_of "message_type" attrs with
  | Some (PrintableString s) =>
      match MessageType_of_value s with
      | Ok m => m
      | Raise _ => old
      end
  | _ => old
  end.

(** The first values of the attributes of type [name], in the order of the
    attributes. *)
Definition values_of (name : string) (attrs : list CMSAttribute) : list AttrValue :=
  omap (fun a => if String.eqb (attr_type a) name then head (attr_values a) else None)
       attrs.

(** An attribute as the setters of the builder make it: with one value. *)
Definition single_valued (a : CMSAttribute) : Prop := length (attr_values a) <= 1.

(** A field that holds one of the values [vs], and nothing when there is
    none; a message type that is the member one of them names, and the
    default [CertRep] when there is none. *)
Definition one_of (vs : list AttrValue) (field : option AttrValue) : Prop :=
  match field with
  | Some v => v ∈ vs
  | None => vs = []
  end.

Definition one_of_message_type (vs : list AttrValue) (m : MessageType) : Prop :=
  (vs = [] /\ m = CertRep)
  \/ exists s, PrintableString s ∈ vs /\ MessageType_of_value s = Ok m.

(** The six fields [parse] reads, each in a relation to the values of its
    type among [attrs]. *)
Definition fields (P : list AttrValue -> option AttrValue -> Prop)
    (Q : list AttrValue -> MessageType -> Prop) (attrs : list CMSAttribute)
    (msg : SCEPMessage.t) : Prop :=
  P (values_of "transaction_id" attrs) (SCEPMessage._transaction_id msg)
  /\ P (values_of "sender_nonce" attrs) (SCEPMessage._sender_nonce msg)
  /\ P (values_of "recipient_nonce" attrs) (SCEPMessage._recipient_nonce msg)
  /\ P (values_of "pki_status" attrs) (SCEPMessage._pki_status msg)
  /\ P (values_of "fail_info" attrs) (SCEPMessage._fail_info msg)
  /\ Q (values_of "message_type" attrs) (SCEPMessage._message_type msg).

(** Every field holds the value of one of the attributes of its type. *)
Definition reads : list CMSAttribute -> SCEPMessage.t -> Prop :=
  fields one_of one_of_message_type.

(** A field whose type has no attribute is as the constructor left it. *)
Definition unset_without_attribute : list CMSAttribute -> SCEPMessage.t -> Prop :=
  fields (fun vs field => vs = [] -> field = None)
         (fun vs m => vs = [] -> m = CertRep).

(** A decoded [SignerInfo] that one of the [signers] made, of the list
    that held [attrs0] before [finalize]: it names the signer and the
    algorithms, and its signed attributes are, in some order, those the
    signer signed. *)
Definition signed_by `{Crypto} `{Codec} (signers : list Signer.t) (d : bytes)
    (attrs0 : list CMSAttribute) (si' : SignerInfo) : Prop :=
  exists s n attrs',
    s ∈ signers
    /\ si_sid si' = Signer.sid s
    /\ si_digest_algorithm si' = Signer.digest_algorithm s
    /\ si_signature_algorithm si' = "rsassa_pkcs1v15"%string
    /\ si_signed_attrs si' = Some attrs'
    /\ attrs' ≡ₚ attrs_after (S n) d attrs0.

(** ** Further concrete objects *)

Module Examples.

(** An envelope builder set to AES-256. *)
Definition aes_builder : PKCSPKIEnvelopeBuilder.t :=
  snd (PKCSPKIEnvelopeBuilder.encrypt PKCSPKIEnvelopeBuilder.__init__
         Toy.plaintext (Some "aes256"%string)).

(** [builder1] as [finalize] leaves it. *)
Definition builder1_after : PKIMessageBuilder.t :=
  match fst (@PKIMessageBuilder.finalize Toy.crypto Toy.full_codec
               Toy.builder1 Toy.world1) with
  | Ok (_, b) => b
  | Raise _ => Toy.empty_builder
  end.

(** The pkiMessage of [builder1] with an unrelated certificate attached in
    place of the signer's, and a codec that knows it. *)
Definition mismatched_message : ContentInfo :=
  mkContentInfo (ci_content_type Toy.pki_message)
    match ci_content Toy.pki_message with
    | SignedDataContent sd =>
        SignedDataContent
          (mkSignedData (sd_version sd) (sd_digest_algorithms sd)
             (sd_encap_content_info sd) [certificate Toy.other_cert]
             (sd_signer_infos sd))
    | c => c
    end.

Definition mismatched_signed_data : SignedData :=
  match ci_content mismatched_message with
  | SignedDataContent sd => sd
  | _ => mkSignedData 0 [] (mkEncap "" None) [] []
  end.

Definition mismatched_codec : Codec := Toy.codec [mismatched_message].

(** The envelope of the builder without recipients, a message that holds
    it, and a codec that knows it. *)
Definition lonely_envelope : EnvelopedData :=
  match fst (@PKCSPKIEnvelopeBuilder.finalize Toy.crypto Toy.envelope_builder
               Toy.w0) with
  | Ok (ed, _, _) => ed
  | Raise _ => mkEnvelopedData 0 [] (mkECI "" (mkEncAlg "" []) [])
  end.

Definition lonely_key : CipherAlgorithm :=
  match fst (@PKCSPKIEnvelopeBuilder.finalize Toy.crypto Toy.envelope_builder
               Toy.w0) with
  | Ok (_, k, _) => k
  | Raise _ => mkCipher Cipher3DES []
  end.

Definition lonely_iv : bytes :=
  match fst (@PKCSPKIEnvelopeBuilder.finalize Toy.crypto Toy.envelope_builder
               Toy.w0) with
  | Ok (_, _, iv) => iv
  | Raise _ => []
  end.

Definition lonely_inner : ContentInfo :=
  mkContentInfo "enveloped_data" (EnvelopedDataContent lonely_envelope).

Definition lonely_message : SCEPMessage.t :=
  SCEPMessage.set_signed_data SCEPMessage.__init__
    (Some (Toy.dump_content_info lonely_inner)).

Definition lonely_codec : Codec := Toy.codec [lonely_inner].

(** A new builder given one certificate and no signer, and the world it
    lives in. *)
Definition certificate_only : PKIMessageBuilder.t :=
  match fst (PKIMessageBuilder.__init__ Toy.w0) with
  | Ok b => PKIMessageBuilder.certificates b [Toy.ra_cert]
  | Raise _ => Toy.empty_builder
  end.

Definition certificate_only_world : World := snd (PKIMessageBuilder.__init__ Toy.w0).

(** A message with the signed attributes of every signer in the reverse
    order, and a codec that decodes the encoding of [pki_message] to
    [pki_message] so reordered: the order DER keeps is not the order the
    builder appended in. *)
Definition reorder_signer_info (si : SignerInfo) : SignerInfo :=
  mkSignerInfo (si_version si) (si_sid si) (si_digest_algorithm si)
    (reverse <$> si_signed_attrs si) (si_signature_algorithm si) (si_signature si).

Definition reorder (ci : ContentInfo) : ContentInfo :=
  mkContentInfo (ci_content_type ci)
    match ci_content ci with
    | SignedDataContent sd =>
        SignedDataContent
          (mkSignedData (sd_version sd) (sd_digest_algorithms sd)
             (sd_encap_content_info sd) (sd_certificates sd)
             (reorder_signer_info <$> sd_signer_infos sd))
    | c => c
    end.

Definition reordering_codec : Codec :=
  Build_Codec Toy.dump_content_info
    (fun raw => if bytes_eqb raw Toy.raw then Ok (reorder Toy.pki_message)
                else Raise (ValueError "Error parsing ContentInfo"))
    Toy.dump_cms_attributes.


End Examples.

(** ** Properties *)

Ltac run :=
  unfold bind, ret, raise, lift, assert, os_urandom, list_append, list_insert0,
    list_read; simpl.

(** *** The monad and the heap *)

Lemma list_at_insert (l : loc) (x : list CMSAttribute)
    (h : gmap loc (list CMSAttribute)) :
  list_at l (<[l := x]> h) = x.
Proof. unfold list_at. by rewrite lookup_insert_eq. Qed.

Lemma list_at_insert_ne (l l' : loc) (x : list CMSAttribute)
    (h : gmap loc (list CMSAttribute)) :
  l <> l' -> list_at l' (<[l := x]> h) = list_at l' h.
Proof. intros Hne. unfold list_at. by rewrite lookup_insert_ne. Qed.

Lemma bind_raise {A B} (m : M A) (k : A -> M B) (w w' : World) (e : PyError) :
  m w = (Raise e, w') -> bind m k w = (Raise e, w').
Proof. intros Hm. unfold bind. by rewrite Hm. Qed.

Lemma bind_ok {A B} (m : M A) (k : A -> M B) (w w' : World) (a : A) :
  m w = (Ok a, w') -> bind m k w = k a w'.
Proof. intros Hm. unfold bind. by rewrite Hm. Qed.

Lemma drawn_length (n : nat) (r : RNG) : length (drawn n r) = n.
Proof. unfold drawn, urandom. simpl. by rewrite length_map, length_seq. Qed.

(** *** The envelope builder *)

Lemma encrypt_data_tripledes `{Crypto} (self : PKCSPKIEnvelopeBuilder.t)
    (d : bytes) (w : World) :
  PKCSPKIEnvelopeBuilder._encryption_algorithm_id self = Some "tripledes_3key"%string ->
  let r := drawn 8 (rng w) in
  let iv := drawn 8 (skip 8 (rng w)) in
  let k := mkCipher Cipher3DES (r ++ r ++ r) in
  PKCSPKIEnvelopeBuilder._encrypt_data self (Some d) w =
    (Ok (k, iv, cbc_encrypt k iv (PKCS7_pad TripleDES_block_size d)),
     mkWorld (heap w) (skip 8 (skip 8 (rng w)))).
Proof.
  intros Hid. unfold PKCSPKIEnvelopeBuilder._encrypt_data. rewrite Hid.
  reflexivity.
Qed.

Lemma encrypt_data_aes128 `{Crypto} (self : PKCSPKIEnvelopeBuilder.t)
    (d : bytes) (w : World) :
  PKCSPKIEnvelopeBuilder._encryption_algorithm_id self = Some "aes128_cbc"%string ->
  let r := drawn 16 (rng w) in
  let iv := drawn 16 (skip 16 (rng w)) in
  let k := mkCipher CipherAES r in
  PKCSPKIEnvelopeBuilder._encrypt_data self (Some d) w =
    (Ok (k, iv, cbc_encrypt k iv (PKCS7_pad AES_block_size d)),
     mkWorld (heap w) (skip 16 (skip 16 (rng w)))).
Proof.
  intros Hid. unfold PKCSPKIEnvelopeBuilder._encrypt_data. rewrite Hid.
  reflexivity.
Qed.

Lemma encrypt_data_aes256 `{Crypto} (self : PKCSPKIEnvelopeBuilder.t)
    (d : bytes) (w : World) :
  PKCSPKIEnvelopeBuilder._encryption_algorithm_id self = Some "aes256_cbc"%string ->
  let r := drawn 32 (rng w) in
  let iv := drawn 16 (skip 32 (rng w)) in
  let k := mkCipher CipherAES r in
  PKCSPKIEnvelopeBuilder._encrypt_data self (Some d) w =
    (Ok (k, iv, cbc_encrypt k iv (PKCS7_pad AES_block_size d)),
     mkWorld (heap w) (skip 16 (skip 32 (rng w)))).
Proof.
  intros Hid. unfold PKCSPKIEnvelopeBuilder._encrypt_data. rewrite Hid.
  reflexivity.
Qed.

(** C2. Under [tripledes_3key], [_encrypt_data] asks the random source for
    eight bytes of key material, not twenty-four: the key of the cipher
    object has twenty-four bytes, which are those eight three times over,
    and the call reads sixteen random bytes in all, eight for the key and
    eight for the IV. *)
Theorem tripledes_key_is_eight_random_bytes `{Crypto}
    (self : PKCSPKIEnvelopeBuilder.t) (d : bytes) (w : World) :
  PKCSPKIEnvelopeBuilder._encryption_algorithm_id self = Some "tripledes_3key"%string ->
  exists symkey iv ct w',
    PKCSPKIEnvelopeBuilder._encrypt_data self (Some d) w = (Ok (symkey, iv, ct), w')
    /\ length (drawn 8 (rng w)) = 8
    /\ key symkey = drawn 8 (rng w) ++ drawn 8 (rng w) ++ drawn 8 (rng w)
    /\ length (key symkey) = 24
    /\ iv = drawn 8 (skip 8 (rng w))
    /\ pos (rng w') = pos (rng w) + 16.
Proof.
  intros Hid. eexists _, _, _, _. split.
  - by apply encrypt_data_tripledes.
  - split; [apply drawn_length|]. repeat split. simpl. lia.
Qed.

Lemma tripledes_key_is_eight_random_bytes_witness :
  exists symkey iv ct w',
    @PKCSPKIEnvelopeBuilder._encrypt_data Toy.crypto Toy.envelope_builder
      (Some Toy.plaintext) Toy.w0 = (Ok (symkey, iv, ct), w')
    /\ length (drawn 8 (rng Toy.w0)) = 8
    /\ key symkey = drawn 8 (rng Toy.w0) ++ drawn 8 (rng Toy.w0) ++ drawn 8 (rng Toy.w0)
    /\ length (key symkey) = 24
    /\ iv = drawn 8 (skip 8 (rng Toy.w0))
    /\ pos (rng w') = pos (rng Toy.w0) + 16.
Proof.
  apply (@tripledes_key_is_eight_random_bytes Toy.crypto Toy.envelope_builder
           Toy.plaintext Toy.w0).
  reflexivity.
Defined.

(** The two AES branches draw a key of the cipher's full length. *)
Lemma aes_keys_are_random `{Crypto} (self : PKCSPKIEnvelopeBuilder.t)
    (d : bytes) (w : World) (id : string) (n : nat) :
  PKCSPKIEnvelopeBuilder._encryption_algorithm_id self = Some id ->
  (id = "aes128_cbc"%string /\ n = 16) \/ (id = "aes256_cbc"%string /\ n = 32) ->
  exists symkey iv ct w',
    PKCSPKIEnvelopeBuilder._encrypt_data self (Some d) w = (Ok (symkey, iv, ct), w')
    /\ key symkey = drawn n (rng w) /\ length (key symkey) = n.
Proof.
  intros Hid [[-> ->]|[-> ->]]; eexists _, _, _, _.
  - split; [by apply encrypt_data_aes128|]. split; [done|apply drawn_length].
  - split; [by apply encrypt_data_aes256|]. split; [done|apply drawn_length].
Qed.

Lemma mapM_nil {A B} (f : A -> M B) (w : World) : mapM f [] w = (Ok [], w).
Proof. reflexivity. Qed.

Lemma mapM_length {A B} (f : A -> M B) (l : list A) (w w' : World) (r : list B) :
  mapM f l w = (Ok r, w') -> length r = length l.
Proof.
  revert w w' r. induction l as [|x l IH]; intros w w' r; simpl.
  - unfold ret. intros [= <- _]. done.
  - unfold bind at 1. destruct (f x w) as [[y|e] w1]; [|discriminate].
    unfold bind at 1. destruct (mapM f l w1) as [[ys|e] w2] eqn:Hl; [|discriminate].
    unfold ret. intros [= <- _]. simpl. f_equal. by eapply IH.
Qed.

(** [finalize] makes one [RecipientInfo] per recipient, however many there
    are. *)
Lemma finalize_one_info_per_recipient `{Crypto} (self : PKCSPKIEnvelopeBuilder.t)
    (w w' : World) (ed : EnvelopedData) (k : CipherAlgorithm) (iv : bytes) :
  PKCSPKIEnvelopeBuilder.finalize self w = (Ok (ed, k, iv), w') ->
  length (ed_recipient_infos ed) = length (PKCSPKIEnvelopeBuilder._recipients self).
Proof.
  unfold PKCSPKIEnvelopeBuilder.finalize. unfold bind at 1.
  destruct (PKCSPKIEnvelopeBuilder._encrypt_data _ _ w) as [[[[sk iv0] ct]|e] w1];
    [|discriminate].
  unfold bind at 1.
  destruct (mapM _ _ w1) as [[ris|e] w2] eqn:Hm; [|discriminate].
  unfold ret. intros [= <- _ _ _]. simpl. by eapply mapM_length.
Qed.

(** C8 (as the code has it). [finalize] does not look at the number of
    recipients: with content and one of the three algorithms set and an
    empty recipient list it returns an [EnvelopedData] of version 1 whose
    [recipient_infos] is empty. *)
Theorem finalize_accepts_empty_recipients `{Crypto}
    (self : PKCSPKIEnvelopeBuilder.t) (d : bytes) (id : string) (w : World) :
  PKCSPKIEnvelopeBuilder._data self = Some d ->
  PKCSPKIEnvelopeBuilder._encryption_algorithm_id self = Some id ->
  In id ["tripledes_3key"; "aes128_cbc"; "aes256_cbc"]%string ->
  PKCSPKIEnvelopeBuilder._recipients self = [] ->
  exists ed k iv w',
    PKCSPKIEnvelopeBuilder.finalize self w = (Ok (ed, k, iv), w')
    /\ ed_version ed = 1%Z
    /\ ed_recipient_infos ed = [].
Proof.
  intros Hd Hid Hin Hr. unfold PKCSPKIEnvelopeBuilder.finalize.
  rewrite Hd, Hr.
  destruct Hin as [<-|[<-|[<-|[]]]].
  - erewrite bind_ok by (by apply encrypt_data_tripledes).
    eexists _, _, _, _. split; [reflexivity|]. done.
  - erewrite bind_ok by (by apply encrypt_data_aes128).
    eexists _, _, _, _. split; [reflexivity|]. done.
  - erewrite bind_ok by (by apply encrypt_data_aes256).
    eexists _, _, _, _. split; [reflexivity|]. done.
Qed.

Lemma finalize_accepts_empty_recipients_witness :
  exists ed k iv w',
    @PKCSPKIEnvelopeBuilder.finalize Toy.crypto Toy.envelope_builder Toy.w0
      = (Ok (ed, k, iv), w')
    /\ ed_version ed = 1%Z
    /\ ed_recipient_infos ed = [].
Proof.
  apply (@finalize_accepts_empty_recipients Toy.crypto Toy.envelope_builder
           Toy.plaintext "tripledes_3key" Toy.w0).
  - reflexivity.
  - reflexivity.
  - simpl. tauto.
  - reflexivity.
Defined.

(** C8, counterexample. A builder with no recipient whose [finalize] does
    not fail. *)
Lemma finalize_without_recipients_does_not_fail :
  PKCSPKIEnvelopeBuilder._recipients Toy.envelope_builder = []
  /\ ~ (exists e w',
          @PKCSPKIEnvelopeBuilder.finalize Toy.crypto Toy.envelope_builder Toy.w0
            = (Raise e, w')).
Proof.
  split; [reflexivity|].
  intros (e & w' & Hf). vm_compute in Hf. discriminate Hf.
Qed.

(** *** The message builder: the status setter *)

(** C6. [pki_status(FAILURE)] without a failure info raises, whatever the
    builder and the world; the random source is not read, and whatever is
    chained after the call ([finalize] included) does not run. *)
Theorem pki_status_failure_requires_fail_info
    (self : PKIMessageBuilder.t) (w : World) :
  exists w',
    PKIMessageBuilder.pki_status self FAILURE None w = (Raise MissingFailInfo, w')
    /\ rng w' = rng w
    /\ forall (B : Type) (k : PKIMessageBuilder.t -> M B),
         (let* b := PKIMessageBuilder.pki_status self FAILURE None in k b) w
         = (Raise MissingFailInfo, w').
Proof.
  eexists. split; [reflexivity|]. split; [reflexivity|].
  intros B k. reflexivity.
Qed.

(** With a failure info the setter returns, and appends the status and then
    the failure info. *)
Lemma pki_status_failure_with_fail_info
    (self : PKIMessageBuilder.t) (f : FailInfo) (w : World) :
  let l := PKIMessageBuilder._cms_attributes self in
  exists w',
    PKIMessageBuilder.pki_status self FAILURE (Some f) w = (Ok self, w')
    /\ list_at l (heap w') =
       list_at l (heap w)
       ++ [mkAttr "pki_status" [PrintableString "2"];
           mkAttr "fail_info" [PrintableString (FailInfo_value f)]].
Proof.
  intros l. eexists. split.
  - unfold PKIMessageBuilder.pki_status. run. reflexivity.
  - subst l. simpl. rewrite !list_at_insert. by rewrite <- app_assoc.
Qed.

(** *** The message builder: signing *)

Section Signing.
Context `{Crypto} `{Codec}.

Lemma sign_spec (s : Signer.t) (content d : bytes) (l : loc) (w : World) :
  let attrs :=
    Signer.content_type_attr "data" :: Signer.message_digest_attr d
      :: list_at l (heap w) in
  Signer.sign s content "data" d l w =
    (Ok (signer_info_of s attrs, with_attributes l s),
     mkWorld (<[l := attrs]> (heap w)) (rng w)).
Proof.
  unfold Signer.sign. run.
  rewrite !list_at_insert, insert_insert_eq. reflexivity.
Qed.

Lemma attrs_after_S (n : nat) (d : bytes) (attrs : list CMSAttribute) :
  attrs_after (S n) d attrs =
  Signer.content_type_attr "data" :: Signer.message_digest_attr d
    :: attrs_after n d attrs.
Proof.
  revert attrs. induction n as [|n IH]; intros attrs; [done|].
  change (attrs_after (S (S n)) d attrs)
    with (attrs_after (S n) d
            (Signer.content_type_attr "data" :: Signer.message_digest_attr d :: attrs)).
  rewrite IH. reflexivity.
Qed.

Lemma list_at_heap_after (n : nat) (d : bytes) (l : loc)
    (h : gmap loc (list CMSAttribute)) :
  list_at l (heap_after n d l h) = attrs_after n d (list_at l h).
Proof. destruct n; [done|]. unfold heap_after. by rewrite list_at_insert. Qed.


(** The signers sign in turn, each with the list the one before left. *)
Lemma sign_each_spec (signers : list Signer.t) (content d : bytes) (l : loc)
    (w : World) :
  PKIMessageBuilder.sign_each signers content d l w =
    (Ok (signer_infos_of signers d (list_at l (heap w)),
         map (with_attributes l) signers),
     mkWorld (heap_after (length signers) d l (heap w)) (rng w)).
Proof.
  revert w. induction signers as [|s rest IH]; intros w.
  - destruct w. reflexivity.
  - simpl PKIMessageBuilder.sign_each.
    erewrite bind_ok by apply sign_spec. cbv beta iota.
    erewrite bind_ok by apply IH. unfold ret. cbn [heap rng].
    rewrite list_at_insert. simpl signer_infos_of. simpl map.
    f_equal. f_equal.
    destruct rest as [|s' rest'].
    + reflexivity.
    + cbn [length heap_after]. rewrite list_at_insert, insert_insert_eq.
      reflexivity.
Qed.

Lemma finalize_spec (self : PKIMessageBuilder.t) (w : World) :
  let l := PKIMessageBuilder._cms_attributes self in
  let der := dump_content_info (PKIMessageBuilder.pkienvelope_content_info self) in
  let d := digest SHA1 der in
  PKIMessageBuilder.finalize self w =
    (Ok (mkContentInfo "signed_data"
           (SignedDataContent
              (mkSignedData 1 ["sha1"%string] (mkEncap "data" (Some der))
                 (PKIMessageBuilder._certificates self)
                 (signer_infos_of (PKIMessageBuilder._signers self) d
                    (list_at l (heap w))))),
         PKIMessageBuilder.mk
           (map (with_attributes l) (PKIMessageBuilder._signers self))
           l (PKIMessageBuilder._certificates self)
           (PKIMessageBuilder._pki_envelope self)),
     mkWorld (heap_after (length (PKIMessageBuilder._signers self)) d l (heap w))
             (rng w)).
Proof.
  unfold PKIMessageBuilder.finalize, PKIMessageBuilder._build_signerinfos.
  unfold bind at 1. unfold bind at 1. rewrite sign_each_spec. reflexivity.
Qed.

End Signing.

(** Values that agree up to the order of their sets carry the same number
    of signed attributes. *)
Lemma set_of_sum {A} (R : A -> A -> Prop) (f : A -> nat) (x y : list A) :
  (forall a b, R a b -> f a = f b) ->
  set_of R x y -> sum_list (f <$> x) = sum_list (f <$> y).
Proof.
  intros Hf (l & Hp & Hl). rewrite Hp. clear Hp.
  induction Hl as [|a b x l Hab _ IH]; [done|].
  cbn [fmap list_fmap sum_list sum_list_with]. f_equal; [by apply Hf|exact IH].
Qed.

Lemma set_of_length {A} (R : A -> A -> Prop) (x y : list A) :
  set_of R x y -> length x = length y.
Proof. intros (l & Hp & Hl). rewrite Hp. by eapply Forall2_length. Qed.

Lemma same_sets_count (a b : ContentInfo) :
  same_sets a b -> signed_attributes_in a = signed_attributes_in b.
Proof.
  unfold same_sets, signed_attributes_in. intros [_ Hc].
  destruct (ci_content a) as [|x|x|x], (ci_content b) as [|y|y|y]; try done.
  destruct Hc as (_ & _ & _ & _ & Hs).
  eapply set_of_sum; [|exact Hs].
  intros s1 s2 (_ & _ & _ & _ & _ & Ha). unfold signed_attribute_count.
  destruct (si_signed_attrs s1) as [x1|], (si_signed_attrs s2) as [x2|]; try done.
  simpl. by eapply set_of_length.
Qed.

Section SignedAttributes.
Context `{Crypto} `{Codec}.

Lemma signer_infos_of_lookup (signers : list Signer.t) (d : bytes)
    (attrs : list CMSAttribute) (i : nat) (s : Signer.t) :
  signers !! i = Some s ->
  signer_infos_of signers d attrs !! i
  = Some (signer_info_of s (attrs_after (S i) d attrs)).
Proof.
  revert attrs i. induction signers as [|s0 rest IH]; intros attrs i; [done|].
  destruct i as [|i]; simpl.
  - by intros [= ->].
  - intros Hi. by rewrite (IH _ _ Hi).
Qed.

Lemma signer_infos_of_identity (s1 s2 : list Signer.t) (d : bytes)
    (attrs : list CMSAttribute) :
  map signer_identity s1 = map signer_identity s2 ->
  signer_infos_of s1 d attrs = signer_infos_of s2 d attrs.
Proof.
  revert s2 attrs. induction s1 as [|a s1 IH]; intros [|b s2] attrs; try done.
  simpl. intros [= Hc Hk Hd Hrest]. f_equal.
  - unfold signer_info_of, Signer.sid, Signer.digest_algorithm.
    by rewrite Hc, Hk, Hd.
  - by apply IH.
Qed.

Lemma digest_sizes_differ (d : DigestAlgorithmId) :
  d <> sha1 -> digest_size SHA1 <> digest_size (Signer.digest_function d).
Proof. destruct d; simpl; intros Hd; [done|lia|lia]. Qed.

(** C3. Whatever digest a signer declares, the [message_digest] attribute
    it signs holds the SHA-1 digest of the DER of the inner [ContentInfo],
    while its [SignerInfo] names the declared algorithm. With digests of
    their standard sizes, the value is therefore not the declared digest
    of that content as soon as the signer declares SHA-256 or SHA-512. *)
Theorem message_digest_is_always_sha1 (self : PKIMessageBuilder.t) (w : World)
    (i : nat) (s : Signer.t) :
  (forall h m, length (digest h m) = digest_size h) ->
  PKIMessageBuilder._signers self !! i = Some s ->
  let der := dump_content_info (PKIMessageBuilder.pkienvelope_content_info self) in
  exists ci self' w' sd si rest,
    PKIMessageBuilder.finalize self w = (Ok (ci, self'), w')
    /\ ci_content ci = SignedDataContent sd
    /\ sd_signer_infos sd !! i = Some si
    /\ si_digest_algorithm si = native (Signer.digest_algorithm_id s)
    /\ si_signed_attrs si =
       Some (Signer.content_type_attr "data"
             :: Signer.message_digest_attr (digest SHA1 der) :: rest)
    /\ (Signer.digest_algorithm_id s <> sha1 ->
        digest SHA1 der
        <> digest (Signer.digest_function (Signer.digest_algorithm_id s)) der).
Proof.
  intros Hlen Hs der.
  eexists _, _, _, _, _, _. split; [apply finalize_spec|].
  split; [reflexivity|]. cbn [sd_signer_infos].
  split; [by apply signer_infos_of_lookup|].
  split; [reflexivity|].
  split; [cbn [signer_info_of si_signed_attrs]; by rewrite attrs_after_S|].
  intros Hd Heq. apply (digest_sizes_differ _ Hd).
  rewrite <- (Hlen SHA1 der), <- (Hlen _ der). by rewrite Heq.
Qed.

(** C7. The signer at position [i] (from 0) signs the list the builder
    holds when [finalize] starts with [i + 1] pairs of [content_type] and
    [message_digest] before it: the first signer signs [content_type],
    [message_digest] and the accumulated attributes, every later one
    signs the pairs of the signers before it as well. *)
Theorem signed_attrs_of_nth_signer (self : PKIMessageBuilder.t) (w : World)
    (i : nat) (s : Signer.t) :
  PKIMessageBuilder._signers self !! i = Some s ->
  let l := PKIMessageBuilder._cms_attributes self in
  let d := digest SHA1
             (dump_content_info (PKIMessageBuilder.pkienvelope_content_info self)) in
  exists ci self' w' sd si,
    PKIMessageBuilder.finalize self w = (Ok (ci, self'), w')
    /\ ci_content ci = SignedDataContent sd
    /\ sd_signer_infos sd !! i = Some si
    /\ si_signed_attrs si = Some (attrs_after (S i) d (list_at l (heap w)))
    /\ si_signature si =
       rsa_sign (Signer.private_key s)
         (Signer.digest_function (Signer.digest_algorithm_id s))
         (dump_cms_attributes (attrs_after (S i) d (list_at l (heap w)))).
Proof.
  intros Hs l d.
  eexists _, _, _, _, _. split; [apply finalize_spec|].
  split; [reflexivity|]. cbn [sd_signer_infos].
  split; [by apply signer_infos_of_lookup|].
  split; reflexivity.
Qed.

(** C10. With at least one signer, [finalize] leaves the builder's own
    list longer than it found it: the list starts with [content_type] and
    [message_digest], one pair per signer, before the attributes it held;
    the builder still holds that list and so does every signer. *)
Theorem finalize_mutates_attribute_list (self : PKIMessageBuilder.t) (w : World) :
  PKIMessageBuilder._signers self <> [] ->
  let l := PKIMessageBuilder._cms_attributes self in
  let d := digest SHA1
             (dump_content_info (PKIMessageBuilder.pkienvelope_content_info self)) in
  exists ci self' w' rest,
    PKIMessageBuilder.finalize self w = (Ok (ci, self'), w')
    /\ PKIMessageBuilder._cms_attributes self' = l
    /\ list_at l (heap w') =
       Signer.content_type_attr "data" :: Signer.message_digest_attr d :: rest
    /\ list_at l (heap w') =
       attrs_after (length (PKIMessageBuilder._signers self)) d (list_at l (heap w))
    /\ length (list_at l (heap w')) =
       2 * length (PKIMessageBuilder._signers self) + length (list_at l (heap w))
    /\ Forall (fun s => Signer.signed_attributes s = l)
              (PKIMessageBuilder._signers self').
Proof.
  intros Hne l d.
  destruct (PKIMessageBuilder._signers self) as [|s0 rest0] eqn:Hsig; [done|].
  eexists _, _, _, _. split; [apply finalize_spec|].
  split; [reflexivity|]. cbn [heap PKIMessageBuilder._signers].
  rewrite Hsig, list_at_heap_after. fold l. fold d.
  split; [cbn [length]; by rewrite attrs_after_S|].
  split; [reflexivity|].
  split.
  - generalize (length (s0 :: rest0)) as n. intros n.
    induction n as [|n IH]; [done|].
    rewrite attrs_after_S. cbn [length]. rewrite IH. lia.
  - apply Forall_forall. intros s [s' [<- _]]%list_elem_of_In%in_map_iff.
    reflexivity.
Qed.

(** [finalize] is a function of what the builder holds: two builders
    with the same signers (certificate, key and digest), certificates and
    envelope, whose attribute lists hold the same attributes, give the
    same [ContentInfo] and hence the same DER bytes, wherever the lists
    live and whatever else the worlds hold; the random source is not
    read. *)
Lemma finalize_is_reproducible (b1 b2 : PKIMessageBuilder.t) (w1 w2 : World) :
  map signer_identity (PKIMessageBuilder._signers b1)
  = map signer_identity (PKIMessageBuilder._signers b2) ->
  PKIMessageBuilder._certificates b1 = PKIMessageBuilder._certificates b2 ->
  PKIMessageBuilder._certificates b1 <> [] ->
  PKIMessageBuilder._pki_envelope b1 = PKIMessageBuilder._pki_envelope b2 ->
  list_at (PKIMessageBuilder._cms_attributes b1) (heap w1)
  = list_at (PKIMessageBuilder._cms_attributes b2) (heap w2) ->
  exists ci1 ci2 b1' b2' w1' w2',
    PKIMessageBuilder.finalize b1 w1 = (Ok (ci1, b1'), w1')
    /\ PKIMessageBuilder.finalize b2 w2 = (Ok (ci2, b2'), w2')
    /\ ci1 = ci2
    /\ dump_content_info ci1 = dump_content_info ci2
    /\ rng w1' = rng w1 /\ rng w2' = rng w2.
Proof.
  intros Hs Hc _ He Ha.
  eexists _, _, _, _, _, _. split; [apply finalize_spec|].
  split; [apply finalize_spec|].
  assert (Hci : forall a b : ContentInfo, a = b ->
            a = b /\ dump_content_info a = dump_content_info b
            /\ rng w1 = rng w1 /\ rng w2 = rng w2) by (by intros a b ->).
  apply Hci. unfold PKIMessageBuilder.pkienvelope_content_info.
  rewrite Hc, He, Ha. do 3 f_equal. by apply signer_infos_of_identity.
Qed.

(** Calling [finalize] again on the builder it returned: the first signer
    now signs the pairs the first call left in the list as well. *)
Lemma finalize_again (self : PKIMessageBuilder.t) (w : World) (s : Signer.t)
    (rest : list Signer.t) :
  PKIMessageBuilder._signers self = s :: rest ->
  PKIMessageBuilder._certificates self <> [] ->
  let l := PKIMessageBuilder._cms_attributes self in
  let d := digest SHA1
             (dump_content_info (PKIMessageBuilder.pkienvelope_content_info self)) in
  exists ci1 self1 w1 ci2 self2 w2 sd2 si,
    PKIMessageBuilder.finalize self w = (Ok (ci1, self1), w1)
    /\ PKIMessageBuilder.finalize self1 w1 = (Ok (ci2, self2), w2)
    /\ ci_content ci2 = SignedDataContent sd2
    /\ sd_signer_infos sd2 !! 0 = Some si
    /\ si_signed_attrs si =
       Some (attrs_after (S (S (length rest))) d (list_at l (heap w))).
Proof.
  intros Hsig _ l d.
  eexists _, _, _, _, _, _, _, _. split; [apply finalize_spec|].
  split; [apply finalize_spec|].
  split; [reflexivity|]. cbn [sd_signer_infos PKIMessageBuilder._signers].
  rewrite Hsig. cbn [map signer_infos_of]. split; [reflexivity|].
  cbn [signer_info_of si_signed_attrs PKIMessageBuilder._cms_attributes heap
       PKIMessageBuilder.pkienvelope_content_info PKIMessageBuilder._pki_envelope].
  rewrite list_at_heap_after. fold l.
  change (digest SHA1 (dump_content_info (PKIMessageBuilder.pkienvelope_content_info self)))
    with d.
  f_equal. rewrite (attrs_after_S (S (length rest))). reflexivity.
Qed.


Lemma signer_infos_of_count (signers : list Signer.t) (d : bytes)
    (attrs : list CMSAttribute) :
  sum_list (signed_attribute_count <$> signer_infos_of signers d attrs)
  = length signers * length attrs + length signers * (length signers + 1).
Proof.
  revert attrs. induction signers as [|s rest IH]; intros attrs; [done|].
  cbn [signer_infos_of fmap list_fmap sum_list sum_list_with].
  change (list_fmap _ _ signed_attribute_count ?l) with (signed_attribute_count <$> l).
  rewrite IH. unfold signed_attribute_count.
  cbn [signer_info_of si_signed_attrs default length id]. nia.
Qed.

Lemma attrs_after_length (n : nat) (d : bytes) (attrs : list CMSAttribute) :
  length (attrs_after n d attrs) = 2 * n + length attrs.
Proof.
  induction n as [|n IH]; [done|]. rewrite attrs_after_S. cbn [length]. lia.
Qed.

(** C9. Two successive calls of [finalize] on one builder that has a
    signer do not give the same message, although nothing was set
    between them and no randomness is read: the first call lengthened the
    builder's list, so every signer signs more attributes in the second.
    The two messages differ beyond the order of the members of their
    sets, hence in their DER bytes under every encoding that tells such
    values apart. *)
Theorem second_finalize_differs (self : PKIMessageBuilder.t) (w : World)
    (s : Signer.t) (rest : list Signer.t) :
  PKIMessageBuilder._signers self = s :: rest ->
  PKIMessageBuilder._certificates self <> [] ->
  exists ci1 self1 w1 ci2 self2 w2,
    PKIMessageBuilder.finalize self w = (Ok (ci1, self1), w1)
    /\ PKIMessageBuilder.finalize self1 w1 = (Ok (ci2, self2), w2)
    /\ rng w2 = rng w
    /\ signer_identity <$> PKIMessageBuilder._signers self1
       = signer_identity <$> PKIMessageBuilder._signers self
    /\ PKIMessageBuilder._certificates self1 = PKIMessageBuilder._certificates self
    /\ PKIMessageBuilder._pki_envelope self1 = PKIMessageBuilder._pki_envelope self
    /\ signed_attributes_in ci2
       = signed_attributes_in ci1
         + 2 * length (PKIMessageBuilder._signers self)
             * length (PKIMessageBuilder._signers self)
    /\ ~ same_sets ci1 ci2
    /\ ((forall a b, dump_content_info a = dump_content_info b -> same_sets a b) ->
        dump_content_info ci1 <> dump_content_info ci2).
Proof.
  intros Hsig _.
  eexists _, _, _, _, _, _. split; [apply finalize_spec|].
  split; [apply finalize_spec|].
  split; [reflexivity|].
  split.
  { cbn [PKIMessageBuilder._signers]. rewrite <- list_fmap_compose.
    by apply list_fmap_ext. }
  split; [reflexivity|]. split; [reflexivity|].
  match goal with
  | |- ?c2 = ?c1 + _ /\ _ => assert (Hcount : c2 = c1 + 2 * length (PKIMessageBuilder._signers self) * length (PKIMessageBuilder._signers self))
  end.
  { unfold signed_attributes_in.
    cbn [ci_content sd_signer_infos PKIMessageBuilder._signers
         PKIMessageBuilder._cms_attributes heap].
    rewrite !signer_infos_of_count, list_at_heap_after, attrs_after_length.
    rewrite length_map. nia. }
  split; [exact Hcount|].
  assert (Hdiff : forall a b : ContentInfo,
            signed_attributes_in b
            = signed_attributes_in a + 2 * length (PKIMessageBuilder._signers self)
                                         * length (PKIMessageBuilder._signers self) ->
            ~ same_sets a b).
  { intros a b Hc Hs. apply same_sets_count in Hs. rewrite Hsig in Hc.
    cbn [length] in Hc. nia. }
  split; [by apply Hdiff|].
  intros Hinj Heq. by apply (Hdiff _ _ Hcount), Hinj.
Qed.


End SignedAttributes.

(** *** The parser *)

Lemma bind_ret {A B} (a : A) (k : A -> M B) (w : World) : bind (ret a) k w = k a w.
Proof. reflexivity. Qed.

Lemma bind_assoc {A B C} (m : M A) (k : A -> M B) (k' : B -> M C) (w : World) :
  bind (bind m k) k' w = bind m (fun a => bind (k a) k') w.
Proof. unfold bind. by destruct (m w) as [[a|e] w1]. Qed.

Lemma bind_outcome_map {A B C} (f : B -> C) (m : M A) (k1 : A -> M C)
    (k2 : A -> M B) (w : World) :
  (forall a w', k1 a w' = outcome_map f (k2 a w')) ->
  bind m k1 w = outcome_map f (bind m k2 w).
Proof.
  intros Hk. unfold bind. destruct (m w) as [[a|e] w1]; [apply Hk|done].
Qed.

Lemma bind_outcome_map2 {A B C} (f : B -> C) (g : A -> A) (m1 m2 : M A)
    (k1 : A -> M C) (k2 : A -> M B) (w : World) :
  m1 w = outcome_map g (m2 w) ->
  (forall a w', k1 (g a) w' = outcome_map f (k2 a w')) ->
  bind m1 k1 w = outcome_map f (bind m2 k2 w).
Proof.
  intros Hm Hk. unfold bind. rewrite Hm.
  destruct (m2 w) as [[a|e] w1]; simpl; [apply Hk|done].
Qed.

Lemma quiet_ret {A} (a : A) : quiet (ret a).
Proof. intros w e w'. unfold ret. discriminate. Qed.

Lemma quiet_raise {A} (e : PyError) : e <> InvalidSignature -> quiet (@raise A e).
Proof. intros He w e' w'. unfold raise. by intros [= <- _]. Qed.

Lemma quiet_bind {A B} (m : M A) (k : A -> M B) :
  quiet m -> (forall a, quiet (k a)) -> quiet (bind m k).
Proof.
  intros Hm Hk w e w'. unfold bind.
  destruct (m w) as [[a|e0] w1] eqn:Hmw.
  - apply Hk.
  - intros [= <- _]. by eapply Hm.
Qed.

Lemma quiet_lift {A} (o : outcome A) : o <> Raise InvalidSignature -> quiet (lift o).
Proof. intros Ho w e w'. unfold lift. intros [= -> _]. by intros ->. Qed.

Lemma quiet_assert (b : bool) : quiet (assert b).
Proof. destruct b; [apply quiet_ret|by apply quiet_raise]. Qed.

Lemma quiet_mapM {A B} (f : A -> M B) (l : list A) :
  (forall a, quiet (f a)) -> quiet (mapM f l).
Proof.
  intros Hf. induction l as [|x l IH]; simpl; [apply quiet_ret|].
  apply quiet_bind; [apply Hf|]. intros y.
  apply quiet_bind; [apply IH|]. intros ys. apply quiet_ret.
Qed.

Lemma signature_algo_quiet (a : string) : signature_algo a <> Raise InvalidSignature.
Proof. unfold signature_algo. repeat case_match; discriminate. Qed.

Lemma MessageType_of_value_quiet (v : string) :
  MessageType_of_value v <> Raise InvalidSignature.
Proof. unfold MessageType_of_value. case_match; discriminate. Qed.

Ltac quiet_step :=
  first
    [ apply quiet_ret
    | apply quiet_assert
    | apply quiet_raise; discriminate
    | apply quiet_lift; first [apply signature_algo_quiet | apply MessageType_of_value_quiet]
    | apply quiet_bind; [|intros ?] ].

Lemma set_attribute_quiet (msg : SCEPMessage.t) (a : CMSAttribute) :
  quiet (SCEPMessage.set_attribute msg a).
Proof.
  unfold SCEPMessage.set_attribute.
  repeat first [quiet_step | case_match].
Qed.

Lemma set_attributes_quiet (attrs : list CMSAttribute) (msg : SCEPMessage.t) :
  quiet (SCEPMessage.set_attributes msg attrs).
Proof.
  revert msg. induction attrs as [|a rest IH]; intros msg; simpl; [apply quiet_ret|].
  apply quiet_bind; [apply set_attribute_quiet|]. intros msg'. apply IH.
Qed.

Section Parser.
Context `{Crypto} `{Codec}.

Lemma verify_content_quiet (sd : SignedData) (si : SignerInfo)
    (c : option Certificate) (h : HashAlgorithm) :
  quiet (SCEPMessage.verify_content sd si c h).
Proof.
  unfold SCEPMessage.verify_content.
  repeat first [quiet_step | case_match].
Qed.

Lemma parse_signer_quiet (sd : SignedData) (certs : option (list Certificate))
    (msg : SCEPMessage.t) (si : SignerInfo) :
  quiet (SCEPMessage.parse_signer sd certs msg si).
Proof.
  unfold SCEPMessage.parse_signer.
  repeat first [quiet_step | apply verify_content_quiet
               | apply set_attributes_quiet | case_match].
Qed.

Lemma parse_signers_quiet (sd : SignedData) (certs : option (list Certificate))
    (infos : list SignerInfo) (msg : SCEPMessage.t) :
  quiet (SCEPMessage.parse_signers sd certs msg infos).
Proof.
  revert msg. induction infos as [|si rest IH]; intros msg; simpl; [apply quiet_ret|].
  apply quiet_bind; [apply parse_signer_quiet|]. intros msg'. apply IH.
Qed.

Lemma parse_content_info_quiet (msg : SCEPMessage.t) (cinfo : ContentInfo) :
  quiet (SCEPMessage.parse_content_info msg cinfo).
Proof.
  unfold SCEPMessage.parse_content_info, certificates_from_asn1.
  repeat first [quiet_step | apply parse_signers_quiet | case_match].
  apply quiet_mapM. intros cc. case_match; quiet_step.
Qed.

(** The outcome of a signer's turn does not depend on the signature
    octets. *)
Lemma set_attribute_forget (msg : SCEPMessage.t) (a : CMSAttribute) (w : World) :
  SCEPMessage.set_attribute (forget_signature msg) a w
  = outcome_map forget_signature (SCEPMessage.set_attribute msg a w).
Proof.
  unfold SCEPMessage.set_attribute. run.
  repeat case_match; try reflexivity; simplify_eq.
Qed.

Lemma set_attributes_forget (attrs : list CMSAttribute) (msg : SCEPMessage.t)
    (w : World) :
  SCEPMessage.set_attributes (forget_signature msg) attrs w
  = outcome_map forget_signature (SCEPMessage.set_attributes msg attrs w).
Proof.
  revert msg w. induction attrs as [|a rest IH]; intros msg w; simpl; [done|].
  unfold bind. rewrite set_attribute_forget.
  destruct (SCEPMessage.set_attribute msg a w) as [[m|e] w1]; simpl; [apply IH|done].
Qed.

End Parser.

Section ParserSignatures.
Context `{Crypto} `{Codec}.

Lemma parse_signer_forget (sd sd' : SignedData) (certs : option (list Certificate))
    (msg : SCEPMessage.t) (si : SignerInfo) (w : World) :
  sd_encap_content_info sd' = sd_encap_content_info sd ->
  SCEPMessage.parse_signer sd' certs (forget_signature msg) (erase_signature si) w
  = outcome_map forget_signature (SCEPMessage.parse_signer sd certs msg si w).
Proof.
  intros He. unfold SCEPMessage.parse_signer, SCEPMessage.verify_content.
  rewrite He. run.
  repeat case_match; simplify_eq; try reflexivity.
  all: apply (set_attributes_forget _ (SCEPMessage.set_signer_info msg si)).
Qed.

Lemma parse_signers_forget (sd sd' : SignedData) (certs : option (list Certificate))
    (infos : list SignerInfo) (msg : SCEPMessage.t) (w : World) :
  sd_encap_content_info sd' = sd_encap_content_info sd ->
  SCEPMessage.parse_signers sd' certs (forget_signature msg)
    (map erase_signature infos) w
  = outcome_map forget_signature (SCEPMessage.parse_signers sd certs msg infos w).
Proof.
  intros He. revert msg w.
  induction infos as [|si rest IH]; intros msg w; simpl; [done|].
  unfold bind. rewrite (parse_signer_forget sd sd') by done.
  destruct (SCEPMessage.parse_signer sd certs msg si w) as [[m|e] w1]; simpl;
    [apply IH|done].
Qed.

Lemma parse_content_info_forget (cinfo : ContentInfo) (w : World) :
  SCEPMessage.parse_content_info SCEPMessage.__init__ (erase_signatures cinfo) w
  = outcome_map forget_signature
      (SCEPMessage.parse_content_info SCEPMessage.__init__ cinfo w).
Proof.
  unfold SCEPMessage.parse_content_info, erase_signatures.
  cbn [ci_content_type ci_content].
  apply bind_outcome_map. intros _ w1.
  destruct (ci_content cinfo) as [|sd|ed|b]; try reflexivity.
  rewrite !bind_ret.
  cbn [sd_certificates sd_signer_infos sd_encap_content_info].
  destruct (sd_certificates sd) as [|c cs] eqn:Hc.
  - rewrite !bind_ret.
    eapply (bind_outcome_map2 _ forget_signature).
    + apply (parse_signers_forget sd _ None (sd_signer_infos sd) SCEPMessage.__init__).
      done.
    + done.
  - rewrite !bind_assoc. apply bind_outcome_map. intros certs w2.
    rewrite !bind_ret.
    eapply (bind_outcome_map2 _ forget_signature).
    + apply (parse_signers_forget sd _ (Some certs) (sd_signer_infos sd)
               (SCEPMessage.set_certificates SCEPMessage.__init__ certs)).
      done.
    + done.
Qed.

(** C1. [parse] does not check signatures. Two encodings whose messages
    differ in signature octets only are parsed to the same outcome (the
    same error, or the same message apart from the signature octets it
    keeps), and no outcome of [parse] is [BadSignature]. *)
Theorem parse_does_not_check_signatures (raw raw' : bytes)
    (cinfo cinfo' : ContentInfo) (w : World) :
  load_content_info raw = Ok cinfo ->
  load_content_info raw' = Ok cinfo' ->
  erase_signatures cinfo = erase_signatures cinfo' ->
  outcome_map forget_signature (SCEPMessage.parse raw w)
  = outcome_map forget_signature (SCEPMessage.parse raw' w)
  /\ fst (SCEPMessage.parse raw w) <> Raise BadSignature
  /\ fst (SCEPMessage.parse raw' w) <> Raise BadSignature.
Proof.
  intros Hl Hl' He. unfold SCEPMessage.parse, lift, bind. rewrite Hl, Hl'.
  split.
  - rewrite <- !parse_content_info_forget. by rewrite He.
  - split.
    + destruct (SCEPMessage.parse_content_info _ cinfo w) as [[m|e] w1] eqn:Hp;
        [done|]. simpl. intros [= ->].
      by eapply parse_content_info_quiet.
    + destruct (SCEPMessage.parse_content_info _ cinfo' w) as [[m|e] w1] eqn:Hp;
        [done|]. simpl. intros [= ->].
      by eapply parse_content_info_quiet.
Qed.

End ParserSignatures.

Lemma parse_does_not_check_signatures_witness :
  outcome_map forget_signature
    (@SCEPMessage.parse Toy.crypto Toy.full_codec Toy.raw Toy.w0)
  = outcome_map forget_signature
      (@SCEPMessage.parse Toy.crypto Toy.full_codec Toy.tampered_raw Toy.w0)
  /\ fst (@SCEPMessage.parse Toy.crypto Toy.full_codec Toy.raw Toy.w0)
     <> Raise BadSignature
  /\ fst (@SCEPMessage.parse Toy.crypto Toy.full_codec Toy.tampered_raw Toy.w0)
     <> Raise BadSignature.
Proof.
  apply (@parse_does_not_check_signatures Toy.crypto Toy.full_codec
           Toy.raw Toy.tampered_raw Toy.pki_message Toy.tampered_message Toy.w0).
  - vm_compute. reflexivity.
  - vm_compute. reflexivity.
  - vm_compute. reflexivity.
Defined.

(** The message of the example carries the signer's certificate and a
    signature that verifies; with one bit of the signature flipped the
    signature no longer verifies, and [parse] returns a message all the
    same. *)
Lemma parse_accepts_tampered_signature :
  let check ci :=
    verifier_verify (H := Toy.crypto)
      (verifier_update
         (verifier (public_key Toy.ra_cert) (si_signature (Toy.signer_info ci)) SHA256)
         (Toy.dump_cms_attributes (default [] (si_signed_attrs (Toy.signer_info ci)))))
      Toy.w0 in
  Toy.certificates_of Toy.tampered_message = [certificate Toy.ra_cert]
  /\ si_sid (Toy.signer_info Toy.tampered_message)
     = issuer_and_serial_number (mkIAS "CN=RA" 1)
  /\ fst (check Toy.pki_message) = Ok tt
  /\ fst (check Toy.tampered_message) = Raise BadSignature
  /\ is_ok (fst (@SCEPMessage.parse Toy.crypto Toy.full_codec Toy.tampered_raw Toy.w0))
     = true.
Proof.
  repeat split; vm_compute; reflexivity.
Qed.

Lemma PKCS7_pad_longer (bs : nat) (p : bytes) :
  0 < bs / 8 ->
  exists n, 0 < n /\ PKCS7_pad bs p = p ++ repeat (byte_of_nat n) n.
Proof.
  intros Hbs. unfold PKCS7_pad. eexists. split; [|reflexivity].
  pose proof (Nat.mod_upper_bound (length p) (bs / 8)). lia.
Qed.

Lemma PKCS7_pad_neq (bs : nat) (p : bytes) : 0 < bs / 8 -> PKCS7_pad bs p <> p.
Proof.
  intros Hbs. destruct (PKCS7_pad_longer bs p Hbs) as (n & Hn & ->).
  intros Heq. apply (f_equal length) in Heq.
  rewrite length_app, repeat_length in Heq. lia.
Qed.

Lemma mapM_Forall2 {A B} (P : A -> B -> Prop) (f : A -> M B) (l : list A)
    (w w' : World) (r : list B) :
  (forall a w1 w2 b, f a w1 = (Ok b, w2) -> P a b) ->
  mapM f l w = (Ok r, w') -> Forall2 P l r.
Proof.
  intros Hf. revert w w' r. induction l as [|x l IH]; intros w w' r; simpl.
  - unfold ret. intros [= <- _]. constructor.
  - unfold bind at 1. destruct (f x w) as [[y|e] w1] eqn:Hx; [|discriminate].
    unfold bind at 1. destruct (mapM f l w1) as [[ys|e] w2] eqn:Hl; [|discriminate].
    unfold ret. intros [= <- _]. constructor; [by eapply Hf|by eapply IH].
Qed.

(** *** Decrypting the envelope *)

Section Envelope.
Context `{Crypto}.

Lemma build_recipient_info_shape (sk : bytes) (r : Certificate)
    (w w' : World) (ri : RecipientInfo) :
  PKCSPKIEnvelopeBuilder._build_recipient_info sk r w = (Ok ri, w') ->
  exists k0, ri = ktri k0
    /\ ktri_key_encryption_algorithm k0 = "rsa"%string
    /\ ktri_rid k0 = issuer_and_serial_number (mkIAS (issuer r) (serial_number r)).
Proof.
  unfold PKCSPKIEnvelopeBuilder._build_recipient_info, bind, ret.
  destruct (rsa_encrypt _ _ _) as [[c|e] r1]; [|discriminate].
  intros [= <- _]. eexists. repeat split.
Qed.

Lemma build_recipient_infos_shape (sk : bytes) (rs : list Certificate)
    (w w' : World) (ris : list RecipientInfo) :
  mapM (PKCSPKIEnvelopeBuilder._build_recipient_info sk) rs w = (Ok ris, w') ->
  Forall2 (fun r ri => exists k0, ri = ktri k0
                   /\ ktri_key_encryption_algorithm k0 = "rsa"%string
                   /\ ktri_rid k0 = issuer_and_serial_number
                                      (mkIAS (issuer r) (serial_number r)))
          rs ris.
Proof.
  apply mapM_Forall2. intros r w1 w2 ri. apply build_recipient_info_shape.
Qed.

Lemma finalize_inv (self : PKCSPKIEnvelopeBuilder.t) (w w' : World)
    (ed : EnvelopedData) (k : CipherAlgorithm) (iv p : bytes) :
  PKCSPKIEnvelopeBuilder.finalize self w = (Ok (ed, k, iv), w') ->
  PKCSPKIEnvelopeBuilder._data self = Some p ->
  Forall2 (fun r ri => exists k0, ri = ktri k0
                   /\ ktri_key_encryption_algorithm k0 = "rsa"%string
                   /\ ktri_rid k0 = issuer_and_serial_number
                                      (mkIAS (issuer r) (serial_number r)))
          (PKCSPKIEnvelopeBuilder._recipients self) (ed_recipient_infos ed)
  /\ exists id,
       ed_encrypted_content_info ed
       = mkECI "data" (mkEncAlg id iv)
               (cbc_encrypt k iv (PKCS7_pad (block_size k) p))
       /\ ((id = "tripledes_3key"%string /\ block_size k = TripleDES_block_size
            /\ TripleDES (key k) = Ok k)
           \/ ((id = "aes128_cbc"%string \/ id = "aes256_cbc"%string)
               /\ block_size k = AES_block_size /\ AES (key k) = Ok k)).
Proof.
  intros Hf Hd. unfold PKCSPKIEnvelopeBuilder.finalize in Hf. rewrite Hd in Hf.
  destruct (PKCSPKIEnvelopeBuilder._encryption_algorithm_id self) as [id|] eqn:Hid.
  2:{ unfold PKCSPKIEnvelopeBuilder._encrypt_data in Hf. rewrite Hid in Hf.
      discriminate Hf. }
  destruct (String.eqb_spec id "tripledes_3key") as [->|H3].
  { erewrite bind_ok in Hf by (by apply encrypt_data_tripledes).
    unfold bind in Hf. destruct (mapM _ _ _) as [[ris|e] w2] eqn:Hm; [|discriminate].
    unfold ret in Hf. injection Hf as <- <- <- _.
    split; [by eapply build_recipient_infos_shape|].
    eexists. split; [reflexivity|]. left. repeat split. }
  destruct (String.eqb_spec id "aes128_cbc") as [->|H1].
  { erewrite bind_ok in Hf by (by apply encrypt_data_aes128).
    unfold bind in Hf. destruct (mapM _ _ _) as [[ris|e] w2] eqn:Hm; [|discriminate].
    unfold ret in Hf. injection Hf as <- <- <- _.
    split; [by eapply build_recipient_infos_shape|].
    eexists. split; [reflexivity|]. right. repeat split. by left. }
  destruct (String.eqb_spec id "aes256_cbc") as [->|H2].
  { erewrite bind_ok in Hf by (by apply encrypt_data_aes256).
    unfold bind in Hf. destruct (mapM _ _ _) as [[ris|e] w2] eqn:Hm; [|discriminate].
    unfold ret in Hf. injection Hf as <- <- <- _.
    split; [by eapply build_recipient_infos_shape|].
    eexists. split; [reflexivity|]. right. repeat split. by right. }
  exfalso. unfold PKCSPKIEnvelopeBuilder._encrypt_data,
    PKCSPKIEnvelopeBuilder.generate_key in Hf.
  rewrite Hid in Hf. unfold bind, ret in Hf. cbn beta iota in Hf.
  apply String.eqb_neq in H3, H1, H2. rewrite H3, H1, H2 in Hf.
  discriminate Hf.
Qed.
End Envelope.

Section Decrypt.
Context `{Crypto} `{Codec}.

(** C4. Decrypting what the envelope builder made of a plaintext [p], with
    the key that unwraps the first recipient's copy of the symmetric key,
    returns the padded plaintext: [p] followed by [n] bytes of value [n],
    [n] at least 1. The padding is not stripped and not checked, so the
    result is never [p] itself. *)
Theorem decrypt_returns_padded_plaintext
    (self : PKCSPKIEnvelopeBuilder.t) (w w' : World) (ed : EnvelopedData)
    (sym_key : CipherAlgorithm) (iv p der : bytes) (msg : SCEPMessage.t)
    (k0 : KeyTransRecipientInfo) (rest : list RecipientInfo)
    (certificate : Certificate) (sk : RSAPrivateKey) (w0 : World) :
  PKCSPKIEnvelopeBuilder.finalize self w = (Ok (ed, sym_key, iv), w') ->
  PKCSPKIEnvelopeBuilder._data self = Some p ->
  SCEPMessage._signed_data msg = Some (Some der) ->
  load_content_info der
    = Ok (mkContentInfo "enveloped_data" (EnvelopedDataContent ed)) ->
  ed_recipient_infos ed = ktri k0 :: rest ->
  rsa_decrypt sk (ktri_encrypted_key k0) = Ok (key sym_key) ->
  cbc_decrypt sym_key iv
    (cbc_encrypt sym_key iv (PKCS7_pad (block_size sym_key) p))
    = Ok (PKCS7_pad (block_size sym_key) p) ->
  exists n,
    0 < n
    /\ SCEPMessage.get_decrypted_envelope_data msg certificate sk w0
       = (Ok (p ++ repeat (byte_of_nat n) n), w0)
    /\ p ++ repeat (byte_of_nat n) n <> p.
Proof.
  intros Hf Hd Hsd Hload Hri Hrsa Hcbc.
  destruct (finalize_inv _ _ _ _ _ _ _ Hf Hd) as (Hshape & id & Heci & Hid).
  rewrite Hri in Hshape.
  destruct (PKCSPKIEnvelopeBuilder._recipients self) as [|r rs];
    [inversion Hshape|].
  apply Forall2_cons_1 in Hshape as [(k0' & [= <-] & Halg & _) _].
  assert (Hbs : 0 < block_size sym_key / 8).
  { destruct Hid as [(_ & -> & _)|(_ & -> & _)]; compute; lia. }
  destruct (PKCS7_pad_longer _ p Hbs) as (n & Hn & Hpad).
  exists n. split; [done|]. split.
  2:{ rewrite <- Hpad. by apply PKCS7_pad_neq. }
  unfold SCEPMessage.get_decrypted_envelope_data, SCEPMessage.encap_content_info.
  rewrite Hsd. unfold lift, bind, ret, assert. rewrite Hload.
  cbn [ci_content]. rewrite Hri, Halg. cbn [String.eqb Ascii.eqb Bool.eqb].
  rewrite Hrsa, Heci. cbn [eci_content_encryption_algorithm ea_algorithm
    ea_parameters eci_encrypted_content].
  destruct Hid as [(-> & _ & Hk)|([->| ->] & _ & Hk)].
  - cbn. rewrite Hk, Hcbc, Hpad. reflexivity.
  - cbn. rewrite Hk, Hcbc, Hpad. reflexivity.
  - cbn. rewrite Hk, Hcbc, Hpad. reflexivity.
Qed.

(** C5. [get_decrypted_envelope_data] takes the first [RecipientInfo],
    whatever certificate it is given: when the key does not unwrap the
    first entry, the call raises the error of the RSA decryption, for
    every certificate, those that match a later entry included. *)
Theorem decrypt_uses_first_recipient_info
    (msg : SCEPMessage.t) (der : bytes) (ed : EnvelopedData)
    (k0 : KeyTransRecipientInfo) (rest : list RecipientInfo)
    (certificate : Certificate) (sk : RSAPrivateKey) (e : PyError) (w : World) :
  SCEPMessage._signed_data msg = Some (Some der) ->
  load_content_info der
    = Ok (mkContentInfo "enveloped_data" (EnvelopedDataContent ed)) ->
  ed_recipient_infos ed = ktri k0 :: rest ->
  ktri_key_encryption_algorithm k0 = "rsa"%string ->
  rsa_decrypt sk (ktri_encrypted_key k0) = Raise e ->
  SCEPMessage.get_decrypted_envelope_data msg certificate sk w = (Raise e, w).
Proof.
  intros Hsd Hload Hri Halg Hrsa.
  unfold SCEPMessage.get_decrypted_envelope_data, SCEPMessage.encap_content_info.
  rewrite Hsd. unfold lift, bind, ret, assert. rewrite Hload.
  cbn [ci_content]. rewrite Hri, Halg. cbn [String.eqb Ascii.eqb Bool.eqb].
  rewrite Hrsa. reflexivity.
Qed.

(** With no [RecipientInfo] at all the subscript [[0]] fails. *)
Lemma decrypt_without_recipient_info
    (msg : SCEPMessage.t) (der : bytes) (ed : EnvelopedData)
    (certificate : Certificate) (sk : RSAPrivateKey) (w : World) :
  SCEPMessage._signed_data msg = Some (Some der) ->
  load_content_info der
    = Ok (mkContentInfo "enveloped_data" (EnvelopedDataContent ed)) ->
  ed_recipient_infos ed = [] ->
  SCEPMessage.get_decrypted_envelope_data msg certificate sk w = (Raise IndexError, w).
Proof.
  intros Hsd Hload Hri.
  unfold SCEPMessage.get_decrypted_envelope_data, SCEPMessage.encap_content_info.
  rewrite Hsd. unfold lift, bind, ret, assert. rewrite Hload.
  cbn [ci_content]. rewrite Hri. reflexivity.
Qed.

End Decrypt.

Lemma outcome_pair {A} (x : outcome A * World) (a : A) :
  fst x = Ok a -> x = (Ok a, snd x).
Proof. destruct x as [o w]. simpl. by intros ->. Qed.

Lemma decrypt_returns_padded_plaintext_witness :
  exists n,
    0 < n
    /\ @SCEPMessage.get_decrypted_envelope_data Toy.crypto Single.codec
         Single.parsed Toy.ra_cert Toy.ra_key Toy.w0
       = (Ok (Toy.plaintext ++ repeat (byte_of_nat n) n), Toy.w0)
    /\ Toy.plaintext ++ repeat (byte_of_nat n) n <> Toy.plaintext.
Proof.
  apply (@decrypt_returns_padded_plaintext Toy.crypto Single.codec
           Single.envelope_builder Toy.w0
           (snd (@PKCSPKIEnvelopeBuilder.finalize Toy.crypto Single.envelope_builder Toy.w0))
           Single.envelope Single.sym_key Single.iv Toy.plaintext
           (Toy.dump_content_info Single.inner) Single.parsed
           Single.recipient_info []
           Toy.ra_cert Toy.ra_key Toy.w0).
  - apply outcome_pair. vm_compute. reflexivity.
  - reflexivity.
  - vm_compute. reflexivity.
  - vm_compute. reflexivity.
  - vm_compute. reflexivity.
  - vm_compute. reflexivity.
  - vm_compute. reflexivity.
Defined.

(** On the example: the plaintext [abc], enveloped for the RA, comes back
    with five bytes of padding. *)
Lemma decrypt_example :
  fst (@SCEPMessage.get_decrypted_envelope_data Toy.crypto Single.codec
         Single.parsed Toy.ra_cert Toy.ra_key Toy.w0)
  = Ok (Toy.plaintext ++ repeat "005"%byte 5).
Proof. vm_compute. reflexivity. Qed.

Lemma decrypt_uses_first_recipient_info_witness :
  @SCEPMessage.get_decrypted_envelope_data Toy.crypto Single.codec
    Single.parsed Toy.other_cert Toy.other_key Toy.w0
  = (Raise (ValueError "Decryption failed."), Toy.w0).
Proof.
  apply (@decrypt_uses_first_recipient_info Toy.crypto Single.codec
           Single.parsed (Toy.dump_content_info Single.inner) Single.envelope
           Single.recipient_info []
           Toy.other_cert Toy.other_key (ValueError "Decryption failed.") Toy.w0).
  - vm_compute. reflexivity.
  - vm_compute. reflexivity.
  - vm_compute. reflexivity.
  - vm_compute. reflexivity.
  - vm_compute. reflexivity.
Defined.

(** On the example: the envelope has one [RecipientInfo], for the RA. A
    certificate that matches no [RecipientInfo] goes unnoticed: given with
    the RA's key the call returns the content, given with an unrelated
    key it fails in the RSA decryption of the RA's entry. *)
Lemma unrelated_certificate_goes_unnoticed :
  ed_recipient_infos Single.envelope = [ktri Single.recipient_info]
  /\ ktri_rid Single.recipient_info
     = issuer_and_serial_number
         (mkIAS (issuer Toy.ra_cert) (serial_number Toy.ra_cert))
  /\ fst (@SCEPMessage.get_decrypted_envelope_data Toy.crypto Single.codec
            Single.parsed Toy.other_cert Toy.ra_key Toy.w0)
     = Ok (Toy.plaintext ++ repeat "005"%byte 5)
  /\ fst (@SCEPMessage.get_decrypted_envelope_data Toy.crypto Single.codec
            Single.parsed Toy.other_cert Toy.other_key Toy.w0)
     = Raise (ValueError "Decryption failed.").
Proof. repeat split; vm_compute; reflexivity. Qed.

(** *** The properties of the message builder on the examples *)

Lemma toy_digest_length (h : HashAlgorithm) (m : bytes) :
  length (Toy.digest h m) = digest_size h.
Proof. unfold Toy.digest. apply repeat_length. Qed.

Lemma message_digest_is_always_sha1_witness :
  let der := Toy.dump_content_info Toy.inner in
  exists ci self' w' sd si rest,
    @PKIMessageBuilder.finalize Toy.crypto (Toy.codec []) Toy.builder1 Toy.world1
      = (Ok (ci, self'), w')
    /\ ci_content ci = SignedDataContent sd
    /\ sd_signer_infos sd !! 0 = Some si
    /\ si_digest_algorithm si = "sha256"%string
    /\ si_signed_attrs si =
       Some (Signer.content_type_attr "data"
             :: Signer.message_digest_attr (Toy.digest SHA1 der) :: rest)
    /\ (sha256 <> sha1 -> Toy.digest SHA1 der <> Toy.digest SHA256 der).
Proof.
  apply (@message_digest_is_always_sha1 Toy.crypto (Toy.codec [])
           Toy.builder1 Toy.world1 0 (Toy.signer 0)).
  - apply toy_digest_length.
  - vm_compute. reflexivity.
Defined.

(** On the example: the signer declares SHA-256 and the attribute holds
    the twenty bytes of the SHA-1 digest. *)
Lemma message_digest_example :
  let der := Toy.dump_content_info Toy.inner in
  si_digest_algorithm (Toy.signer_info Toy.pki_message) = "sha256"%string
  /\ (default [] (si_signed_attrs (Toy.signer_info Toy.pki_message))) !! 1
     = Some (Signer.message_digest_attr (Toy.digest SHA1 der))
  /\ length (Toy.digest SHA1 der) = 20
  /\ length (Toy.digest SHA256 der) = 32.
Proof. repeat split; vm_compute; reflexivity. Qed.

Lemma signed_attrs_of_nth_signer_witness :
  let l := PKIMessageBuilder._cms_attributes Toy.builder2 in
  let d := Toy.digest SHA1 (Toy.dump_content_info Toy.inner) in
  exists ci self' w' sd si,
    @PKIMessageBuilder.finalize Toy.crypto (Toy.codec []) Toy.builder2 Toy.world2
      = (Ok (ci, self'), w')
    /\ ci_content ci = SignedDataContent sd
    /\ sd_signer_infos sd !! 1 = Some si
    /\ si_signed_attrs si = Some (attrs_after 2 d (list_at l (heap Toy.world2)))
    /\ si_signature si =
       Toy.rsa_sign Toy.ca_key SHA512
         (Toy.dump_cms_attributes (attrs_after 2 d (list_at l (heap Toy.world2)))).
Proof.
  apply (@signed_attrs_of_nth_signer Toy.crypto (Toy.codec [])
           Toy.builder2 Toy.world2 1 (Toy.signer 1)).
  vm_compute. reflexivity.
Defined.

(** On the example with two signers: the builder holds the three SCEP
    attributes in the order of the setter calls; the first signer signs
    [content_type], [message_digest] and these three, the second signs
    [content_type] and [message_digest] twice before them. *)
Lemma second_signer_example :
  let ct := Signer.content_type_attr "data" in
  let md := Signer.message_digest_attr
              (Toy.digest SHA1 (Toy.dump_content_info Toy.inner)) in
  let infos :=
    match fst (@PKIMessageBuilder.finalize Toy.crypto (Toy.codec [])
                 Toy.builder2 Toy.world2) with
    | Ok (ci, _) => Toy.signer_infos_in ci
    | Raise _ => []
    end in
  list_at (PKIMessageBuilder._cms_attributes Toy.builder2) (heap Toy.world2)
  = Toy.scep_attrs
  /\ si_signed_attrs <$> infos
     = [Some (ct :: md :: Toy.scep_attrs);
        Some (ct :: md :: ct :: md :: Toy.scep_attrs)].
Proof. split; vm_compute; reflexivity. Qed.

Lemma finalize_mutates_attribute_list_witness :
  let l := PKIMessageBuilder._cms_attributes Toy.builder1 in
  let d := Toy.digest SHA1 (Toy.dump_content_info Toy.inner) in
  exists ci self' w' rest,
    @PKIMessageBuilder.finalize Toy.crypto (Toy.codec []) Toy.builder1 Toy.world1
      = (Ok (ci, self'), w')
    /\ PKIMessageBuilder._cms_attributes self' = l
    /\ list_at l (heap w') =
       Signer.content_type_attr "data" :: Signer.message_digest_attr d :: rest
    /\ list_at l (heap w') =
       attrs_after (length (PKIMessageBuilder._signers Toy.builder1)) d
         (list_at l (heap Toy.world1))
    /\ length (list_at l (heap w')) =
       2 * length (PKIMessageBuilder._signers Toy.builder1)
       + length (list_at l (heap Toy.world1))
    /\ Forall (fun s => Signer.signed_attributes s = l)
              (PKIMessageBuilder._signers self').
Proof.
  apply (@finalize_mutates_attribute_list Toy.crypto (Toy.codec [])
           Toy.builder1 Toy.world1).
  vm_compute. discriminate.
Defined.

(** On the example: before [finalize] the builder's list holds the three
    SCEP attributes and the signer holds a list of its own; afterwards the
    builder's list holds five attributes and the signer holds that list. *)
Lemma finalize_mutation_example :
  let l := PKIMessageBuilder._cms_attributes Toy.builder1 in
  let after := @PKIMessageBuilder.finalize Toy.crypto (Toy.codec [])
                 Toy.builder1 Toy.world1 in
  list_at l (heap Toy.world1) = Toy.scep_attrs
  /\ Signer.signed_attributes <$> PKIMessageBuilder._signers Toy.builder1 <> [l]
  /\ list_at l (heap (snd after))
     = Signer.content_type_attr "data"
       :: Signer.message_digest_attr
            (Toy.digest SHA1 (Toy.dump_content_info Toy.inner))
       :: Toy.scep_attrs
  /\ match fst after with
     | Ok (_, self') =>
         Signer.signed_attributes <$> PKIMessageBuilder._signers self' = [l]
     | Raise _ => False
     end.
Proof.
  repeat split; try (vm_compute; reflexivity).
  vm_compute. discriminate.
Qed.

Lemma second_finalize_differs_witness :
  exists ci1 self1 w1 ci2 self2 w2,
    @PKIMessageBuilder.finalize Toy.crypto (Toy.codec []) Toy.builder1 Toy.world1
    = (Ok (ci1, self1), w1)
    /\ @PKIMessageBuilder.finalize Toy.crypto (Toy.codec []) self1 w1
       = (Ok (ci2, self2), w2)
    /\ rng w2 = rng Toy.world1
    /\ signer_identity <$> PKIMessageBuilder._signers self1
       = signer_identity <$> PKIMessageBuilder._signers Toy.builder1
    /\ PKIMessageBuilder._certificates self1
       = PKIMessageBuilder._certificates Toy.builder1
    /\ PKIMessageBuilder._pki_envelope self1
       = PKIMessageBuilder._pki_envelope Toy.builder1
    /\ signed_attributes_in ci2
       = signed_attributes_in ci1
         + 2 * length (PKIMessageBuilder._signers Toy.builder1)
             * length (PKIMessageBuilder._signers Toy.builder1)
    /\ ~ same_sets ci1 ci2
    /\ ((forall a b, Toy.dump_content_info a = Toy.dump_content_info b ->
                     same_sets a b) ->
        Toy.dump_content_info ci1 <> Toy.dump_content_info ci2).
Proof.
  apply (@second_finalize_differs Toy.crypto (Toy.codec []) Toy.builder1 Toy.world1
           (Toy.signer 0) []).
  - vm_compute. reflexivity.
  - vm_compute. discriminate.
Defined.

(** On the example with one signer: the first [finalize] signs
    [content_type], [message_digest] and the three SCEP attributes, the
    second signs [content_type] and [message_digest] twice before them,
    and the two encodings differ. *)
Lemma second_finalize_example :
  let ct := Signer.content_type_attr "data" in
  let md := Signer.message_digest_attr
              (Toy.digest SHA1 (Toy.dump_content_info Toy.inner)) in
  let first := @PKIMessageBuilder.finalize Toy.crypto (Toy.codec [])
                 Toy.builder1 Toy.world1 in
  let second :=
    match fst first with
    | Ok (_, b) => @PKIMessageBuilder.finalize Toy.crypto (Toy.codec []) b (snd first)
    | Raise e => (Raise e, snd first)
    end in
  let message (r : outcome (ContentInfo * PKIMessageBuilder.t) * World) :=
    match fst r with
    | Ok (ci, _) => ci
    | Raise _ => mkContentInfo "" NoContent
    end in
  si_signed_attrs <$> Toy.signer_infos_in (message first)
  = [Some (ct :: md :: Toy.scep_attrs)]
  /\ si_signed_attrs <$> Toy.signer_infos_in (message second)
     = [Some (ct :: md :: ct :: md :: Toy.scep_attrs)]
  /\ Toy.dump_content_info (message first) <> Toy.dump_content_info (message second).
Proof.
  repeat split; try (vm_compute; reflexivity).
  vm_compute. discriminate.
Qed.

(** On the example: the same set-up in two worlds gives the same message. *)
Lemma finalize_is_reproducible_example :
  exists ci1 ci2 b1' b2' w1' w2',
    @PKIMessageBuilder.finalize Toy.crypto (Toy.codec []) Toy.builder1 Toy.world1
      = (Ok (ci1, b1'), w1')
    /\ @PKIMessageBuilder.finalize Toy.crypto (Toy.codec []) Toy.builder1' Toy.world1'
       = (Ok (ci2, b2'), w2')
    /\ ci1 = ci2
    /\ Toy.dump_content_info ci1 = Toy.dump_content_info ci2
    /\ rng w1' = rng Toy.world1 /\ rng w2' = rng Toy.world1'.
Proof.
  apply (@finalize_is_reproducible Toy.crypto (Toy.codec [])
           Toy.builder1 Toy.builder1' Toy.world1 Toy.world1').
  - vm_compute. reflexivity.
  - vm_compute. reflexivity.
  - vm_compute. discriminate.
  - vm_compute. reflexivity.
  - vm_compute. reflexivity.
Defined.

(** On the example: the two builders keep their lists at different
    locations. *)
Lemma reproducible_example_locations :
  PKIMessageBuilder._cms_attributes Toy.builder1
  <> PKIMessageBuilder._cms_attributes Toy.builder1'.
Proof. vm_compute. discriminate. Qed.

(** What CBC decryption returns is returned as it is: the call has no
    unpadding step that could reject it. *)
Lemma decrypt_returns_cbc_output `{Crypto} `{Codec}
    (msg : SCEPMessage.t) (der : bytes) (ed : EnvelopedData)
    (k0 : KeyTransRecipientInfo) (rest : list RecipientInfo)
    (certificate : Certificate) (sk : RSAPrivateKey) (plain_key x : bytes)
    (c : CipherAlgorithm) (w : World) :
  let algorithm := eci_content_encryption_algorithm (ed_encrypted_content_info ed) in
  SCEPMessage._signed_data msg = Some (Some der) ->
  load_content_info der
    = Ok (mkContentInfo "enveloped_data" (EnvelopedDataContent ed)) ->
  ed_recipient_infos ed = ktri k0 :: rest ->
  ktri_key_encryption_algorithm k0 = "rsa"%string ->
  rsa_decrypt sk (ktri_encrypted_key k0) = Ok plain_key ->
  (ea_algorithm algorithm = "tripledes_3key"%string /\ TripleDES plain_key = Ok c)
  \/ (In (ea_algorithm algorithm) ["aes128_cbc"; "aes256_cbc"]%string
      /\ AES plain_key = Ok c) ->
  cbc_decrypt c (ea_parameters algorithm)
    (eci_encrypted_content (ed_encrypted_content_info ed)) = Ok x ->
  SCEPMessage.get_decrypted_envelope_data msg certificate sk w = (Ok x, w).
Proof.
  intros algorithm Hsd Hload Hri Halg Hrsa Hc Hcbc. subst algorithm.
  unfold SCEPMessage.get_decrypted_envelope_data, SCEPMessage.encap_content_info.
  rewrite Hsd. unfold lift, bind, ret, assert. rewrite Hload.
  cbn [ci_content]. rewrite Hri, Halg. cbn [String.eqb Ascii.eqb Bool.eqb].
  rewrite Hrsa.
  destruct Hc as [[-> Hk]|[[<-|[<-|[]]] Hk]]; cbn; rewrite Hk, Hcbc; reflexivity.
Qed.

(** On the example: a content that decrypts to a block without valid
    padding is returned, where the unpadder would have raised
    [BadPadding]. *)
Lemma decrypt_accepts_invalid_padding :
  PKCS7_unpad TripleDES_block_size Toy.unpadded_block = Raise BadPadding
  /\ fst (@SCEPMessage.get_decrypted_envelope_data Toy.crypto Toy.full_codec
            Toy.unpadded_message Toy.ra_cert Toy.ra_key Toy.w0)
     = Ok Toy.unpadded_block.
Proof. split; vm_compute; reflexivity. Qed.

(** The unpadder undoes the padder on the example. *)
Lemma unpad_example :
  PKCS7_unpad TripleDES_block_size (PKCS7_pad TripleDES_block_size Toy.plaintext)
  = Ok Toy.plaintext.
Proof. vm_compute. reflexivity. Qed.

(** *** The setters of the message builder *)

(** Each setter returns the builder and appends one attribute at the end of
    the builder's list; nothing else in the list changes. *)
Lemma message_type_appends (self : PKIMessageBuilder.t) (m : MessageType) (w : World) :
  let l := PKIMessageBuilder._cms_attributes self in
  exists w',
    PKIMessageBuilder.message_type self m w = (Ok self, w')
    /\ list_at l (heap w') =
       list_at l (heap w) ++ [mkAttr "message_type" [PrintableString (MessageType_value m)]].
Proof.
  intros l. eexists. split; [reflexivity|]. simpl. by rewrite list_at_insert.
Qed.

Lemma pki_status_appends (self : PKIMessageBuilder.t) (st : PKIStatus)
    (fi : option FailInfo) (w : World) :
  st <> FAILURE ->
  let l := PKIMessageBuilder._cms_attributes self in
  exists w',
    PKIMessageBuilder.pki_status self st fi w = (Ok self, w')
    /\ list_at l (heap w') =
       list_at l (heap w) ++ [mkAttr "pki_status" [PrintableString (PKIStatus_value st)]].
Proof.
  intros Hst l. eexists. split.
  - unfold PKIMessageBuilder.pki_status. run. destruct st; [reflexivity|done|reflexivity].
  - simpl. by rewrite list_at_insert.
Qed.

Lemma sender_nonce_appends (self : PKIMessageBuilder.t) (nonce : option bytes)
    (w : World) :
  let l := PKIMessageBuilder._cms_attributes self in
  let value := match nonce with Some b => b | None => drawn 16 (rng w) end in
  exists w',
    PKIMessageBuilder.sender_nonce self nonce w = (Ok self, w')
    /\ length (drawn 16 (rng w)) = 16
    /\ list_at l (heap w') =
       list_at l (heap w) ++ [mkAttr "sender_nonce" [OctetString value]].
Proof.
  intros l value. subst value.
  destruct nonce; (eexists; split; [reflexivity|]);
    (split; [apply drawn_length|]); simpl; by rewrite list_at_insert.
Qed.

Lemma recipient_nonce_appends (self : PKIMessageBuilder.t) (nonce : bytes) (w : World) :
  let l := PKIMessageBuilder._cms_attributes self in
  exists w',
    PKIMessageBuilder.recipient_nonce self nonce w = (Ok self, w')
    /\ list_at l (heap w') =
       list_at l (heap w) ++ [mkAttr "recipient_nonce" [OctetString nonce]].
Proof.
  intros l. eexists. split; [reflexivity|]. simpl. by rewrite list_at_insert.
Qed.

Lemma transaction_id_appends (self : PKIMessageBuilder.t) (trans_id : option string)
    (w : World) :
  let l := PKIMessageBuilder._cms_attributes self in
  let value := match trans_id with
               | Some s => s
               | None => uuid_str (drawn 16 (rng w))
               end in
  exists w',
    PKIMessageBuilder.transaction_id self trans_id w = (Ok self, w')
    /\ list_at l (heap w') =
       list_at l (heap w) ++ [mkAttr "transaction_id" [PrintableString value]].
Proof.
  intros l value. subst value.
  destruct trans_id; (eexists; split; [reflexivity|]); simpl;
    by rewrite list_at_insert.
Qed.

(** When [pki_status(FAILURE)] raises, the status attribute is already in
    the builder's list. *)
Lemma pki_status_failure_leaves_status (self : PKIMessageBuilder.t) (w : World) :
  let l := PKIMessageBuilder._cms_attributes self in
  list_at l (heap (snd (PKIMessageBuilder.pki_status self FAILURE None w)))
  = list_at l (heap w) ++ [mkAttr "pki_status" [PrintableString "2"]].
Proof. simpl. by rewrite list_at_insert. Qed.

(** *** The envelope builder and the random source *)

Lemma rng_only_ret {A} (a : A) : rng_only (ret a).
Proof. by intros w1 w2 Hr. Qed.

Lemma rng_only_raise {A} (e : PyError) : rng_only (@raise A e).
Proof. by intros w1 w2 Hr. Qed.

Lemma rng_only_lift {A} (o : outcome A) : rng_only (lift o).
Proof. by intros w1 w2 Hr. Qed.

Lemma rng_only_urandom (n : nat) : rng_only (os_urandom n).
Proof. intros w1 w2 Hr. unfold os_urandom. simpl. by rewrite Hr. Qed.

Lemma rng_only_bind {A B} (m : M A) (k : A -> M B) :
  rng_only m -> (forall a, rng_only (k a)) -> rng_only (bind m k).
Proof.
  intros Hm Hk w1 w2 Hr. unfold bind.
  destruct (Hm w1 w2 Hr) as [Ho Hr'].
  destruct (m w1) as [[a|e] w1'], (m w2) as [[a'|e'] w2']; simpl in *; simplify_eq.
  - by apply Hk.
  - done.
Qed.

Lemma rng_only_mapM {A B} (f : A -> M B) (l : list A) :
  (forall a, rng_only (f a)) -> rng_only (mapM f l).
Proof.
  intros Hf. induction l as [|x l IH]; simpl; [apply rng_only_ret|].
  apply rng_only_bind; [apply Hf|]. intros y.
  apply rng_only_bind; [apply IH|]. intros ys. apply rng_only_ret.
Qed.

Lemma build_recipient_info_rng_only `{Crypto} (sk : bytes) (r : Certificate) :
  rng_only (PKCSPKIEnvelopeBuilder._build_recipient_info sk r).
Proof.
  unfold PKCSPKIEnvelopeBuilder._build_recipient_info.
  apply rng_only_bind; [|intros c; apply rng_only_ret].
  intros w1 w2 Hr. rewrite Hr. by destruct (rsa_encrypt _ _ _).
Qed.

(** Given the output of the random source, building the envelope is
    reproducible: [finalize] returns the same [EnvelopedData], key and IV
    from any two worlds whose random sources agree. *)
Lemma envelope_finalize_rng_only `{Crypto} (self : PKCSPKIEnvelopeBuilder.t) :
  rng_only (PKCSPKIEnvelopeBuilder.finalize self).
Proof.
  unfold PKCSPKIEnvelopeBuilder.finalize, PKCSPKIEnvelopeBuilder._encrypt_data,
    PKCSPKIEnvelopeBuilder.generate_key.
  repeat first
    [ apply rng_only_ret | apply rng_only_raise | apply rng_only_lift
    | apply rng_only_urandom
    | apply rng_only_mapM; intros ?; apply build_recipient_info_rng_only
    | apply rng_only_bind; [|intros ?]
    | case_match ].
Qed.

(** ** Further properties *)

(** ** Further properties of the envelope builder *)

(** X1. [encrypt] returns exactly for the names [3des], [aes128] and
    [aes256]; for every other name, and when the name is left out, it
    raises [ValueError]. In both cases the data is stored and the
    recipients are kept; the algorithm is set in the first case only. *)
Theorem encrypt_accepts_three_names (self : PKCSPKIEnvelopeBuilder.t)
    (data : bytes) (algorithm : option string) :
  let r := PKCSPKIEnvelopeBuilder.encrypt self data algorithm in
  PKCSPKIEnvelopeBuilder._data (snd r) = Some data
  /\ PKCSPKIEnvelopeBuilder._recipients (snd r)
     = PKCSPKIEnvelopeBuilder._recipients self
  /\ (In algorithm encrypt_algorithms
      /\ fst r = Ok tt
      /\ In (PKCSPKIEnvelopeBuilder._encryption_algorithm_id (snd r))
            [Some "tripledes_3key"; Some "aes128_cbc"; Some "aes256_cbc"]%string
      \/ ~ In algorithm encrypt_algorithms
         /\ fst r = Raise (ValueError "Unrecognised encryption algorithm ")
         /\ PKCSPKIEnvelopeBuilder._encryption_algorithm_id (snd r)
            = PKCSPKIEnvelopeBuilder._encryption_algorithm_id self).
Proof.
  intros r. subst r. unfold PKCSPKIEnvelopeBuilder.encrypt, encrypt_algorithms.
  destruct algorithm as [a|].
  - destruct (String.eqb_spec a "3des") as [->|H1]; [simpl; tauto|].
    destruct (String.eqb_spec a "aes128") as [->|H2]; [simpl; tauto|].
    destruct (String.eqb_spec a "aes256") as [->|H3]; [simpl; tauto|].
    simpl. split; [done|]. split; [done|]. right. split; [|done].
    intros [[= <-]|[[= <-]|[[= <-]|[]]]]; done.
  - simpl. split; [done|]. split; [done|]. right. split; [|done].
    intros [|[|[|[]]]]; done.
Qed.

Lemma add_recipients_fields (self : PKCSPKIEnvelopeBuilder.t) (rs : list Certificate) :
  PKCSPKIEnvelopeBuilder._data (add_recipients self rs)
  = PKCSPKIEnvelopeBuilder._data self
  /\ PKCSPKIEnvelopeBuilder._encryption_algorithm_id (add_recipients self rs)
     = PKCSPKIEnvelopeBuilder._encryption_algorithm_id self
  /\ PKCSPKIEnvelopeBuilder._recipients (add_recipients self rs)
     = PKCSPKIEnvelopeBuilder._recipients self ++ rs.
Proof.
  unfold add_recipients. revert self.
  induction rs as [|r rs IH]; intros self; simpl.
  - by rewrite app_nil_r.
  - destruct (IH (PKCSPKIEnvelopeBuilder.add_recipient self r)) as (-> & -> & ->).
    simpl. by rewrite <- app_assoc.
Qed.

(** X2. A new builder whose [encrypt] was refused cannot be finalized,
    whatever recipients are added: [finalize] raises [AttributeError] and
    leaves the world as it is, the random source included. *)
Theorem finalize_after_refused_encrypt `{Crypto} (data : bytes)
    (algorithm : option string) (rs : list Certificate) (w : World) :
  ~ In algorithm encrypt_algorithms ->
  let self := snd (PKCSPKIEnvelopeBuilder.encrypt PKCSPKIEnvelopeBuilder.__init__
                     data algorithm) in
  PKCSPKIEnvelopeBuilder.finalize (add_recipients self rs) w
  = (Raise AttributeError, w).
Proof.
  intros Hn self.
  assert (Hid : PKCSPKIEnvelopeBuilder._encryption_algorithm_id self = None).
  { subst self. unfold PKCSPKIEnvelopeBuilder.encrypt, encrypt_algorithms in *.
    destruct algorithm as [a|]; [|done].
    destruct (String.eqb_spec a "3des") as [->|H1]; [simpl in Hn; tauto|].
    destruct (String.eqb_spec a "aes128") as [->|H2]; [simpl in Hn; tauto|].
    destruct (String.eqb_spec a "aes256") as [->|H3]; [simpl in Hn; tauto|].
    done. }
  destruct (add_recipients_fields self rs) as (_ & Hid' & _).
  unfold PKCSPKIEnvelopeBuilder.finalize, PKCSPKIEnvelopeBuilder._encrypt_data.
  rewrite Hid', Hid. reflexivity.
Qed.


Lemma encrypt_data_cases `{Crypto} (self : PKCSPKIEnvelopeBuilder.t) (d : bytes)
    (id : string) (w : World) :
  PKCSPKIEnvelopeBuilder._encryption_algorithm_id self = Some id ->
  In id envelope_algorithms ->
  exists n m,
    (id, n, m) ∈ [("tripledes_3key", 8, 8); ("aes128_cbc", 16, 16);
                  ("aes256_cbc", 32, 16)]%string
    /\ exists k,
         (if String.eqb id "tripledes_3key" then TripleDES else AES)
           (drawn n (rng w)) = Ok k
         /\ block_size k / 8 = m
         /\ PKCSPKIEnvelopeBuilder._encrypt_data self (Some d) w
            = (Ok (k, drawn m (skip n (rng w)),
                   cbc_encrypt k (drawn m (skip n (rng w)))
                     (PKCS7_pad (block_size k) d)),
               mkWorld (heap w) (skip m (skip n (rng w)))).
Proof.
  intros Hid [<-|[<-|[<-|[]]]].
  - exists 8, 8. split; [set_solver|]. eexists. split; [reflexivity|].
    split; [reflexivity|]. by apply encrypt_data_tripledes.
  - exists 16, 16. split; [set_solver|]. eexists. split; [reflexivity|].
    split; [reflexivity|]. by apply encrypt_data_aes128.
  - exists 32, 16. split; [set_solver|]. eexists. split; [reflexivity|].
    split; [reflexivity|]. by apply encrypt_data_aes256.
Qed.


Lemma byte_of_nat_value (n : nat) : n < 256 -> Byte.to_nat (byte_of_nat n) = n.
Proof.
  intros Hn. unfold byte_of_nat.
  destruct (Byte.of_nat n) as [b|] eqn:Hb.
  - by apply Byte.to_of_nat.
  - apply Byte.of_nat_None_iff in Hb. lia.
Qed.

Lemma byte_eqb_refl (b : byte) : Byte.eqb b b = true.
Proof. by apply Byte.byte_dec_lb. Qed.

(** The padding [PKCS7_pad] adds is [n] bytes of value [n], where [n],
    between 1 and the block length, completes the data to whole blocks;
    the unpadder of the library takes it off again. *)
Lemma PKCS7_pad_spec (bs : nat) (p : bytes) :
  0 < bs / 8 < 256 ->
  exists n,
    PKCS7_pad bs p = p ++ repeat (byte_of_nat n) n
    /\ 1 <= n <= bs / 8
    /\ (length p + n) mod (bs / 8) = 0
    /\ Byte.to_nat (byte_of_nat n) = n
    /\ PKCS7_unpad bs (PKCS7_pad bs p) = Ok p.
Proof.
  intros Hbs. unfold PKCS7_pad. cbv zeta.
  set (b := bs / 8) in *. set (n := b - length p mod b).
  pose proof (Nat.mod_upper_bound (length p) b) as Hlt.
  pose proof (Nat.div_mod_eq (length p) b) as Hdm.
  assert (Hn : 1 <= n <= b) by (subst n; lia).
  assert (Hmod : (length p + n) mod b = 0).
  { replace (length p + n) with ((length p / b + 1) * b) by (subst n; lia).
    apply Nat.Div0.mod_mul. }
  assert (Hval : Byte.to_nat (byte_of_nat n) = n) by (apply byte_of_nat_value; lia).
  exists n. split; [done|]. split; [done|]. split; [done|]. split; [done|].
  unfold PKCS7_unpad. cbv zeta. fold b.
  destruct n as [|m] eqn:En; [lia|].
  assert (Hlast : last (p ++ repeat (byte_of_nat (S m)) (S m))
                  = Some (byte_of_nat (S m))).
  { cbn [repeat]. rewrite repeat_cons, app_assoc. apply last_snoc. }
  rewrite Hlast, Hval, length_app, repeat_length, Hmod.
  replace (length p + S m - S m) with (length p) by lia.
  rewrite drop_app_length, take_app_length.
  assert (Hall : forallb (Byte.eqb (byte_of_nat (S m)))
                   (repeat (byte_of_nat (S m)) (S m)) = true).
  { apply forallb_forall. intros x Hx. apply repeat_spec in Hx as ->.
    apply byte_eqb_refl. }
  rewrite Hall.
  destruct (Nat.leb_spec 1 (S m)); [|lia].
  destruct (Nat.leb_spec (S m) b); [|lia]. reflexivity.
Qed.

(** X4. For each of the three algorithms, what [_encrypt_data] hands to
    CBC encryption is the data under PKCS#7 padding: the data followed by
    [n] bytes of value [n], where [n], between 1 and the block length,
    completes it to a whole number of blocks, so that the unpadder of the
    library gives the data back. The IV is one block long, 8 bytes for
    3DES and 16 for AES. *)
Theorem encrypt_data_pads_to_whole_blocks `{Crypto}
    (self : PKCSPKIEnvelopeBuilder.t) (d : bytes) (id : string) (w : World) :
  PKCSPKIEnvelopeBuilder._encryption_algorithm_id self = Some id ->
  In id envelope_algorithms ->
  exists k iv n w',
    PKCSPKIEnvelopeBuilder._encrypt_data self (Some d) w
    = (Ok (k, iv, cbc_encrypt k iv (d ++ repeat (byte_of_nat n) n)), w')
    /\ length iv = block_size k / 8
    /\ block_size k / 8 = (if String.eqb id "tripledes_3key" then 8 else 16)
    /\ 1 <= n <= block_size k / 8
    /\ (length d + n) mod (block_size k / 8) = 0
    /\ Byte.to_nat (byte_of_nat n) = n
    /\ PKCS7_unpad (block_size k) (d ++ repeat (byte_of_nat n) n) = Ok d.
Proof.
  intros Hid Hin.
  destruct (encrypt_data_cases self d id w Hid Hin)
    as (nk & m & Hcase & k & _ & Hbs & He).
  assert (Hm : m = if String.eqb id "tripledes_3key" then 8 else 16).
  { set_unfold in Hcase.
    destruct Hcase as [[= -> _ <-]|[[= -> _ <-]|[[= -> _ <-]|[]]]]; reflexivity. }
  destruct (PKCS7_pad_spec (block_size k) d) as (n & Hpad & Hn & Hmod & Hval & Hun).
  { rewrite Hbs, Hm. destruct (String.eqb id "tripledes_3key"); lia. }
  rewrite Hpad in He, Hun.
  exists k, (drawn m (skip nk (rng w))), n, (mkWorld (heap w) (skip m (skip nk (rng w)))).
  split; [exact He|]. split; [rewrite Hbs; apply drawn_length|].
  split; [by rewrite Hbs|]. done.
Qed.

(** X5. Under [aes128_cbc] and [aes256_cbc] the key of the cipher object
    is 16, respectively 32, bytes read from the random source, the IV is
    the 16 bytes read after them, and nothing more is read. *)
Theorem aes_key_and_iv_are_drawn `{Crypto} (self : PKCSPKIEnvelopeBuilder.t)
    (d : bytes) (id : string) (n : nat) (w : World) :
  PKCSPKIEnvelopeBuilder._encryption_algorithm_id self = Some id ->
  (id, n) ∈ [("aes128_cbc", 16); ("aes256_cbc", 32)]%string ->
  exists k iv ct w',
    PKCSPKIEnvelopeBuilder._encrypt_data self (Some d) w = (Ok (k, iv, ct), w')
    /\ cipher_name k = CipherAES
    /\ key k = drawn n (rng w) /\ length (key k) = n
    /\ iv = drawn 16 (skip n (rng w)) /\ length iv = 16
    /\ tape (rng w') = tape (rng w) /\ pos (rng w') = pos (rng w) + n + 16.
Proof.
  intros Hid Hn. set_unfold in Hn. destruct Hn as [[= -> ->]|[[= -> ->]|[]]].
  - eexists _, _, _, _. split; [by apply encrypt_data_aes128|].
    repeat split; apply drawn_length.
  - eexists _, _, _, _. split; [by apply encrypt_data_aes256|].
    repeat split; apply drawn_length.
Qed.

(** ** Further properties of the signer and the message builder *)

(** X6. [Signer(...)] returns exactly for the digest names [sha1],
    [sha256] and [sha512], keeping the certificate, the key and the named
    digest; for every other name it raises [KeyError] and leaves the world
    as it is. *)
Theorem signer_init_digest_names (cert : Certificate) (key : RSAPrivateKey)
    (name : string) (attrs : option loc) (w : World) :
  let r := Signer.__init__ cert key name attrs w in
  (In name signer_digests
   /\ exists s, fst r = Ok s
        /\ Signer.certificate s = cert /\ Signer.private_key s = key
        /\ Signer.digest_algorithm s = name)
  \/ (~ In name signer_digests /\ r = (Raise KeyError, w)).
Proof.
  intros r. subst r. unfold Signer.__init__, signer_digests.
  destruct (String.eqb_spec name "sha1") as [->|H1].
  { left. split; [simpl; tauto|]. destruct attrs; eexists; by repeat split. }
  destruct (String.eqb_spec name "sha256") as [->|H2].
  { left. split; [simpl; tauto|]. destruct attrs; eexists; by repeat split. }
  destruct (String.eqb_spec name "sha512") as [->|H3].
  { left. split; [simpl; tauto|]. destruct attrs; eexists; by repeat split. }
  right. split; [|reflexivity]. intros [|[|[|[]]]]; done.
Qed.

(** X7. A signer made without a list of its own gets a new, empty list:
    one at a location the heap did not hold, so no list that exists is
    shared or changed, and the random source is not read. *)
Theorem signer_init_fresh_list (cert : Certificate) (key : RSAPrivateKey)
    (name : string) (w : World) :
  In name signer_digests ->
  exists s w',
    Signer.__init__ cert key name None w = (Ok s, w')
    /\ heap w !! Signer.signed_attributes s = None
    /\ heap w' = <[Signer.signed_attributes s := []]> (heap w)
    /\ (forall l, is_Some (heap w !! l) -> heap w' !! l = heap w !! l)
    /\ rng w' = rng w.
Proof.
  intros Hin.
  assert (Hfresh : heap w !! fresh (dom (heap w)) = None).
  { apply not_elem_of_dom, is_fresh. }
  assert (Hid : exists d,
    (if String.eqb name "sha1" then ret sha1
     else if String.eqb name "sha256" then ret sha256
     else if String.eqb name "sha512" then ret sha512
     else raise KeyError) = ret d).
  { destruct Hin as [<-|[<-|[<-|[]]]]; eexists; reflexivity. }
  destruct Hid as [d Hid].
  eexists _, _. split.
  { unfold Signer.__init__. rewrite Hid. reflexivity. }
  cbn [Signer.signed_attributes heap rng].
  split; [done|]. split; [done|]. split; [|done].
  intros l [x Hl]. rewrite lookup_insert_ne; [done|]. intros <-. congruence.
Qed.

Lemma init_signers_attached (w : World) :
  exists b w', PKIMessageBuilder.__init__ w = (Ok b, w') /\ signers_attached b.
Proof. eexists _, _. split; [reflexivity|]. constructor. Qed.

(** X8. The builder keeps every signer's certificate among its
    certificates: [add_signer] adds the signer last and its certificate
    last, and [add_signer], [certificates] and [pki_envelope] keep the
    property for the signers added before. *)
Theorem add_signer_attaches_certificate (b : PKIMessageBuilder.t) (s : Signer.t)
    (cs : list Certificate) (e : EnvelopedData) :
  signers_attached b ->
  PKIMessageBuilder._signers (PKIMessageBuilder.add_signer b s)
  = PKIMessageBuilder._signers b ++ [s]
  /\ PKIMessageBuilder._certificates (PKIMessageBuilder.add_signer b s)
     = PKIMessageBuilder._certificates b ++ [certificate (Signer.certificate s)]
  /\ signers_attached (PKIMessageBuilder.add_signer b s)
  /\ signers_attached (PKIMessageBuilder.certificates b cs)
  /\ signers_attached (PKIMessageBuilder.pki_envelope b e).
Proof.
  unfold signers_attached. intros Hb.
  split; [done|]. split; [done|].
  split; [|split].
  - cbn [PKIMessageBuilder.add_signer PKIMessageBuilder._signers
         PKIMessageBuilder._certificates].
    apply Forall_app. split.
    + eapply Forall_impl; [exact Hb|]. intros s' Hs'. set_solver.
    + constructor; [set_solver|constructor].
  - cbn [PKIMessageBuilder.certificates PKIMessageBuilder._signers
         PKIMessageBuilder._certificates].
    eapply Forall_impl; [exact Hb|]. intros s' Hs'. set_solver.
  - exact Hb.
Qed.

Lemma prefix_of_snoc {A} (l : list A) (x : A) : l `prefix_of` l ++ [x].
Proof. by exists [x]. Qed.

Lemma list_append_appends_only (l : loc) (a : CMSAttribute) :
  appends_only l (list_append l a).
Proof.
  intros w. simpl. rewrite list_at_insert. split; [apply prefix_of_snoc|].
  intros l' Hne. by rewrite lookup_insert_ne.
Qed.

Lemma appends_only_ret {A} (l : loc) (a : A) : appends_only l (ret a).
Proof. intros w. by split. Qed.

Lemma appends_only_raise {A} (l : loc) (e : PyError) : appends_only l (@raise A e).
Proof. intros w. by split. Qed.

Lemma appends_only_urandom (l : loc) (n : nat) : appends_only l (os_urandom n).
Proof. intros w. by split. Qed.

Lemma appends_only_bind {A B} (l : loc) (m : M A) (k : A -> M B) :
  appends_only l m -> (forall a, appends_only l (k a)) -> appends_only l (bind m k).
Proof.
  intros Hm Hk w. unfold bind. destruct (Hm w) as [Hp Ho].
  destruct (m w) as [[a|e] w1]; simpl in *; [|done].
  destruct (Hk a w1) as [Hp' Ho']. split.
  - by etrans.
  - intros l' Hne. rewrite Ho' by done. by apply Ho.
Qed.

(** X9. The five setters only append: each leaves the attributes the
    builder's list held in place, in their order, in front of what it adds,
    and changes no other list, also when [pki_status] raises. Setting an
    attribute again therefore replaces nothing. *)
Theorem setters_only_append (self : PKIMessageBuilder.t) (mt : MessageType)
    (st : PKIStatus) (fi : option FailInfo) (nonce : option bytes)
    (rnonce : bytes) (tid : option string) :
  let l := PKIMessageBuilder._cms_attributes self in
  appends_only l (PKIMessageBuilder.message_type self mt)
  /\ appends_only l (PKIMessageBuilder.pki_status self st fi)
  /\ appends_only l (PKIMessageBuilder.sender_nonce self nonce)
  /\ appends_only l (PKIMessageBuilder.recipient_nonce self rnonce)
  /\ appends_only l (PKIMessageBuilder.transaction_id self tid).
Proof.
  intros l. subst l.
  unfold PKIMessageBuilder.message_type, PKIMessageBuilder.pki_status,
    PKIMessageBuilder.sender_nonce, PKIMessageBuilder.recipient_nonce,
    PKIMessageBuilder.transaction_id, uuid4.
  repeat split;
    repeat first
      [ apply appends_only_ret | apply appends_only_raise
      | apply appends_only_urandom | apply list_append_appends_only
      | apply appends_only_bind; [|intros ?]
      | case_match ].
Qed.

Section FinalizeFurther.
Context `{Crypto} `{Codec}.

Lemma signer_infos_of_length (signers : list Signer.t) (d : bytes)
    (attrs : list CMSAttribute) :
  length (signer_infos_of signers d attrs) = length signers.
Proof.
  revert attrs. induction signers as [|s rest IH]; intros attrs; [done|].
  simpl. by rewrite IH.
Qed.

Lemma signer_infos_of_sids (signers : list Signer.t) (d : bytes)
    (attrs : list CMSAttribute) :
  si_sid <$> signer_infos_of signers d attrs = Signer.sid <$> signers.
Proof.
  revert attrs. induction signers as [|s rest IH]; intros attrs; [done|].
  simpl. by rewrite IH.
Qed.


(** X11. For a builder that holds a certificate and no signer [finalize]
    changes nothing: builder and world are left as they were, the
    [SignedData] has no [SignerInfo], and a second [finalize] returns the
    same message. *)
Theorem finalize_without_signers (self : PKIMessageBuilder.t) (w : World) :
  PKIMessageBuilder._signers self = [] ->
  PKIMessageBuilder._certificates self <> [] ->
  exists ci sd,
    PKIMessageBuilder.finalize self w = (Ok (ci, self), w)
    /\ ci_content ci = SignedDataContent sd
    /\ sd_signer_infos sd = []
    /\ sd_certificates sd = PKIMessageBuilder._certificates self
    /\ (let* (_, self') := PKIMessageBuilder.finalize self in
        PKIMessageBuilder.finalize self') w = (Ok (ci, self), w).
Proof.
  intros Hs _.
  set (sd := mkSignedData 1 ["sha1"%string]
               (mkEncap "data"
                  (Some (dump_content_info
                           (PKIMessageBuilder.pkienvelope_content_info self))))
               (PKIMessageBuilder._certificates self) []).
  assert (Hf : forall w0,
    PKIMessageBuilder.finalize self w0
    = (Ok (mkContentInfo "signed_data" (SignedDataContent sd), self), w0)).
  { intros w0. rewrite finalize_spec, Hs. cbn [length heap_after map].
    destruct self as [sg l0 cs e]. destruct w0 as [h g]. simpl in *. by subst sg. }
  exists (mkContentInfo "signed_data" (SignedDataContent sd)), sd.
  split; [apply Hf|]. split; [done|]. split; [done|]. split; [done|].
  erewrite bind_ok by apply Hf. apply Hf.
Qed.

(** X12. When the builder holds a certificate and every signer's is among
    its certificates, so it is in the message: each [SignerInfo] names its
    signer by the issuer and the serial number of a certificate that the
    [SignedData] carries, and the builder [finalize] leaves still has the
    property. *)
Theorem finalize_attaches_signer_certificates (self : PKIMessageBuilder.t)
    (w : World) :
  PKIMessageBuilder._certificates self <> [] ->
  signers_attached self ->
  exists sd self' w',
    PKIMessageBuilder.finalize self w
    = (Ok (mkContentInfo "signed_data" (SignedDataContent sd), self'), w')
    /\ signers_attached self'
    /\ Forall (fun si => exists c,
                 certificate c ∈ sd_certificates sd
                 /\ si_sid si = issuer_and_serial_number
                                  (mkIAS (issuer c) (serial_number c)))
              (sd_signer_infos sd).
Proof.
  unfold signers_attached. intros _ Ha.
  eexists _, _, _. split; [apply finalize_spec|].
  cbn [PKIMessageBuilder._signers PKIMessageBuilder._certificates
       sd_certificates sd_signer_infos].
  split.
  - apply Forall_fmap. eapply Forall_impl; [exact Ha|]. by intros s Hs.
  - apply Forall_forall. intros si Hsi.
    assert (Hsid : si_sid si ∈ si_sid <$> signer_infos_of
                     (PKIMessageBuilder._signers self)
                     (digest SHA1 (dump_content_info
                        (PKIMessageBuilder.pkienvelope_content_info self)))
                     (list_at (PKIMessageBuilder._cms_attributes self) (heap w)))
      by (by apply list_elem_of_fmap_2).
    rewrite signer_infos_of_sids in Hsid.
    apply list_elem_of_fmap in Hsid as (s & -> & Hs).
    rewrite Forall_forall in Ha. exists (Signer.certificate s).
    split; [by apply Ha|done].
Qed.

End FinalizeFurther.

(** ** Further properties of the parser *)

(** X13. [certificates_from_asn1] returns the certificates of the set, in
    order, when every member is an X.509 certificate, so it undoes the
    wrapping the builder applies; otherwise it raises [AssertionError]. The
    world is left as it is. *)
Theorem certificates_from_asn1_spec (cert_set : list CertificateChoices) (w : World) :
  (exists cs, cert_set = certificate <$> cs
              /\ certificates_from_asn1 cert_set w = (Ok cs, w))
  \/ (Exists (fun c => exists der, c = other_certificate_format der) cert_set
      /\ certificates_from_asn1 cert_set w = (Raise AssertionError, w)).
Proof.
  unfold certificates_from_asn1.
  induction cert_set as [|c rest IH].
  - left. by exists [].
  - destruct c as [c|der].
    + destruct IH as [(cs & -> & Hm)|(Hex & Hm)].
      * left. exists (c :: cs). split; [done|].
        cbn [mapM]. rewrite bind_ret. erewrite bind_ok by exact Hm. done.
      * right. split; [by constructor 2|].
        cbn [mapM]. rewrite bind_ret. by erewrite bind_raise by exact Hm.
    + right. split; [constructor; by eexists|]. reflexivity.
Qed.

Lemma set_attribute_keeps (msg msg' : SCEPMessage.t) (a : CMSAttribute)
    (w w' : World) :
  SCEPMessage.set_attribute msg a w = (Ok msg', w') ->
  w' = w
  /\ SCEPMessage._signer_info msg' = SCEPMessage._signer_info msg
  /\ SCEPMessage._certificates msg' = SCEPMessage._certificates msg
  /\ SCEPMessage._signed_data msg' = SCEPMessage._signed_data msg
  /\ SCEPMessage._content_info msg' = SCEPMessage._content_info msg.
Proof.
  unfold SCEPMessage.set_attribute. run.
  repeat case_match; intros; simplify_eq; done.
Qed.

Lemma set_attributes_keeps (attrs : list CMSAttribute) (msg msg' : SCEPMessage.t)
    (w w' : World) :
  SCEPMessage.set_attributes msg attrs w = (Ok msg', w') ->
  w' = w
  /\ SCEPMessage._signer_info msg' = SCEPMessage._signer_info msg
  /\ SCEPMessage._certificates msg' = SCEPMessage._certificates msg
  /\ SCEPMessage._signed_data msg' = SCEPMessage._signed_data msg
  /\ SCEPMessage._content_info msg' = SCEPMessage._content_info msg.
Proof.
  revert msg w. induction attrs as [|a rest IH]; intros msg w; simpl.
  - unfold ret. by intros [= <- <-].
  - unfold bind.
    destruct (SCEPMessage.set_attribute msg a w) as [[m1|e] w1] eqn:Ha; [|done].
    intros Hr. apply set_attribute_keeps in Ha as (-> & A1 & A2 & A3 & A4).
    apply IH in Hr as (-> & B1 & B2 & B3 & B4).
    by rewrite B1, B2, B3, B4.
Qed.

Lemma set_attribute_readable (msg : SCEPMessage.t) (a : CMSAttribute) (w : World) :
  readable a = true ->
  exists msg',
    SCEPMessage.set_attribute msg a w = (Ok msg', w)
    /\ SCEPMessage._transaction_id msg'
       = read_field "transaction_id" [a] (SCEPMessage._transaction_id msg)
    /\ SCEPMessage._sender_nonce msg'
       = read_field "sender_nonce" [a] (SCEPMessage._sender_nonce msg)
    /\ SCEPMessage._recipient_nonce msg'
       = read_field "recipient_nonce" [a] (SCEPMessage._recipient_nonce msg)
    /\ SCEPMessage._pki_status msg'
       = read_field "pki_status" [a] (SCEPMessage._pki_status msg)
    /\ SCEPMessage._fail_info msg'
       = read_field "fail_info" [a] (SCEPMessage._fail_info msg)
    /\ SCEPMessage._message_type msg'
       = read_message_type [a] (SCEPMessage._message_type msg).
Proof.
  unfold readable, SCEPMessage.set_attribute, read_field, read_message_type,
    scep_attribute_names.
  destruct a as [n vs]. cbn [attr_type attr_values attr_value_of existsb].
  intros Hr. run.
  destruct (String.eqb_spec n "transaction_id") as [->|H1].
  { destruct vs as [|v vs]; [done|]. eexists. split; [reflexivity|]. done. }
  destruct (String.eqb_spec n "message_type") as [->|H2].
  { destruct vs as [|v vs]; [done|]. simpl in *.
    destruct v as [c|b|s]; try done.
    destruct (MessageType_of_value s) as [m|e]; [|done].
    eexists. split; [reflexivity|]. done. }
  destruct (String.eqb_spec n "sender_nonce") as [->|H3].
  { destruct vs as [|v vs]; [done|]. eexists. split; [reflexivity|]. done. }
  destruct (String.eqb_spec n "recipient_nonce") as [->|H4].
  { destruct vs as [|v vs]; [done|]. eexists. split; [reflexivity|]. done. }
  destruct (String.eqb_spec n "pki_status") as [->|H5].
  { destruct vs as [|v vs]; [done|]. eexists. split; [reflexivity|]. done. }
  destruct (String.eqb_spec n "fail_info") as [->|H6].
  { destruct vs as [|v vs]; [done|]. eexists. split; [reflexivity|]. done. }
  simpl. eexists. split; [reflexivity|]. done.
Qed.

Lemma read_field_cons (name : string) (a : CMSAttribute) (rest : list CMSAttribute)
    (old : option AttrValue) :
  read_field name (a :: rest) old = read_field name rest (read_field name [a] old).
Proof.
  unfold read_field. cbn [attr_value_of].
  destruct (attr_value_of name rest); [done|].
  by destruct (if String.eqb (attr_type a) name then head (attr_values a) else None).
Qed.

Lemma readable_message_type (attrs : list CMSAttribute) :
  forallb readable attrs = true ->
  attr_value_of "message_type" attrs = None
  \/ exists s m, attr_value_of "message_type" attrs = Some (PrintableString s)
                 /\ MessageType_of_value s = Ok m.
Proof.
  induction attrs as [|a rest IH]; [by left|].
  cbn [forallb attr_value_of]. intros [Ha Hrest]%andb_true_iff.
  destruct (IH Hrest) as [->|(s & m & -> & Hm)]; [|right; by eexists _, _].
  destruct (String.eqb_spec (attr_type a) "message_type") as [Hn|Hn]; [|by left].
  revert Ha. unfold readable, scep_attribute_names. rewrite Hn. simpl.
  destruct (attr_values a) as [|v vs]; [done|]. simpl.
  destruct v as [c|b|s]; try done.
  destruct (MessageType_of_value s) as [m|e] eqn:Hm; [|done].
  intros _. right. by eexists _, _.
Qed.

Lemma read_message_type_cons (a : CMSAttribute) (rest : list CMSAttribute)
    (old : MessageType) :
  forallb readable rest = true ->
  read_message_type (a :: rest) old
  = read_message_type rest (read_message_type [a] old).
Proof.
  intros Hrest. unfold read_message_type. cbn [attr_value_of].
  destruct (readable_message_type rest Hrest) as [->|(s & m & -> & ->)]; done.
Qed.

Lemma set_attributes_fields (attrs : list CMSAttribute) (msg : SCEPMessage.t)
    (w : World) :
  forallb readable attrs = true ->
  exists msg',
    SCEPMessage.set_attributes msg attrs w = (Ok msg', w)
    /\ SCEPMessage._transaction_id msg'
       = read_field "transaction_id" attrs (SCEPMessage._transaction_id msg)
    /\ SCEPMessage._sender_nonce msg'
       = read_field "sender_nonce" attrs (SCEPMessage._sender_nonce msg)
    /\ SCEPMessage._recipient_nonce msg'
       = read_field "recipient_nonce" attrs (SCEPMessage._recipient_nonce msg)
    /\ SCEPMessage._pki_status msg'
       = read_field "pki_status" attrs (SCEPMessage._pki_status msg)
    /\ SCEPMessage._fail_info msg'
       = read_field "fail_info" attrs (SCEPMessage._fail_info msg)
    /\ SCEPMessage._message_type msg'
       = read_message_type attrs (SCEPMessage._message_type msg).
Proof.
  revert msg. induction attrs as [|a rest IH]; intros msg Hr.
  - exists msg. by repeat split.
  - cbn [forallb] in Hr. apply andb_true_iff in Hr as [Ha Hrest].
    destruct (set_attribute_readable msg a w Ha)
      as (m1 & Hs & H1 & H2 & H3 & H4 & H5 & H6).
    destruct (IH m1 Hrest) as (m2 & Hs2 & G1 & G2 & G3 & G4 & G5 & G6).
    exists m2. split.
    { cbn [SCEPMessage.set_attributes]. by erewrite bind_ok by exact Hs. }
    rewrite !(read_field_cons _ a rest), (read_message_type_cons a rest) by done.
    rewrite <- H1, <- H2, <- H3, <- H4, <- H5, <- H6. done.
Qed.

Lemma set_attributes_ok_iff (attrs : list CMSAttribute)
    (msg : SCEPMessage.t) (w : World) :
  is_ok (fst (SCEPMessage.set_attributes msg attrs w)) = forallb readable attrs.
Proof.
  revert msg. induction attrs as [|a rest IH]; intros msg; [done|].
  cbn [forallb SCEPMessage.set_attributes].
  destruct (readable a) eqn:Ha.
  - destruct (set_attribute_readable msg a w Ha) as (m1 & Hs & _).
    erewrite bind_ok by exact Hs. apply IH.
  - unfold bind.
    destruct (SCEPMessage.set_attribute msg a w) as [[m1|e] w1] eqn:Hs; [|done].
    exfalso. revert Ha Hs.
    unfold readable, SCEPMessage.set_attribute, scep_attribute_names.
    destruct a as [n vs]. cbn [attr_type attr_values existsb]. run.
    repeat case_match; intros; simplify_eq; try done.
    all: simpl in *; try done.
    all: repeat match goal with
                | H : String.eqb _ _ = true |- _ => apply String.eqb_eq in H
                end; subst; done.
Qed.

(** X14. Reading the signed attributes. [set_attributes] returns exactly
    when every attribute is readable: an attribute of one of the six SCEP
    types without a value, or a [message_type] that names no member, makes
    it raise. When it returns, the world is as it was, and each of the
    fields [transaction_id], [sender_nonce], [recipient_nonce],
    [pki_status] and [fail_info] holds the first value of the last
    attribute of its type, or what it held when there is none, and
    [message_type] the member named by the last [message_type] attribute:
    of two attributes of one type the later one is read, and attributes of
    other types are passed over. *)
Theorem set_attributes_spec (attrs : list CMSAttribute) (msg : SCEPMessage.t)
    (w : World) :
  is_ok (fst (SCEPMessage.set_attributes msg attrs w)) = forallb readable attrs
  /\ (forallb readable attrs = true ->
      exists msg',
        SCEPMessage.set_attributes msg attrs w = (Ok msg', w)
        /\ SCEPMessage._transaction_id msg'
           = read_field "transaction_id" attrs (SCEPMessage._transaction_id msg)
        /\ SCEPMessage._sender_nonce msg'
           = read_field "sender_nonce" attrs (SCEPMessage._sender_nonce msg)
        /\ SCEPMessage._recipient_nonce msg'
           = read_field "recipient_nonce" attrs (SCEPMessage._recipient_nonce msg)
        /\ SCEPMessage._pki_status msg'
           = read_field "pki_status" attrs (SCEPMessage._pki_status msg)
        /\ SCEPMessage._fail_info msg'
           = read_field "fail_info" attrs (SCEPMessage._fail_info msg)
        /\ SCEPMessage._message_type msg'
           = read_message_type attrs (SCEPMessage._message_type msg)).
Proof.
  split; [apply set_attributes_ok_iff|apply set_attributes_fields].
Qed.

Section ParseFurther.
Context `{Crypto} `{Codec}.

Lemma certificates_from_asn1_ok (cert_set : list CertificateChoices)
    (cs : list Certificate) (w w' : World) :
  certificates_from_asn1 cert_set w = (Ok cs, w') ->
  w' = w /\ cert_set = certificate <$> cs.
Proof.
  unfold certificates_from_asn1. revert cs.
  induction cert_set as [|c rest IH]; intros cs; simpl.
  - unfold ret. by intros [= <- <-].
  - destruct c as [c|der]; [|done]. rewrite bind_ret. unfold bind.
    destruct (mapM _ rest w) as [[cs'|e] w1] eqn:Hm; [|done].
    unfold ret. intros [= <- <-]. destruct (IH cs' eq_refl) as [-> ->]. done.
Qed.

Lemma parse_signer_result (sd : SignedData) (certs : option (list Certificate))
    (msg msg' : SCEPMessage.t) (si : SignerInfo) (w w' : World) :
  SCEPMessage.parse_signer sd certs msg si w = (Ok msg', w') ->
  w' = w
  /\ SCEPMessage._signer_info msg' = Some si
  /\ SCEPMessage._certificates msg' = SCEPMessage._certificates msg
  /\ SCEPMessage._signed_data msg' = SCEPMessage._signed_data msg
  /\ (exists ias, si_sid si = issuer_and_serial_number ias).
Proof.
  unfold SCEPMessage.parse_signer, SCEPMessage.verify_content. run.
  repeat case_match; try done.
  all: unfold ret, raise in *; simplify_eq.
  all: intros Hs; try apply set_attributes_keeps in Hs as (-> & -> & -> & -> & _);
    simplify_eq; repeat split; by eexists.
Qed.

Lemma parse_signers_result (sd : SignedData) (certs : option (list Certificate))
    (infos : list SignerInfo) (msg msg' : SCEPMessage.t) (w w' : World) :
  SCEPMessage.parse_signers sd certs msg infos w = (Ok msg', w') ->
  w' = w
  /\ SCEPMessage._signer_info msg'
     = match last infos with
       | Some si => Some si
       | None => SCEPMessage._signer_info msg
       end
  /\ SCEPMessage._certificates msg' = SCEPMessage._certificates msg
  /\ SCEPMessage._signed_data msg' = SCEPMessage._signed_data msg
  /\ Forall (fun si => exists ias, si_sid si = issuer_and_serial_number ias) infos.
Proof.
  revert msg w. induction infos as [|si rest IH]; intros msg w; simpl.
  - unfold ret. intros [= <- <-]. by repeat split.
  - unfold bind.
    destruct (SCEPMessage.parse_signer sd certs msg si w) as [[m1|e] w1] eqn:Hs;
      [|done].
    intros Hr. apply parse_signer_result in Hs as (-> & S1 & S2 & S3 & S4).
    apply IH in Hr as (-> & R1 & R2 & R3 & R4).
    split; [done|]. split.
    { rewrite R1, S1. destruct rest as [|si' rest']; [done|].
      change (last (si :: si' :: rest')) with (last (si' :: rest')).
      destruct (last (si' :: rest')) eqn:El; [done|]. by apply last_None in El. }
    split; [congruence|]. split; [congruence|]. by constructor.
Qed.

(** X15. What a successful [parse] returns. The bytes decode to a
    [signed_data] ContentInfo whose certificates are all X.509 and whose
    signers are all named by issuer and serial number; the message holds
    these certificates in order, the encapsulated content, and, of the
    signer infos, the last one only. The world is left as it is. *)
Theorem parse_result (raw : bytes) (msg : SCEPMessage.t) (w w' : World) :
  SCEPMessage.parse raw w = (Ok msg, w') ->
  w' = w
  /\ exists sd cs,
       load_content_info raw = Ok (mkContentInfo "signed_data" (SignedDataContent sd))
       /\ sd_certificates sd = certificate <$> cs
       /\ SCEPMessage._certificates msg = cs
       /\ SCEPMessage._signer_info msg = last (sd_signer_infos sd)
       /\ SCEPMessage._signed_data msg
          = Some (encap_content (sd_encap_content_info sd))
       /\ Forall (fun si => exists ias, si_sid si = issuer_and_serial_number ias)
                 (sd_signer_infos sd).
Proof.
  unfold SCEPMessage.parse, SCEPMessage.parse_content_info, lift.
  unfold bind at 1. destruct (load_content_info raw) as [[t c]|e]; [|done].
  cbn [ci_content_type ci_content]. unfold bind at 1, assert.
  destruct (String.eqb_spec t "signed_data") as [->|Ht]; [|done]. cbn [ret].
  destruct c as [|sd|ed|b]; try done. rewrite bind_ret.
  destruct (sd_certificates sd) as [|c0 cs0] eqn:Hc.
  - rewrite bind_ret. unfold bind.
    destruct (SCEPMessage.parse_signers sd None _ _ w) as [[m|e] w1] eqn:Hp; [|done].
    unfold ret. intros [= <- <-].
    apply parse_signers_result in Hp as (-> & P1 & P2 & P3 & P4).
    split; [done|]. exists sd, []. rewrite Hc. repeat split; try done.
    simpl. rewrite P1. by destruct (last (sd_signer_infos sd)).
  - rewrite bind_assoc. unfold bind at 1.
    destruct (certificates_from_asn1 (c0 :: cs0) w) as [[cs|e] w0] eqn:Hcs; [|done].
    apply certificates_from_asn1_ok in Hcs as [-> Hcs].
    rewrite bind_ret. unfold bind.
    destruct (SCEPMessage.parse_signers sd (Some cs) _ _ w) as [[m|e] w1] eqn:Hp;
      [|done].
    unfold ret. intros [= <- <-].
    apply parse_signers_result in Hp as (-> & P1 & P2 & P3 & P4).
    split; [done|]. exists sd, cs. rewrite Hc. repeat split; try done.
    simpl. rewrite P1. by destruct (last (sd_signer_infos sd)).
Qed.

End ParseFurther.

Lemma certificates_from_asn1_fmap (cs : list Certificate) (w : World) :
  certificates_from_asn1 (certificate <$> cs) w = (Ok cs, w).
Proof.
  unfold certificates_from_asn1. induction cs as [|c cs IH]; [done|].
  cbn [fmap list_fmap mapM]. rewrite bind_ret.
  erewrite bind_ok by exact IH. done.
Qed.

(** *** Reading attributes in another order *)

Lemma attr_value_of_values (name : string) (attrs : list CMSAttribute) :
  match attr_value_of name attrs with
  | Some v => v ∈ values_of name attrs
  | None => values_of name attrs = []
  end.
Proof.
  unfold values_of. induction attrs as [|a rest IH]; [done|].
  cbn [attr_value_of omap list_omap].
  change (list_omap ?f ?l) with (omap f l).
  destruct (attr_value_of name rest) as [v|].
  - destruct (if String.eqb (attr_type a) name then head (attr_values a) else None);
      set_solver.
  - rewrite IH.
    destruct (if String.eqb (attr_type a) name then head (attr_values a) else None);
      set_solver.
Qed.

Lemma read_field_one_of (name : string) (attrs : list CMSAttribute)
    (vs : list AttrValue) (old : option AttrValue) :
  values_of name attrs ≡ₚ vs ->
  (vs = [] -> old = None) ->
  one_of vs (read_field name attrs old).
Proof.
  intros Hp Hold. unfold read_field.
  pose proof (attr_value_of_values name attrs) as Hv.
  destruct (attr_value_of name attrs) as [v|]; simpl.
  - by rewrite <- Hp.
  - rewrite Hv in Hp. symmetry in Hp. apply Permutation_nil_r in Hp.
    rewrite (Hold Hp). exact Hp.
Qed.

Lemma read_message_type_one_of (attrs : list CMSAttribute) (vs : list AttrValue)
    (old : MessageType) :
  forallb readable attrs = true ->
  values_of "message_type" attrs ≡ₚ vs ->
  (vs = [] -> old = CertRep) ->
  one_of_message_type vs (read_message_type attrs old).
Proof.
  intros Hr Hp Hold. unfold read_message_type.
  pose proof (attr_value_of_values "message_type" attrs) as Hv.
  destruct (readable_message_type attrs Hr) as [Hn|(s & m & Hs & Hm)].
  - rewrite Hn in *. rewrite Hv in Hp. symmetry in Hp.
    apply Permutation_nil_r in Hp. left. split; [done|by apply Hold].
  - rewrite Hs in *. rewrite Hm. right. exists s. split; [by rewrite <- Hp|done].
Qed.

Lemma one_of_unset (vs : list AttrValue) (field : option AttrValue) :
  one_of vs field -> vs = [] -> field = None.
Proof. destruct field as [v|]; [|done]. simpl. intros Hv ->. set_solver. Qed.

Lemma one_of_message_type_unset (vs : list AttrValue) (m : MessageType) :
  one_of_message_type vs m -> vs = [] -> m = CertRep.
Proof. intros [[_ ->]|(s & Hs & _)]; [done|]. intros ->. set_solver. Qed.

Lemma reads_unset (attrs : list CMSAttribute) (msg : SCEPMessage.t) :
  reads attrs msg -> unset_without_attribute attrs msg.
Proof.
  intros (H1 & H2 & H3 & H4 & H5 & H6).
  repeat split; first [by apply one_of_unset | by apply one_of_message_type_unset].
Qed.

Lemma values_of_attrs_after (name : string) (n : nat) (d : bytes)
    (attrs : list CMSAttribute) :
  In name scep_attribute_names ->
  values_of name (attrs_after n d attrs) = values_of name attrs.
Proof.
  intros Hn. induction n as [|n IH]; [done|]. rewrite attrs_after_S.
  unfold values_of in *. cbn [omap list_omap Signer.content_type_attr
    Signer.message_digest_attr attr_type].
  change (list_omap ?f ?l) with (omap f l). rewrite IH.
  unfold scep_attribute_names in Hn.
  destruct Hn as [<-|[<-|[<-|[<-|[<-|[<-|[]]]]]]]; reflexivity.
Qed.

Lemma readable_attrs_after (n : nat) (d : bytes) (attrs : list CMSAttribute) :
  forallb readable attrs = true -> forallb readable (attrs_after n d attrs) = true.
Proof.
  intros Hr. induction n as [|n IH]; [done|]. rewrite attrs_after_S.
  cbn [forallb]. by rewrite IH.
Qed.

Lemma readable_Permutation (a b : list CMSAttribute) :
  a ≡ₚ b -> forallb readable b = true -> forallb readable a = true.
Proof.
  intros Hp Hb. apply forallb_forall. intros x Hx.
  eapply forallb_forall in Hb; [exact Hb|].
  apply list_elem_of_In. rewrite <- Hp. by apply list_elem_of_In.
Qed.

(** Attributes with one value each have one encoding order only: a list
    that agrees with them member by member up to the order of the values
    is the same list. *)
Lemma same_attribute_single (a b : CMSAttribute) :
  single_valued a -> same_attribute a b -> b = a.
Proof.
  unfold single_valued, same_attribute. destruct a as [n vs], b as [n' vs'].
  simpl. intros Hl [-> Hp]. f_equal.
  destruct vs as [|v [|v' vs]]; simpl in Hl; [| |lia].
  - by apply Permutation_nil in Hp.
  - by apply Permutation_length_1_inv in Hp.
Qed.

Lemma set_of_single_valued (x y : list CMSAttribute) :
  Forall single_valued x -> set_of same_attribute x y -> y ≡ₚ x.
Proof.
  intros Hx (l & Hp & Hl). rewrite Hp. clear Hp.
  induction Hl as [|a b x l Hab _ IH]; [done|].
  apply Forall_cons_1 in Hx as [Ha Hx].
  rewrite (same_attribute_single a b Ha Hab). f_equiv. by apply IH.
Qed.

Lemma single_valued_attrs_after (n : nat) (d : bytes) (attrs : list CMSAttribute) :
  Forall single_valued attrs -> Forall single_valued (attrs_after n d attrs).
Proof.
  intros Ha. induction n as [|n IH]; [done|]. rewrite attrs_after_S.
  repeat constructor; [..|exact IH]; unfold single_valued; simpl; lia.
Qed.

Lemma Forall2_elem_of_r {A B} (R : A -> B -> Prop) (x : list A) (y : list B) (b : B) :
  Forall2 R x y -> b ∈ y -> exists a, a ∈ x /\ R a b.
Proof.
  intros Hxy. induction Hxy as [|a b' x y Hab _ IH].
  { intros Hb. by apply elem_of_nil in Hb. }
  intros [->|Hb]%elem_of_cons.
  - exists a. split; [apply list_elem_of_here|done].
  - destruct (IH Hb) as (a' & Ha' & Hr). exists a'.
    split; [by apply list_elem_of_further|done].
Qed.

Section RoundTrip.
Context `{Crypto} `{Codec}.

Lemma signer_infos_of_elem_of (signers : list Signer.t) (d : bytes)
    (attrs : list CMSAttribute) (si : SignerInfo) :
  si ∈ signer_infos_of signers d attrs ->
  exists i s, signers !! i = Some s
              /\ si = signer_info_of s (attrs_after (S i) d attrs).
Proof.
  intros (i & Hi)%list_elem_of_lookup_1.
  assert (Hlt : i < length signers).
  { rewrite <- (signer_infos_of_length signers d attrs). by eapply lookup_lt_Some. }
  destruct (lookup_lt_is_Some_2 _ _ Hlt) as [s Hs].
  rewrite (signer_infos_of_lookup _ _ _ _ _ Hs) in Hi. injection Hi as <-.
  by exists i, s.
Qed.

(** What a codec that keeps sets up to their order decodes the builder's
    signer infos to. *)
Lemma decoded_signed_by (signers : list Signer.t) (d : bytes)
    (attrs0 : list CMSAttribute) (infos' : list SignerInfo) (si' : SignerInfo) :
  Forall single_valued attrs0 ->
  set_of same_signer_info (signer_infos_of signers d attrs0) infos' ->
  si' ∈ infos' ->
  signed_by signers d attrs0 si'
  /\ exists si, si ∈ signer_infos_of signers d attrs0 /\ same_signer_info si si'.
Proof.
  intros Hsv (l & Hp & Hl) Hin. rewrite Hp in Hin.
  destruct (Forall2_elem_of_r _ _ _ _ Hl Hin) as (si & Hsi & Hsame).
  split; [|by exists si].
  destruct (signer_infos_of_elem_of _ _ _ _ Hsi) as (i & s & Hs & ->).
  destruct Hsame as (_ & Hsid & Hdig & Halg & _ & Hattrs).
  cbn [signer_info_of si_sid si_digest_algorithm si_signature_algorithm
       si_signed_attrs] in *.
  destruct (si_signed_attrs si') as [attrs'|] eqn:Ha; [|done].
  exists s, i, attrs'. split; [by eapply list_elem_of_lookup_2|].
  repeat split; try done.
  apply set_of_single_valued; [|done]. by apply single_valued_attrs_after.
Qed.

(** A decoded signer info of the builder, met by [parse] with the
    signer's certificate among the attached ones: its attributes are
    read. *)
Lemma parse_signer_decoded (sd : SignedData) (cs : list Certificate)
    (msg : SCEPMessage.t) (s : Signer.t) (si' : SignerInfo)
    (attrs' : list CMSAttribute) (der : bytes) (w : World) :
  sd_encap_content_info sd = mkEncap "data" (Some der) ->
  Signer.certificate s ∈ cs ->
  si_sid si' = Signer.sid s ->
  si_digest_algorithm si' = Signer.digest_algorithm s ->
  si_signature_algorithm si' = "rsassa_pkcs1v15"%string ->
  si_signed_attrs si' = Some attrs' ->
  SCEPMessage.parse_signer sd (Some cs) msg si' w
  = SCEPMessage.set_attributes (SCEPMessage.set_signer_info msg si') attrs' w.
Proof.
  intros He Hc Hsid Hdig Halg Hat.
  assert (Hfind : exists c,
    find (fun c => (serial_number c =? serial_number (Signer.certificate s))%Z) cs
    = Some c).
  { destruct (find _ cs) as [c|] eqn:Hf; [by eexists|].
    apply list_elem_of_In in Hc.
    pose proof (find_none _ _ Hf _ Hc) as Hn. simpl in Hn.
    by rewrite Z.eqb_refl in Hn. }
  destruct Hfind as [c Hfind].
  destruct cs as [|c0 cs']; [by apply elem_of_nil in Hc|].
  unfold SCEPMessage.parse_signer, SCEPMessage.verify_content.
  rewrite Hsid, Hdig, Halg, Hat. unfold Signer.sid.
  rewrite bind_ret. cbn [ias_serial_number].
  rewrite Hfind, He. cbn [encap_content_type encap_content].
  unfold Signer.digest_algorithm.
  destruct (Signer.digest_algorithm_id s); reflexivity.
Qed.

Lemma parse_signer_reads (sd : SignedData) (cs : list Certificate)
    (signers : list Signer.t) (d der : bytes) (attrs0 : list CMSAttribute)
    (msg : SCEPMessage.t) (si' : SignerInfo) (w : World) :
  sd_encap_content_info sd = mkEncap "data" (Some der) ->
  Forall (fun s => Signer.certificate s ∈ cs) signers ->
  forallb readable attrs0 = true ->
  signed_by signers d attrs0 si' ->
  unset_without_attribute attrs0 msg ->
  exists msg',
    SCEPMessage.parse_signer sd (Some cs) msg si' w = (Ok msg', w)
    /\ reads attrs0 msg'.
Proof.
  intros He Hcs Hr (s & n & attrs' & Hs & Hsid & Hdig & Halg & Hat & Hp)
         (U1 & U2 & U3 & U4 & U5 & U6).
  rewrite Forall_forall in Hcs.
  assert (Hr' : forallb readable attrs' = true).
  { eapply readable_Permutation; [exact Hp|]. by apply readable_attrs_after. }
  assert (Hv : forall name, In name scep_attribute_names ->
                 values_of name attrs' ≡ₚ values_of name attrs0).
  { intros name Hn. rewrite <- (values_of_attrs_after name (S n) d attrs0 Hn).
    unfold values_of. by rewrite Hp. }
  destruct (set_attributes_fields attrs' (SCEPMessage.set_signer_info msg si') w Hr')
    as (m & Hm & F1 & F2 & F3 & F4 & F5 & F6).
  exists m. split.
  { erewrite parse_signer_decoded by (try done; by apply Hcs). exact Hm. }
  unfold reads, fields. rewrite F1, F2, F3, F4, F5, F6.
  cbn [SCEPMessage.set_signer_info SCEPMessage._transaction_id
       SCEPMessage._sender_nonce SCEPMessage._recipient_nonce
       SCEPMessage._pki_status SCEPMessage._fail_info SCEPMessage._message_type].
  unfold scep_attribute_names in Hv.
  repeat split;
    first [ apply read_field_one_of; [apply Hv; simpl; tauto|done]
          | apply read_message_type_one_of; [done|apply Hv; simpl; tauto|done] ].
Qed.

Lemma parse_signers_reads (sd : SignedData) (cs : list Certificate)
    (signers : list Signer.t) (d der : bytes) (attrs0 : list CMSAttribute)
    (infos' : list SignerInfo) (msg : SCEPMessage.t) (w : World) :
  sd_encap_content_info sd = mkEncap "data" (Some der) ->
  Forall (fun s => Signer.certificate s ∈ cs) signers ->
  forallb readable attrs0 = true ->
  Forall (signed_by signers d attrs0) infos' ->
  unset_without_attribute attrs0 msg ->
  exists msg',
    SCEPMessage.parse_signers sd (Some cs) msg infos' w = (Ok msg', w)
    /\ (infos' <> [] -> reads attrs0 msg').
Proof.
  intros He Hcs Hr Hinfos. revert msg.
  induction Hinfos as [|si' rest Hsi Hrest IH]; intros msg Hu.
  - exists msg. by split.
  - destruct (parse_signer_reads sd cs signers d der attrs0 msg si' w
                He Hcs Hr Hsi Hu) as (m1 & Hm1 & Hreads).
    destruct (IH m1 (reads_unset _ _ Hreads)) as (m2 & Hm2 & Hreads2).
    exists m2. split.
    + cbn [SCEPMessage.parse_signers]. by erewrite bind_ok by exact Hm1.
    + intros _. destruct rest as [|si2 rest'].
      * cbn [SCEPMessage.parse_signers] in Hm2. unfold ret in Hm2.
        by injection Hm2 as <-.
      * by apply Hreads2.
Qed.

(** X16. Parsing what the builder made. Take a builder with at least one
    signer, whose certificates are X.509 and include every signer's and
    whose attributes are readable and have one value each, and let [raw]
    decode to the message [finalize] returns up to the order of the
    members of its sets, which is what DER keeps of them. Then [parse raw]
    returns, with the world as it was: the message holds the builder's
    certificates in the decoded order, the DER of the [enveloped_data]
    ContentInfo as its content, the decoded [SignerInfo] of one of the
    signers, and in each attribute field the value of one of the
    attributes of that type the builder's list held, hence the value that
    was set when it was set once. *)
Theorem parse_of_finalize (self self' : PKIMessageBuilder.t) (w w' w0 : World)
    (ci ci' : ContentInfo) (raw : bytes) (cs : list Certificate) :
  let attrs0 := list_at (PKIMessageBuilder._cms_attributes self) (heap w) in
  let d := digest SHA1 (dump_content_info
                          (PKIMessageBuilder.pkienvelope_content_info self)) in
  PKIMessageBuilder.finalize self w = (Ok (ci, self'), w') ->
  load_content_info raw = Ok ci' ->
  same_sets ci ci' ->
  PKIMessageBuilder._signers self <> [] ->
  PKIMessageBuilder._certificates self = certificate <$> cs ->
  signers_attached self ->
  forallb readable attrs0 = true ->
  Forall single_valued attrs0 ->
  exists msg si',
    SCEPMessage.parse raw w0 = (Ok msg, w0)
    /\ SCEPMessage._certificates msg ≡ₚ cs
    /\ SCEPMessage._signed_data msg
       = Some (Some (dump_content_info
                       (PKIMessageBuilder.pkienvelope_content_info self)))
    /\ SCEPMessage._signer_info msg = Some si'
    /\ (exists si, si ∈ signer_infos_of (PKIMessageBuilder._signers self) d attrs0
                   /\ same_signer_info si si')
    /\ reads attrs0 msg.
Proof.
  intros attrs0 d Hf Hload Hsame Hne Hcs Ha Hr Hsv.
  rewrite finalize_spec in Hf. injection Hf as <- _ _.
  set (der := dump_content_info (PKIMessageBuilder.pkienvelope_content_info self)) in *.
  fold attrs0 in Hsame. fold d in Hsame.
  destruct ci' as [t' c']. destruct Hsame as [Ht Hc]. cbn in Ht, Hc. subst t'.
  destruct c' as [|sd'|ed'|b']; try done.
  destruct Hc as (_ & _ & He & Hcerts & Hinfos).
  cbn [sd_encap_content_info sd_certificates sd_signer_infos] in He, Hcerts, Hinfos.
  symmetry in He.
  (* the certificates *)
  rewrite Hcs in Hcerts. symmetry in Hcerts.
  apply Permutation_map_inv in Hcerts as (cs' & Hcs' & Hperm).
  assert (Hin : Forall (fun s => Signer.certificate s ∈ cs')
                       (PKIMessageBuilder._signers self)).
  { eapply Forall_impl; [exact Ha|]. intros s Hs. simpl in Hs. rewrite Hcs in Hs.
    apply list_elem_of_fmap in Hs as (c & [= ->] & Hc). by rewrite <- Hperm. }
  (* the signer infos *)
  assert (Hlen : sd_signer_infos sd' <> []).
  { apply set_of_length in Hinfos. rewrite signer_infos_of_length in Hinfos.
    intros Hnil. rewrite Hnil in Hinfos.
    destruct (PKIMessageBuilder._signers self); [done|discriminate Hinfos]. }
  assert (Hby : Forall (signed_by (PKIMessageBuilder._signers self) d attrs0)
                       (sd_signer_infos sd')).
  { apply Forall_forall. intros si' Hsi'.
    by destruct (decoded_signed_by _ _ _ _ _ Hsv Hinfos Hsi'). }
  assert (Hcne : exists c0 cs0, cs' = c0 :: cs0).
  { destruct (PKIMessageBuilder._signers self) as [|s0 ss]; [done|].
    apply Forall_cons_1 in Hin as [Hc _].
    destruct cs'; [by apply elem_of_nil in Hc|]. by eexists _, _. }
  destruct Hcne as (c0 & cs0 & Hcs0).
  destruct (parse_signers_reads sd' cs' _ d der attrs0 (sd_signer_infos sd')
              (SCEPMessage.set_certificates SCEPMessage.__init__ cs') w0
              He Hin Hr Hby) as (m & Hp & Hreads).
  { by repeat split. }
  pose proof (parse_signers_result _ _ _ _ _ _ _ Hp) as (_ & P1 & P2 & P3 & _).
  destruct (last (sd_signer_infos sd')) as [si'|] eqn:Hlast;
    [|by apply last_None in Hlast].
  exists (SCEPMessage.set_signed_data m (Some der)), si'. split.
  - unfold SCEPMessage.parse, lift, bind at 1. rewrite Hload.
    unfold SCEPMessage.parse_content_info. cbn [ci_content_type ci_content].
    unfold assert. cbn [String.eqb Ascii.eqb Bool.eqb]. rewrite !bind_ret.
    rewrite Hcs', Hcs0. cbn [map]. rewrite bind_assoc.
    erewrite bind_ok by exact (certificates_from_asn1_fmap (c0 :: cs0) w0).
    rewrite bind_ret.
    erewrite bind_ok; [|rewrite <- Hcs0; exact Hp].
    by rewrite He.
  - cbn [SCEPMessage.set_signed_data SCEPMessage._certificates
         SCEPMessage._signed_data SCEPMessage._signer_info].
    rewrite P2, P1. split; [done|]. split; [done|]. split; [done|].
    split.
    + apply last_Some_elem_of in Hlast.
      by destruct (decoded_signed_by _ _ _ _ _ Hsv Hinfos Hlast).
    + by apply Hreads.
Qed.

(** X17. When certificates are attached and none of them has the serial
    number the first signer is named by, [parse] raises [AttributeError]:
    the signer is not passed over. *)
Theorem parse_raises_without_signer_certificate (raw : bytes) (sd : SignedData)
    (cs : list Certificate) (si : SignerInfo) (rest : list SignerInfo)
    (ias : IssuerAndSerialNumber) (w : World) :
  load_content_info raw = Ok (mkContentInfo "signed_data" (SignedDataContent sd)) ->
  sd_certificates sd = certificate <$> cs ->
  cs <> [] ->
  sd_signer_infos sd = si :: rest ->
  si_sid si = issuer_and_serial_number ias ->
  Forall (fun c => serial_number c <> ias_serial_number ias) cs ->
  signature_algo (si_signature_algorithm si) = Ok "rsassa_pkcs1v15"%string ->
  In (si_digest_algorithm si) signer_digests ->
  SCEPMessage.parse raw w = (Raise AttributeError, w).
Proof.
  intros Hload Hcs Hne Hsi Hsid Hser Halg Hdig.
  assert (Hfind :
    find (fun c => (serial_number c =? ias_serial_number ias)%Z) cs = None).
  { clear Hcs Hne. induction Hser as [|c cs' Hc Hrest IH]; [done|].
    simpl. by apply Z.eqb_neq in Hc as ->. }
  destruct cs as [|c0 cs']; [done|].
  unfold SCEPMessage.parse, lift, bind at 1. rewrite Hload.
  unfold SCEPMessage.parse_content_info. cbn [ci_content_type ci_content].
  unfold assert. cbn [String.eqb Ascii.eqb Bool.eqb]. rewrite !bind_ret.
  rewrite Hcs, Hsi. cbn [fmap list_fmap].
  rewrite bind_assoc.
  erewrite bind_ok by exact (certificates_from_asn1_fmap (c0 :: cs') w).
  rewrite bind_ret. apply bind_raise.
  cbn [SCEPMessage.parse_signers]. apply bind_raise.
  unfold SCEPMessage.parse_signer, SCEPMessage.verify_content.
  rewrite Hsid, bind_ret, Hfind, Halg. unfold lift, assert, signer_digests in *.
  destruct Hdig as [<-|[<-|[<-|[]]]]; reflexivity.
Qed.

(** X18. An envelope made without recipients cannot be opened: when the
    content of a message decodes to the [EnvelopedData] that [finalize]
    made for a builder with no recipient,
    [get_decrypted_envelope_data] raises [IndexError] for every
    certificate and key. *)
Theorem envelope_without_recipients_cannot_be_opened
    (self : PKCSPKIEnvelopeBuilder.t) (w w' w0 : World) (ed : EnvelopedData)
    (k : CipherAlgorithm) (iv der : bytes) (msg : SCEPMessage.t)
    (certificate : Certificate) (sk : RSAPrivateKey) :
  PKCSPKIEnvelopeBuilder._recipients self = [] ->
  PKCSPKIEnvelopeBuilder.finalize self w = (Ok (ed, k, iv), w') ->
  SCEPMessage._signed_data msg = Some (Some der) ->
  load_content_info der
    = Ok (mkContentInfo "enveloped_data" (EnvelopedDataContent ed)) ->
  SCEPMessage.get_decrypted_envelope_data msg certificate sk w0
  = (Raise IndexError, w0).
Proof.
  intros Hr Hf Hsd Hload.
  apply finalize_one_info_per_recipient in Hf. rewrite Hr in Hf.
  apply nil_length_inv in Hf.
  by eapply decrypt_without_recipient_info.
Qed.

End RoundTrip.

(** ** The further properties on the examples *)

Lemma finalize_after_refused_encrypt_witness :
  @PKCSPKIEnvelopeBuilder.finalize Toy.crypto
    (add_recipients
       (snd (PKCSPKIEnvelopeBuilder.encrypt PKCSPKIEnvelopeBuilder.__init__
               Toy.plaintext None))
       [Toy.ra_cert]) Toy.w0
  = (Raise AttributeError, Toy.w0).
Proof.
  apply (@finalize_after_refused_encrypt Toy.crypto Toy.plaintext None
           [Toy.ra_cert] Toy.w0).
  intros [|[|[|[]]]]; discriminate.
Defined.



Lemma encrypt_data_pads_to_whole_blocks_witness :
  exists k iv n w',
    @PKCSPKIEnvelopeBuilder._encrypt_data Toy.crypto Toy.envelope_builder
      (Some Toy.plaintext) Toy.w0
    = (Ok (k, iv, Toy.cbc_encrypt k iv (Toy.plaintext ++ repeat (byte_of_nat n) n)), w')
    /\ length iv = block_size k / 8
    /\ block_size k / 8 = 8
    /\ 1 <= n <= block_size k / 8
    /\ (length Toy.plaintext + n) mod (block_size k / 8) = 0
    /\ Byte.to_nat (byte_of_nat n) = n
    /\ PKCS7_unpad (block_size k) (Toy.plaintext ++ repeat (byte_of_nat n) n)
       = Ok Toy.plaintext.
Proof.
  apply (@encrypt_data_pads_to_whole_blocks Toy.crypto Toy.envelope_builder
           Toy.plaintext "tripledes_3key" Toy.w0).
  - reflexivity.
  - simpl. tauto.
Defined.

Lemma aes_key_and_iv_are_drawn_witness :
  exists k iv ct w',
    @PKCSPKIEnvelopeBuilder._encrypt_data Toy.crypto Examples.aes_builder
      (Some Toy.plaintext) Toy.w0 = (Ok (k, iv, ct), w')
    /\ cipher_name k = CipherAES
    /\ key k = drawn 32 (rng Toy.w0) /\ length (key k) = 32
    /\ iv = drawn 16 (skip 32 (rng Toy.w0)) /\ length iv = 16
    /\ tape (rng w') = tape (rng Toy.w0) /\ pos (rng w') = pos (rng Toy.w0) + 32 + 16.
Proof.
  apply (@aes_key_and_iv_are_drawn Toy.crypto Examples.aes_builder
           Toy.plaintext "aes256_cbc" 32 Toy.w0).
  - reflexivity.
  - set_solver.
Defined.

Lemma signer_init_fresh_list_witness :
  exists s w',
    Signer.__init__ Toy.ra_cert Toy.ra_key "sha256" None Toy.world1 = (Ok s, w')
    /\ heap Toy.world1 !! Signer.signed_attributes s = None
    /\ heap w' = <[Signer.signed_attributes s := []]> (heap Toy.world1)
    /\ (forall l, is_Some (heap Toy.world1 !! l) -> heap w' !! l = heap Toy.world1 !! l)
    /\ rng w' = rng Toy.world1.
Proof.
  apply (signer_init_fresh_list Toy.ra_cert Toy.ra_key "sha256" Toy.world1).
  unfold signer_digests. simpl. tauto.
Defined.

Lemma toy_builder1_attached : signers_attached Toy.builder1.
Proof.
  unfold signers_attached.
  let b := eval vm_compute in Toy.builder1 in change Toy.builder1 with b.
  cbn [PKIMessageBuilder._signers PKIMessageBuilder._certificates].
  repeat constructor.
Qed.

Lemma toy_builder2_attached : signers_attached Toy.builder2.
Proof.
  unfold signers_attached.
  let b := eval vm_compute in Toy.builder2 in change Toy.builder2 with b.
  cbn [PKIMessageBuilder._signers PKIMessageBuilder._certificates].
  repeat constructor.
Qed.

Lemma add_signer_attaches_certificate_witness :
  PKIMessageBuilder._signers (PKIMessageBuilder.add_signer Toy.builder1 (Toy.signer 1))
  = PKIMessageBuilder._signers Toy.builder1 ++ [Toy.signer 1]
  /\ PKIMessageBuilder._certificates
       (PKIMessageBuilder.add_signer Toy.builder1 (Toy.signer 1))
     = PKIMessageBuilder._certificates Toy.builder1
       ++ [certificate (Signer.certificate (Toy.signer 1))]
  /\ signers_attached (PKIMessageBuilder.add_signer Toy.builder1 (Toy.signer 1))
  /\ signers_attached (PKIMessageBuilder.certificates Toy.builder1 [Toy.other_cert])
  /\ signers_attached (PKIMessageBuilder.pki_envelope Toy.builder1 Toy.envelope).
Proof.
  apply (add_signer_attaches_certificate Toy.builder1 (Toy.signer 1)
           [Toy.other_cert] Toy.envelope).
  apply toy_builder1_attached.
Defined.


Lemma finalize_without_signers_witness :
  exists ci sd,
    @PKIMessageBuilder.finalize Toy.crypto (Toy.codec []) Examples.certificate_only
      Examples.certificate_only_world
    = (Ok (ci, Examples.certificate_only), Examples.certificate_only_world)
    /\ ci_content ci = SignedDataContent sd
    /\ sd_signer_infos sd = []
    /\ sd_certificates sd = PKIMessageBuilder._certificates Examples.certificate_only
    /\ (let* (_, self') :=
          @PKIMessageBuilder.finalize Toy.crypto (Toy.codec []) Examples.certificate_only in
        @PKIMessageBuilder.finalize Toy.crypto (Toy.codec []) self')
         Examples.certificate_only_world
       = (Ok (ci, Examples.certificate_only), Examples.certificate_only_world).
Proof.
  apply (@finalize_without_signers Toy.crypto (Toy.codec [])
           Examples.certificate_only Examples.certificate_only_world).
  - vm_compute. reflexivity.
  - vm_compute. discriminate.
Defined.

Lemma finalize_attaches_signer_certificates_witness :
  exists sd self' w',
    @PKIMessageBuilder.finalize Toy.crypto (Toy.codec []) Toy.builder2 Toy.world2
    = (Ok (mkContentInfo "signed_data" (SignedDataContent sd), self'), w')
    /\ signers_attached self'
    /\ Forall (fun si => exists c,
                 certificate c ∈ sd_certificates sd
                 /\ si_sid si = issuer_and_serial_number
                                  (mkIAS (issuer c) (serial_number c)))
              (sd_signer_infos sd).
Proof.
  apply (@finalize_attaches_signer_certificates Toy.crypto (Toy.codec [])
           Toy.builder2 Toy.world2).
  - vm_compute. discriminate.
  - apply toy_builder2_attached.
Defined.

Lemma parse_result_witness :
  snd (@SCEPMessage.parse Toy.crypto Toy.full_codec Toy.raw Toy.w0) = Toy.w0
  /\ exists sd cs,
       Toy.load_from [Toy.pki_message; Toy.tampered_message; Toy.inner;
                      Toy.unpadded_inner] Toy.raw
       = Ok (mkContentInfo "signed_data" (SignedDataContent sd))
       /\ sd_certificates sd = certificate <$> cs
       /\ SCEPMessage._certificates Toy.parsed = cs
       /\ SCEPMessage._signer_info Toy.parsed = last (sd_signer_infos sd)
       /\ SCEPMessage._signed_data Toy.parsed
          = Some (encap_content (sd_encap_content_info sd))
       /\ Forall (fun si => exists ias, si_sid si = issuer_and_serial_number ias)
                 (sd_signer_infos sd).
Proof.
  apply (@parse_result Toy.crypto Toy.full_codec Toy.raw Toy.parsed Toy.w0
           (snd (@SCEPMessage.parse Toy.crypto Toy.full_codec Toy.raw Toy.w0))).
  apply outcome_pair. vm_compute. reflexivity.
Defined.

Lemma same_attributes_refl (x : list CMSAttribute) : Forall2 same_attribute x x.
Proof. induction x; constructor; [by split|done]. Qed.

Lemma same_sets_reorder (ci : ContentInfo) : same_sets ci (Examples.reorder ci).
Proof.
  unfold same_sets, Examples.reorder. split; [done|]. cbn [ci_content].
  destruct (ci_content ci) as [|sd|ed|b]; try done.
  repeat split; try done. cbn [sd_signer_infos].
  exists (Examples.reorder_signer_info <$> sd_signer_infos sd). split; [done|].
  apply Forall2_fmap_r, Forall_Forall2_diag, Forall_forall. intros si _.
  repeat split; try done. cbn [Examples.reorder_signer_info si_signed_attrs].
  destruct (si_signed_attrs si) as [x|]; [|done]. simpl.
  exists x. split; [apply reverse_Permutation|apply same_attributes_refl].
Qed.

Lemma parse_of_finalize_witness :
  let attrs0 := list_at (PKIMessageBuilder._cms_attributes Toy.builder1)
                        (heap Toy.world1) in
  let d := Toy.digest SHA1 (Toy.dump_content_info
                              (PKIMessageBuilder.pkienvelope_content_info Toy.builder1)) in
  exists msg si',
    @SCEPMessage.parse Toy.crypto Examples.reordering_codec Toy.raw Toy.w0 = (Ok msg, Toy.w0)
    /\ SCEPMessage._certificates msg ≡ₚ [Toy.ra_cert]
    /\ SCEPMessage._signed_data msg
       = Some (Some (Toy.dump_content_info
                       (PKIMessageBuilder.pkienvelope_content_info Toy.builder1)))
    /\ SCEPMessage._signer_info msg = Some si'
    /\ (exists si,
          si ∈ @signer_infos_of Toy.crypto Examples.reordering_codec
                 (PKIMessageBuilder._signers Toy.builder1) d attrs0
          /\ same_signer_info si si')
    /\ reads attrs0 msg.
Proof.
  apply (@parse_of_finalize Toy.crypto Examples.reordering_codec Toy.builder1
           Examples.builder1_after Toy.world1
           (snd (@PKIMessageBuilder.finalize Toy.crypto Examples.reordering_codec
                   Toy.builder1 Toy.world1))
           Toy.w0 Toy.pki_message (Examples.reorder Toy.pki_message) Toy.raw [Toy.ra_cert]).
  - apply outcome_pair. vm_compute. reflexivity.
  - vm_compute. reflexivity.
  - apply same_sets_reorder.
  - vm_compute. discriminate.
  - vm_compute. reflexivity.
  - apply toy_builder1_attached.
  - vm_compute. reflexivity.
  - let a := eval vm_compute in
      (list_at (PKIMessageBuilder._cms_attributes Toy.builder1) (heap Toy.world1)) in
    change (list_at (PKIMessageBuilder._cms_attributes Toy.builder1) (heap Toy.world1))
      with a.
    repeat constructor.
Defined.

(** On the example: the decoded attributes come in the reverse order, and
    the message type, the transaction id and the nonce that were set are
    read all the same. *)
Lemma parse_reordered_example :
  let msg := match fst (@SCEPMessage.parse Toy.crypto Examples.reordering_codec
                          Toy.raw Toy.w0) with
             | Ok msg => msg
             | Raise _ => SCEPMessage.__init__
             end in
  (attr_type <$> default [] (si_signed_attrs (Toy.signer_info (Examples.reorder Toy.pki_message))))
  = ["sender_nonce"; "transaction_id"; "message_type"; "message_digest";
     "content_type"]%string
  /\ SCEPMessage._transaction_id msg = Some (PrintableString "abcd-1234")
  /\ SCEPMessage._message_type msg = PKCSReq
  /\ SCEPMessage._sender_nonce msg = Some (OctetString (drawn 16 (rng Toy.w0))).
Proof. repeat split; vm_compute; reflexivity. Qed.

(** On the example, decoded in the order the builder appended in: the
    three attributes the setters appended come back. *)
Lemma parse_of_finalize_example :
  SCEPMessage._transaction_id Toy.parsed = Some (PrintableString "abcd-1234")
  /\ SCEPMessage._message_type Toy.parsed = PKCSReq
  /\ SCEPMessage._sender_nonce Toy.parsed = Some (OctetString (drawn 16 (rng Toy.w0)))
  /\ SCEPMessage._pki_status Toy.parsed = None.
Proof. repeat split; vm_compute; reflexivity. Qed.

Lemma parse_raises_without_signer_certificate_witness :
  @SCEPMessage.parse Toy.crypto Examples.mismatched_codec
    (Toy.dump_content_info Examples.mismatched_message) Toy.w0
  = (Raise AttributeError, Toy.w0).
Proof.
  apply (@parse_raises_without_signer_certificate Toy.crypto Examples.mismatched_codec
           (Toy.dump_content_info Examples.mismatched_message)
           Examples.mismatched_signed_data [Toy.other_cert]
           (Toy.signer_info Toy.pki_message) [] (mkIAS "CN=RA" 1) Toy.w0).
  - vm_compute. reflexivity.
  - vm_compute. reflexivity.
  - discriminate.
  - vm_compute. reflexivity.
  - vm_compute. reflexivity.
  - repeat constructor. vm_compute. discriminate.
  - vm_compute. reflexivity.
  - vm_compute. tauto.
Defined.

Lemma envelope_without_recipients_cannot_be_opened_witness :
  @SCEPMessage.get_decrypted_envelope_data Toy.crypto Examples.lonely_codec
    Examples.lonely_message Toy.ra_cert Toy.ra_key Toy.w0
  = (Raise IndexError, Toy.w0).
Proof.
  apply (@envelope_without_recipients_cannot_be_opened Toy.crypto Examples.lonely_codec
           Toy.envelope_builder Toy.w0
           (snd (@PKCSPKIEnvelopeBuilder.finalize Toy.crypto Toy.envelope_builder Toy.w0))
           Toy.w0 Examples.lonely_envelope Examples.lonely_key Examples.lonely_iv
           (Toy.dump_content_info Examples.lonely_inner) Examples.lonely_message
           Toy.ra_cert Toy.ra_key).
  - reflexivity.
  - apply outcome_pair. vm_compute. reflexivity.
  - reflexivity.
  - vm_compute. reflexivity.
Defined.

Lemma set_attributes_spec_witness :
  exists msg',
    SCEPMessage.set_attributes SCEPMessage.__init__ Toy.scep_attrs Toy.w0
    = (Ok msg', Toy.w0)
    /\ SCEPMessage._transaction_id msg'
       = read_field "transaction_id" Toy.scep_attrs None
    /\ SCEPMessage._sender_nonce msg'
       = read_field "sender_nonce" Toy.scep_attrs None
    /\ SCEPMessage._recipient_nonce msg'
       = read_field "recipient_nonce" Toy.scep_attrs None
    /\ SCEPMessage._pki_status msg'
       = read_field "pki_status" Toy.scep_attrs None
    /\ SCEPMessage._fail_info msg'
       = read_field "fail_info" Toy.scep_attrs None
    /\ SCEPMessage._message_type msg'
       = read_message_type Toy.scep_attrs CertRep.
Proof.
  apply (proj2 (set_attributes_spec Toy.scep_attrs SCEPMessage.__init__ Toy.w0)).
  vm_compute. reflexivity.
Defined.
